(** * SQL complexity scoring engines: a shallow embedding

    The repository holds two rule-driven scorers for SQL text,
    [conversion_complexity_scoring_engine.py] and
    [structural_complexity_scoring_engine.py].  This development embeds
    their scoring pipeline: preprocessing, rule matching, the structural
    metric scanners, score aggregation, level classification and the
    per-file and per-corpus roll-ups.

    Conventions.
    - SQL text is a [string] of 8-bit characters read as the code points
      0..255.  Python's [str.isspace], [str.isalnum] and the regex classes
      [\s] and [\w] are reproduced exactly on that range; [str.upper] is
      reproduced wherever the capital is again an 8-bit character.
    - Python integers are [Z]; Python floats are exact rationals [Q].
      The two agree as long as every float involved is held exactly:
      integers and half-integers up to 2^53 in absolute value.  A
      statement that equates a stored float with an exact sum carries
      that range as a hypothesis; bounds and comparisons do not need
      it.  [round] is taken on the exact value.
    - Python's [re] module is an interface ([Regex]) for the patterns that
      come from the rule catalogue; the fixed patterns of the
      preprocessor and of the column counter are written out as string
      functions. *)

From Stdlib Require Import ZArith QArith Qround Lia Lqa Ascii String List Bool.
From stdpp Require Import gmap strings list fin_maps sorting.
Import ListNotations.

Open Scope string_scope.
Open Scope Z_scope.

(** ** Characters *)

Definition code (c : ascii) : N := N_of_ascii c.

Definition in_range (lo hi : N) (c : ascii) : bool :=
  ((lo <=? code c) && (code c <=? hi))%N.

(** [str.isspace] and the regex class [\s] on code points below 256. *)
Definition is_space (c : ascii) : bool :=
  in_range 9 13 c || in_range 28 32 c || in_range 133 133 c
  || in_range 160 160 c.

(** [str.isalnum] on code points below 256. *)
Definition isalnum (c : ascii) : bool :=
  in_range 48 57 c || in_range 65 90 c || in_range 97 122 c
  || in_range 170 170 c || in_range 178 179 c || in_range 181 181 c
  || in_range 185 186 c || in_range 188 190 c || in_range 192 214 c
  || in_range 216 246 c || in_range 248 255 c.

(** The regex class [\w]: alphanumeric or underscore. *)
Definition is_word (c : ascii) : bool :=
  isalnum c || in_range 95 95 c.

(** [str.upper] on one character.  The three 8-bit letters whose capital
    is not one 8-bit character are left as they are: Python gives the
    two letters SS for 223 and capitals above 255 for 181 and 255. *)
Definition upper_char (c : ascii) : ascii :=
  if in_range 97 122 c || in_range 224 246 c || in_range 248 254 c
  then ascii_of_N (code c - 32)
  else c.

Definition ascii_eqb (a b : ascii) : bool := Ascii.eqb a b.

(** ** Strings *)

Fixpoint upper (s : string) : string :=
  match s with
  | EmptyString => EmptyString
  | String c s' => String (upper_char c) (upper s')
  end.

Definition len (s : string) : Z := Z.of_nat (String.length s).

(** [drop n s] is the Python slice [s[n:]]. *)
Fixpoint drop_str (n : nat) (s : string) : string :=
  match n, s with
  | O, _ => s
  | S n', EmptyString => EmptyString
  | S n', String _ s' => drop_str n' s'
  end.

(** [slice s i j] is [s[i:j]] for non-negative [i] and [j]; like Python
    it clamps at the end of the string. *)
Definition slice (s : string) (i j : Z) : string :=
  substring (Z.to_nat i) (Z.to_nat (j - i)) s.

(** [char_at s i] is [s[i]] for [0 <= i < len s]. *)
Definition char_at (s : string) (i : Z) : option ascii :=
  if i <? 0 then None else String.get (Z.to_nat i) s.

Definition char_is (s : string) (i : Z) (c : ascii) : bool :=
  match char_at s i with
  | Some d => ascii_eqb d c
  | None => false
  end.

(** [startswith s p] is [s.startswith(p)]. *)
Definition startswith (s p : string) : bool := String.prefix p s.

(** [py_find s sub start] is [s.find(sub, start)], with -1 for "absent". *)
Definition py_find (s sub : string) (start : Z) : Z :=
  match String.index (Z.to_nat start) sub s with
  | Some n => Z.of_nat n
  | None => -1
  end.

Fixpoint lstrip (s : string) : string :=
  match s with
  | EmptyString => EmptyString
  | String c s' => if is_space c then lstrip s' else s
  end.

Fixpoint rstrip (s : string) : string :=
  match s with
  | EmptyString => EmptyString
  | String c s' =>
      match rstrip s' with
      | EmptyString => if is_space c then EmptyString else String c EmptyString
      | r => String c r
      end
  end.

(** [strip s] is [s.strip()]. *)
Definition strip (s : string) : string := rstrip (lstrip s).

(** [count_char c s] is [s.count(c)] for a one-character needle. *)
Fixpoint count_char (c : ascii) (s : string) : Z :=
  match s with
  | EmptyString => 0
  | String d s' => (if ascii_eqb d c then 1 else 0) + count_char c s'
  end.

(** Case-insensitive prefix test, as a regex literal behaves under
    [re.IGNORECASE] on 8-bit text. *)
Definition startswith_ci (s p : string) : bool :=
  String.prefix (upper p) (upper (substring 0 (String.length p) s)).

Fixpoint mem_char (c : ascii) (s : string) : bool :=
  match s with
  | EmptyString => false
  | String d s' => ascii_eqb d c || mem_char c s'
  end.

(** ** Regular-expression substitution

    [re_sub m s] is [re.sub] for a pattern that never matches the empty
    string: [m u] tells whether the pattern matches at the head of [u]
    and, if so, gives the replacement text and the text after the match.
    The scan goes left to right and resumes after each match. *)

Definition matcher := string -> option (string * string).

Fixpoint re_sub_loop (fuel : nat) (m : matcher) (s : string) : string :=
  match fuel with
  | O => s
  | S fuel' =>
      match s with
      | EmptyString => EmptyString
      | String c s' =>
          match m s with
          | Some (out, rest) => out +:+ re_sub_loop fuel' m rest
          | None => String c (re_sub_loop fuel' m s')
          end
      end
  end.

Definition re_sub (m : matcher) (s : string) : string :=
  re_sub_loop (String.length s) m s.

(** ** SqlPreprocessor: [_preprocess_sql] (identical in both engines) *)

Definition tag_names : list string :=
  ["if"; "choose"; "when"; "otherwise"; "foreach"; "where"; "set"; "trim"].

(** [<!\[CDATA\[(.*?)\]\]>] with [re.DOTALL], replaced by group 1. *)
Definition match_cdata : matcher := fun s =>
  if startswith s "<![CDATA[" then
    let body := drop_str 9 s in
    match String.index 0 "]]>" body with
    | Some k => Some (substring 0 k body, drop_str (k + 3) body)
    | None => None
    end
  else None.

(** [<(if|choose|...|trim)[^>]*>] with [re.IGNORECASE], replaced by a
    space. *)
Definition match_open_tag : matcher := fun s =>
  match s with
  | String c t =>
      if ascii_eqb c "<" && existsb (startswith_ci t) tag_names then
        match String.index 0 ">" t with
        | Some k => Some (" ", drop_str (k + 1) t)
        | None => None
        end
      else None
  | EmptyString => None
  end.

(** [</(if|choose|...|trim)>] with [re.IGNORECASE], replaced by a
    space. *)
Definition match_close_tag : matcher := fun s =>
  match List.find (fun n => startswith_ci s ("</" +:+ n +:+ ">")) tag_names with
  | Some n => Some (" ", drop_str (String.length n + 3) s)
  | None => None
  end.

(** [#\{[^}]+\}] (sigil [#]) and [\$\{[^}]+\}] (sigil [$]), replaced by
    a question mark. *)
Definition match_param (sigil : ascii) : matcher := fun s =>
  match s with
  | String c0 (String c1 (String c2 rest)) =>
      if ascii_eqb c0 sigil && ascii_eqb c1 "{" && negb (ascii_eqb c2 "}")
      then
        match String.index 0 "}" rest with
        | Some k => Some ("?", drop_str (k + 1) rest)
        | None => None
        end
      else None
  | _ => None
  end.

(** [\s+], replaced by a space. *)
Definition match_spaces : matcher := fun s =>
  match s with
  | String c s' => if is_space c then Some (" ", lstrip s') else None
  | EmptyString => None
  end.

Definition _preprocess_sql (sql : string) : string :=
  let sql := re_sub match_cdata sql in
  let sql := re_sub match_open_tag sql in
  let sql := re_sub match_close_tag sql in
  let sql := re_sub (match_param "#") sql in
  let sql := re_sub (match_param "$") sql in
  strip (re_sub match_spaces sql).

(** ** Python's [re] module, for catalogue patterns

    Rule patterns come from the rule file, so compiling and matching them
    is left to an interface.  [re_compile src dotall] is
    [re.compile(src, re.IGNORECASE)] or, when [dotall] is set,
    [re.compile(src, re.IGNORECASE | re.DOTALL)]; [None] stands for
    [re.error].  [findall] gives a list of strings for a pattern with at
    most one group and a list of tuples otherwise. *)

Inductive findall_result :=
  | Strings (l : list string)
  | Tuples (l : list (list string)).

Class Regex := {
  pattern : Type;
  re_compile : string -> bool -> option pattern;
  re_escape : string -> string;
  findall : pattern -> string -> findall_result;
  (** [[m.group(1) for m in p.finditer(s)]] *)
  finditer_group1 : pattern -> string -> list string;
  (** [str(m)] for a tuple [m] of groups *)
  tuple_str : list string -> string
}.

Definition nonempty (s : string) : bool :=
  match s with EmptyString => false | _ => true end.

Section Matching.
Context `{Regex}.

(** [_count_pattern_matches] (identical in both engines).  A tuple
    returned by [findall] has at least two components, so [m[0]]
    exists. *)
Definition _count_pattern_matches (sql : string) (p : pattern)
  : Z * list string :=
  match findall p sql with
  | Strings [] | Tuples [] => (0, [])
  | Strings l => (Z.of_nat (length l), take 5 l)
  | Tuples l =>
      let matched_strings :=
        map (fun m => match m with
                      | m0 :: _ => if nonempty m0 then m0 else tuple_str m
                      | [] => tuple_str m
                      end) l in
      (Z.of_nat (length l), take 5 matched_strings)
  end.
End Matching.

(** ** Numbers *)

(** [sum(...)] over integers and over floats: left to right from 0. *)
Definition sumZ (l : list Z) : Z := fold_left Z.add l 0.
Definition sumQ (l : list Q) : Q := fold_left Qplus l (0 : Q).

(** [a / n]; [None] stands for [ZeroDivisionError]. *)
Definition py_div (a : Q) (n : Z) : option Q :=
  if n =? 0 then None else Some (a / inject_Z n)%Q.

(** [round(q)]: to the nearest integer, ties to even. *)
Definition round_half_even (q : Q) : Z :=
  let f := Qfloor q in
  match (q - inject_Z f ?= 1 # 2)%Q with
  | Lt => f
  | Gt => f + 1
  | Eq => if Z.even f then f else f + 1
  end.

(** [round(q, 2)], on the exact value of [q]: the value the code gets
    whenever [q] and the result are held exactly by a float. *)
Definition round2 (q : Q) : Q :=
  (inject_Z (round_half_even (q * 100)) / 100)%Q.

(** [d.get(k, 0)] and [d[k] += n] on a dictionary of counters. *)
Definition get0 (d : gmap string Z) (k : string) : Z := default 0 (d !! k).
Definition bump (k : string) (n : Z) (d : gmap string Z) : gmap string Z :=
  <[k := get0 d k + n]> d.

(** A query record of the corpus: [{name|type, sql}], every key
    optional. *)
Record Query := {
  q_name : option string;
  q_type : option string;
  q_sql : option string
}.

(** A file record of the corpus: [{file_name, file_path, queries}],
    every key optional. *)
Record FileData := {
  fd_file_name : option string;
  fd_file_path : option string;
  fd_queries : option (list Query)
}.

(** [query.get('name', query.get('type', 'unknown'))] *)
Definition query_label (q : Query) : string :=
  default (default "unknown" (q_type q)) (q_name q).

(** [sql[:500] + '...' if len(sql) > 500 else sql] *)
Definition stored_sql (sql : string) : string :=
  if len sql >? 500 then slice sql 0 500 +:+ "..." else sql.

(** * The conversion-complexity engine
      ([conversion_complexity_scoring_engine.py]) *)

Module Conversion.

(** The five level labels of [COMPLEXITY_LEVELS], lowest first: very low
    ('매우 낮음'), low ('낮음'), medium ('중간'), high ('높음') and very
    high ('매우 높음'). *)
Inductive level := VeryLow | Low | Medium | High | VeryHigh.

#[global] Instance level_eq_dec : EqDecision level.
Proof. solve_decision. Defined.

Definition level_code (l : level) : nat :=
  match l with
  | VeryLow => 0 | Low => 1 | Medium => 2 | High => 3 | VeryHigh => 4
  end%nat.

Definition level_of_code (n : nat) : option level :=
  match n with
  | 0 => Some VeryLow | 1 => Some Low | 2 => Some Medium | 3 => Some High
  | 4 => Some VeryHigh | _ => None
  end%nat.

#[global] Instance level_countable : Countable level.
Proof.
  apply (inj_countable level_code level_of_code).
  intros []; reflexivity.
Defined.

(** A band [{'level', 'min', 'max'}]; [b_max = None] is [float('inf')]. *)
Record Band := { b_level : level; b_min : Q; b_max : option Q }.

Definition COMPLEXITY_LEVELS : list Band :=
  [ {| b_level := VeryLow; b_min := 0; b_max := Some 10%Q |};
    {| b_level := Low; b_min := 10; b_max := Some 30%Q |};
    {| b_level := Medium; b_min := 30; b_max := Some 60%Q |};
    {| b_level := High; b_min := 60; b_max := Some 100%Q |};
    {| b_level := VeryHigh; b_min := 100; b_max := None |} ].

(** [GRADE_COEFFICIENTS] *)
Definition GRADE_COEFFICIENTS : gmap string Q :=
  list_to_map [("A", 1 # 2); ("P", 1 # 1); ("M", 3 # 2)]%Q.

(** [level['min'] <= score < level['max']] *)
Definition in_band (score : Q) (b : Band) : bool :=
  Qle_bool (b_min b) score
  && match b_max b with
     | Some m => negb (Qle_bool m score)
     | None => true
     end.

(** [_get_complexity_level]: the first band that holds the score, and
    the fall-through label when there is none. *)
Definition _get_complexity_level (score : Q) : level :=
  match List.find (in_band score) COMPLEXITY_LEVELS with
  | Some b => b_level b
  | None => VeryHigh
  end.

Section Engine.
Context `{Regex}.

(** A compiled rule: the dictionary built by [_compile_patterns]. *)
Record CompiledRule := {
  id : string;
  name : string;
  weight : Z;
  conversion_grade : string;
  detection_method : string;
  rule_pattern : string;
  category : string;
  subcategory : string;
  compiled_pattern : option pattern
}.

Record RuleMatch := {
  rule_id : string;
  rule_name : string;
  rm_weight : Z;
  rm_conversion_grade : string;
  rm_category : string;
  rm_subcategory : string;
  match_count : Z;
  matched_patterns : list string
}.

Record QueryScore := {
  query_name : string;
  sql : string;
  raw_score : Z;
  weighted_score : Q;
  complexity_level : level;
  matched_rules : list RuleMatch;
  grade_summary : gmap string Z
}.

Record FileScore := {
  file_name : string;
  file_path : string;
  query_count : Z;
  total_raw_score : Z;
  total_weighted_score : Q;
  avg_score : Q;
  complexity_distribution : gmap level Z;
  queries : list QueryScore
}.

(** The engine after [__init__]: the normalised dialect token and the
    compiled catalogue.  The counters [rule_match_counts] are threaded
    through the scoring functions. *)
Record Engine := {
  source_db : string;
  compiled_patterns : list CompiledRule
}.

(** State of the rule loop of [score_query]: matched rules, grade
    summary, match counters. *)
Definition loop_state : Type :=
  list RuleMatch * gmap string Z * gmap string Z.

Definition rule_step (preprocessed_sql : string) (st : loop_state)
    (rule : CompiledRule) : loop_state :=
  let '(matched_rules, grade_summary, counts) := st in
  match compiled_pattern rule with
  | None => st
  | Some p =>
      let '(match_count, matched_patterns) :=
        _count_pattern_matches preprocessed_sql p in
      if match_count >? 0 then
        let rule_match :=
          {| rule_id := id rule;
             rule_name := name rule;
             rm_weight := weight rule;
             rm_conversion_grade := conversion_grade rule;
             rm_category := category rule;
             rm_subcategory := subcategory rule;
             match_count := match_count;
             matched_patterns := matched_patterns |} in
        let grade := conversion_grade rule in
        ((matched_rules ++ [rule_match])%list,
         match grade_summary !! grade with
         | Some _ => bump grade match_count grade_summary
         | None => grade_summary
         end,
         bump (id rule) match_count counts)
      else st
  end.

Definition grade_coefficient (r : RuleMatch) : Q :=
  default 1%Q (GRADE_COEFFICIENTS !! rm_conversion_grade r).

(** [score_query]; returns the score and the updated counters.  The
    weighted score is a sum of floats in the code: multiples of 1/2,
    held exactly while they stay within 2^52 in absolute value. *)
Definition score_query (e : Engine) (counts : gmap string Z)
    (sql : string) (query_name : string) : QueryScore * gmap string Z :=
  let preprocessed_sql := _preprocess_sql sql in
  let '(matched_rules, grade_summary, counts) :=
    fold_left (rule_step preprocessed_sql) (compiled_patterns e)
      ([], list_to_map [("A", 0); ("P", 0); ("M", 0)], counts) in
  let raw_score :=
    sumZ (map (fun r => rm_weight r * match_count r) matched_rules) in
  let weighted_score :=
    sumQ (map (fun r => inject_Z (rm_weight r * match_count r)
                        * grade_coefficient r)%Q matched_rules) in
  let complexity_level := _get_complexity_level weighted_score in
  ({| query_name := query_name;
      sql := stored_sql sql;
      raw_score := raw_score;
      weighted_score := round2 weighted_score;
      complexity_level := complexity_level;
      matched_rules := matched_rules;
      grade_summary := grade_summary |}, counts).

(** State of the query loop of [analyze_file]. *)
Definition file_state : Type :=
  list QueryScore * gmap level Z * gmap string Z.

Definition query_step (e : Engine) (st : file_state) (query : Query)
  : file_state :=
  let '(query_scores, complexity_dist, counts) := st in
  let query_name := query_label query in
  let sql := default "" (q_sql query) in
  if negb (nonempty sql) then st
  else
    let '(score, counts) := score_query e counts sql query_name in
    ((query_scores ++ [score])%list,
     <[complexity_level score :=
         default 0 (complexity_dist !! complexity_level score) + 1]>
       complexity_dist,
     counts).

(** [analyze_file]; [None] stands for an arithmetic fault. *)
Definition analyze_file (e : Engine) (counts : gmap string Z)
    (file_data : FileData) : option (FileScore * gmap string Z) :=
  let queries := default [] (fd_queries file_data) in
  let '(query_scores, complexity_dist, counts) :=
    fold_left (query_step e) queries ([], ∅, counts) in
  let total_raw := sumZ (map raw_score query_scores) in
  let total_weighted := sumQ (map weighted_score query_scores) in
  avg_score ←
    match query_scores with
    | [] => Some 0%Q
    | _ => py_div total_weighted (Z.of_nat (length query_scores))
    end;
  Some ({| file_name := default "" (fd_file_name file_data);
           file_path := default "" (fd_file_path file_data);
           query_count := Z.of_nat (length query_scores);
           total_raw_score := total_raw;
           total_weighted_score := round2 total_weighted;
           avg_score := round2 avg_score;
           complexity_distribution := complexity_dist;
           queries := query_scores |}, counts).

(** The [summary] dictionary of [analyze_json_files]. *)
Record Summary := {
  total_queries : Z;
  s_total_weighted_score : Q;
  average_score : Q;
  overall_complexity_level : level;
  s_complexity_distribution : gmap level Z;
  grade_distribution : gmap string Z
}.

(** [_calculate_grade_distribution] *)
Definition _calculate_grade_distribution (files : list FileScore)
  : gmap string Z :=
  fold_left
    (fun grade_dist file_score =>
       fold_left
         (fun grade_dist query =>
            fold_left
              (fun grade_dist '(grade, count) =>
                 match grade_dist !! grade with
                 | Some _ => bump grade count grade_dist
                 | None => grade_dist
                 end)
              (map_to_list (grade_summary query)) grade_dist)
         (queries file_score) grade_dist)
    files (list_to_map [("A", 0); ("P", 0); ("M", 0)]).

(** State of the file loop of [analyze_json_files]: the file scores,
    [total_queries], [total_score], the overall distribution and the
    match counters. *)
Record corpus_state := {
  all_files : list FileScore;
  cs_total_queries : Z;
  total_score : Q;
  overall_complexity_dist : gmap level Z;
  cs_counts : gmap string Z
}.

Definition file_step (e : Engine) (st : option corpus_state)
    (file_data : FileData) : option corpus_state :=
  st ← st;
  '(file_score, counts) ← analyze_file e (cs_counts st) file_data;
  Some {| all_files := (all_files st ++ [file_score])%list;
          cs_total_queries := cs_total_queries st + query_count file_score;
          total_score :=
            (total_score st + total_weighted_score file_score)%Q;
          overall_complexity_dist :=
            fold_left
              (fun d '(level, count) =>
                 <[level := default 0 (d !! level) + count]> d)
              (map_to_list (complexity_distribution file_score))
              (overall_complexity_dist st);
          cs_counts := counts |}.

(** [analyze_json_files] on the parsed documents: each document is the
    list under its ['files'] key.  The result is the file scores and
    the summary (metadata and rule statistics are left to the report
    layer). *)
Definition analyze_json_files (e : Engine) (counts : gmap string Z)
    (documents : list (list FileData))
  : option (list FileScore * Summary) :=
  st ← fold_left (file_step e) (concat documents)
         (Some {| all_files := []; cs_total_queries := 0;
                  total_score := 0; overall_complexity_dist := ∅;
                  cs_counts := counts |});
  avg_score ←
    (if cs_total_queries st >? 0
     then py_div (total_score st) (cs_total_queries st)
     else Some 0%Q);
  Some (all_files st,
        {| total_queries := cs_total_queries st;
           s_total_weighted_score := round2 (total_score st);
           average_score := round2 avg_score;
           overall_complexity_level := _get_complexity_level avg_score;
           s_complexity_distribution := overall_complexity_dist st;
           grade_distribution :=
             _calculate_grade_distribution (all_files st) |}).

(** ** Building the catalogue *)

(** [DB_ALIASES], in the order the dictionary is written. *)
Definition DB_ALIASES : list (string * list string) :=
  [ ("ORA", ["ORA"; "ORACLE"]); ("MY", ["MY"; "MYSQL"]);
    ("MDB", ["MDB"; "MARIADB"]); ("PG", ["PG"; "POSTGRESQL"; "POSTGRES"]);
    ("SS", ["SS"; "SQLSERVER"; "MSSQL"]); ("ALT", ["ALT"; "ALTIBASE"]);
    ("DB2", ["DB2"; "IBM DB2"]) ].

(** [_normalize_db_name] *)
Definition _normalize_db_name (db_name : string) : string :=
  let db_upper := upper db_name in
  match List.find (fun '(_, aliases) => existsb (String.eqb db_upper) aliases)
          DB_ALIASES with
  | Some (canonical, _) => canonical
  | None => db_upper
  end.

(** A rule of the rule file, every key optional.  The keys [logic],
    [group] and [note], which the engine copies and never reads, are
    left out. *)
Record RawRule := {
  raw_id : option string;
  raw_name : option string;
  raw_weight : option Z;
  raw_conversion_grade : option string;
  raw_detection_method : option string;
  raw_pattern : option string;
  raw_applicable_db : option (list string)
}.

(** The value under a subcategory key: a list of rules, or something
    else. *)
Inductive yaml_rules :=
  | RuleList (rules_list : list RawRule)
  | NotAList.

(** The value under a category key: a mapping from subcategory names,
    in the order of the file, or something else. *)
Inductive yaml_category :=
  | SubCategories (category_data : list (string * yaml_rules))
  | NotADict.

(** The rule file after [yaml.safe_load]: the mapping under [rules], in
    the order of the file. *)
Record RuleFile := {
  rf_rules : option (list (string * yaml_category))
}.

(** [_is_applicable_rule] *)
Definition _is_applicable_rule (source_db : string) (rule : RawRule) : bool :=
  let applicable_db := default [] (raw_applicable_db rule) in
  match applicable_db with
  | [] => false
  | _ =>
      if existsb (String.eqb "ALL") applicable_db then true
      else existsb (String.eqb source_db) applicable_db
  end.

(** The body of the innermost loop of [_compile_patterns]: the compiled
    dictionary of one applicable rule. *)
Definition compile_rule (rule : RawRule)
    (category_name subcategory_name : string) : CompiledRule :=
  let detection_method := default "regex" (raw_detection_method rule) in
  let rule_pattern := default "" (raw_pattern rule) in
  {| id := default "" (raw_id rule);
     name := default "" (raw_name rule);
     weight := default 0 (raw_weight rule);
     conversion_grade := default "P" (raw_conversion_grade rule);
     detection_method := detection_method;
     rule_pattern := rule_pattern;
     category := category_name;
     subcategory := subcategory_name;
     compiled_pattern :=
       if String.eqb detection_method "regex" && nonempty rule_pattern
       then re_compile rule_pattern true
       else if String.eqb detection_method "keyword"
               && nonempty rule_pattern
       then re_compile ("\b" +:+ re_escape rule_pattern +:+ "\b") false
       else None |}.

(** [_compile_patterns] *)
Definition _compile_patterns (source_db : string) (rules : RuleFile)
  : list CompiledRule :=
  flat_map
    (fun '(category_name, category_data) =>
       match category_data with
       | NotADict => []
       | SubCategories category_data =>
           flat_map
             (fun '(subcategory_name, rules_list) =>
                match rules_list with
                | NotAList => []
                | RuleList rules_list =>
                    map (fun rule =>
                           compile_rule rule category_name subcategory_name)
                      (List.filter (_is_applicable_rule source_db)
                         rules_list)
                end)
             category_data
       end)
    (default [] (rf_rules rules)).

(** [__init__], from the loaded rule file. *)
Definition init (rules : RuleFile) (source_db : string) : Engine :=
  let source_db := _normalize_db_name source_db in
  {| source_db := source_db;
     compiled_patterns := _compile_patterns source_db rules |}.


End Engine.

End Conversion.

(** * The structural-complexity engine
      ([structural_complexity_scoring_engine.py]) *)

Module Structural.

(** The five level labels of [COMPLEXITY_LEVELS], lowest first: very
    simple ('매우 단순'), simple ('단순'), moderate ('보통'), complex
    ('복잡') and very complex ('매우 복잡'). *)
Inductive level := VerySimple | Simple | Moderate | Complex | VeryComplex.

#[global] Instance level_eq_dec : EqDecision level.
Proof. solve_decision. Defined.

Definition level_code (l : level) : nat :=
  match l with
  | VerySimple => 0 | Simple => 1 | Moderate => 2 | Complex => 3
  | VeryComplex => 4
  end%nat.

Definition level_of_code (n : nat) : option level :=
  match n with
  | 0 => Some VerySimple | 1 => Some Simple | 2 => Some Moderate
  | 3 => Some Complex | 4 => Some VeryComplex | _ => None
  end%nat.

#[global] Instance level_countable : Countable level.
Proof.
  apply (inj_countable level_code level_of_code).
  intros []; reflexivity.
Defined.

Record Band := { b_level : level; b_min : Q; b_max : Q }.

Definition COMPLEXITY_LEVELS : list Band :=
  [ {| b_level := VerySimple; b_min := 0; b_max := 2 |};
    {| b_level := Simple; b_min := 2; b_max := 4 |};
    {| b_level := Moderate; b_min := 4; b_max := 6 |};
    {| b_level := Complex; b_min := 6; b_max := 8 |};
    {| b_level := VeryComplex; b_min := 8; b_max := 10 |} ].

(** [CATEGORY_WEIGHTS], in the order the dictionary is written. *)
Definition CATEGORY_WEIGHTS : list (string * Q) :=
  [ ("structural", 30 # 100); ("clause", 15 # 100);
    ("function_expression", 20 # 100); ("query_metric", 10 # 100);
    ("dbms_specific", 25 # 100) ]%Q.

(** [CATEGORY_MAX_SCORES] *)
Definition CATEGORY_MAX_SCORES : gmap string Q :=
  list_to_map
    [ ("structural", 100); ("clause", 50); ("function_expression", 80);
      ("query_metric", 40); ("dbms_specific", 100) ]%Q.

(** [level['min'] <= score < level['max']] *)
Definition in_band (score : Q) (b : Band) : bool :=
  Qle_bool (b_min b) score && negb (Qle_bool (b_max b) score).

(** [_get_complexity_level] *)
Definition _get_complexity_level (score : Q) : level :=
  match List.find (in_band score) COMPLEXITY_LEVELS with
  | Some b => b_level b
  | None => VeryComplex
  end.

(** [min(a, b)] on floats *)
Definition qmin (a b : Q) : Q := if Qle_bool a b then a else b.

(** [_calculate_normalized_score] *)
Definition _calculate_normalized_score (category_scores : gmap string Q) : Q :=
  fold_left
    (fun weighted_sum '(category, weight) =>
       let raw_score := default 0%Q (category_scores !! category) in
       let max_score := default 100%Q (CATEGORY_MAX_SCORES !! category) in
       let normalized := qmin (raw_score / max_score * 10) 10 in
       (weighted_sum + normalized * weight)%Q)
    CATEGORY_WEIGHTS 0%Q.

(** ** StructuralMetricsScanner: the scanning parts of
       [_calculate_metrics] *)

(** Subquery depth: one step of the loop [while i < len(sql)], on the
    state [(current_depth, max_depth)]. *)
Definition depth_step (sql sql_upper : string) (st : Z * Z) (i : Z) : Z * Z :=
  let '(current_depth, max_depth) := st in
  if char_is sql i "(" && startswith (slice sql_upper i (i + 10)) "(SELECT"
  then
    let current_depth := current_depth + 1 in
    (current_depth, Z.max max_depth current_depth)
  else if char_is sql i ")" && (current_depth >? 0) then
    (current_depth - 1, max_depth)
  else st.

Definition depth_scan (sql sql_upper : string) : Z * Z :=
  fold_left (depth_step sql sql_upper) (seqZ 0 (len sql)) (0, 0).

Definition subquery_depth (sql : string) : Z :=
  Z.min (snd (depth_scan sql (upper sql))) 5.

(** [not sql[i].isalnum()] *)
Definition not_alnum_at (sql : string) (i : Z) : bool :=
  match char_at sql i with
  | Some c => negb (isalnum c)
  | None => true
  end.

(** Top-level [FROM]: one step of the loop [while i < len(sql) - 3], on
    the state [(depth, from_pos)]; once [from_pos] is set the loop has
    left through [break]. *)
Definition from_step (sql sql_upper : string) (st : Z * Z) (i : Z) : Z * Z :=
  let '(depth, from_pos) := st in
  if negb (from_pos =? -1) then st
  else if char_is sql i "(" then (depth + 1, from_pos)
  else if char_is sql i ")" then (depth - 1, from_pos)
  else if (depth =? 0) && String.eqb (slice sql_upper i (i + 4)) "FROM" then
    let before_ok := (i =? 0) || not_alnum_at sql (i - 1) in
    let after_ok := (i + 4 >=? len sql) || not_alnum_at sql (i + 4) in
    if before_ok && after_ok then (depth, i) else st
  else st.

Fixpoint all_space (s : string) : bool :=
  match s with
  | EmptyString => true
  | String c s' => is_space c && all_space s'
  end.

Definition head_is_space (s : string) : bool :=
  match s with
  | String c _ => is_space c
  | EmptyString => false
  end.

(** [DISTINCT\s+] at the head of [t]: the text after the match. *)
Definition after_distinct (t : string) : option string :=
  if startswith_ci t "DISTINCT" && head_is_space (drop_str 8 t)
  then Some (lstrip (drop_str 8 t)) else None.

(** [re.sub(r'^\s*(ALL\s+)?DISTINCT\s+', '', s, flags=re.IGNORECASE)] *)
Definition strip_distinct (s : string) : string :=
  let t := lstrip s in
  let with_all :=
    if startswith_ci t "ALL" && head_is_space (drop_str 3 t)
    then after_distinct (lstrip (drop_str 3 t)) else None in
  match with_all with
  | Some rest => rest
  | None => match after_distinct t with
            | Some rest => rest
            | None => s
            end
  end.

(** [re.match(r'^\s*\*\s*$', s)] *)
Definition is_star (s : string) : bool :=
  match lstrip s with
  | String "*" rest => all_space rest
  | _ => false
  end.

Fixpoint drop_word (s : string) : string :=
  match s with
  | String c s' => if is_word c then drop_word s' else s
  | EmptyString => EmptyString
  end.

(** [re.match(r'^\s*\w+\.\*\s*$', s)] *)
Definition is_qualified_star (s : string) : bool :=
  match lstrip s with
  | String c t =>
      is_word c
      && match drop_word t with
         | String "." (String "*" rest) => all_space rest
         | _ => false
         end
  | EmptyString => false
  end.

(** The text after an opening parenthesis: the length up to and
    including the closing one, when no parenthesis comes before it. *)
Fixpoint group_end (s : string) : option nat :=
  match s with
  | EmptyString => None
  | String c s' =>
      if ascii_eqb c ")" then Some 1%nat
      else if ascii_eqb c "(" then None
      else S <$> group_end s'
  end.

(** [re.search(r'\([^()]*\)', s)]: start and end of the leftmost
    match. *)
Fixpoint search_group (s : string) : option (nat * nat) :=
  match s with
  | EmptyString => None
  | String c s' =>
      let later := (fun '(a, b) => (S a, S b)) <$> search_group s' in
      if ascii_eqb c "(" then
        match group_end s' with
        | Some k => Some (0%nat, S k)
        | None => later
        end
      else later
  end.

(** The loop [for _ in range(50)] that masks parenthesised groups. *)
Fixpoint mask_groups (rounds : nat) (processed : string) : string :=
  match rounds with
  | O => processed
  | S rounds' =>
      match search_group processed with
      | None => processed
      | Some (a, b) =>
          mask_groups rounds'
            (substring 0 a processed +:+ "__PH__" +:+ drop_str b processed)
      end
  end.

(** The metric [select_column_count]. *)
Definition select_column_count (sql : string) : Z :=
  let sql_upper := upper sql in
  let select_start := py_find sql_upper "SELECT" 0 in
  if select_start =? -1 then 0
  else
    let start_pos := select_start + 6 in
    let '(_, from_pos) :=
      fold_left (from_step sql sql_upper)
        (seqZ start_pos (len sql - 3 - start_pos)) (0, -1) in
    if from_pos =? -1 then 0
    else
      let select_clause := strip (slice sql start_pos from_pos) in
      let select_clause_clean := strip_distinct select_clause in
      if is_star select_clause_clean then -1
      else if is_qualified_star select_clause_clean then -1
      else
        let processed := mask_groups 50 select_clause_clean in
        count_char "," processed + 1.

(** The inner loop [while j < len(where_clause) and where_clause[j] in
    ' \t\n': j += 1], started at [j]: the value of [j] when it ends. *)
Fixpoint count_blanks (s : string) : nat :=
  match s with
  | String c s' =>
      if ascii_eqb c " " || ascii_eqb c "009" || ascii_eqb c "010"
      then S (count_blanks s') else O
  | EmptyString => O
  end.

Definition skip_blanks (where_clause : string) (j : Z) : Z :=
  j + Z.of_nat (count_blanks (drop_str (Z.to_nat j) where_clause)).

(** Top-level conditions: one step of the loop
    [while i < len(where_clause)], on the state
    [(and_or_count, subquery_depth)]. *)
Definition where_step (where_clause where_upper : string) (st : Z * Z)
    (i : Z) : Z * Z :=
  let '(and_or_count, subquery_depth) := st in
  if char_is where_clause i "(" then
    let j := skip_blanks where_clause (i + 1) in
    if String.eqb (slice where_upper j (j + 6)) "SELECT"
    then (and_or_count, subquery_depth + 1) else st
  else if char_is where_clause i ")" && (subquery_depth >? 0) then
    (and_or_count, subquery_depth - 1)
  else if subquery_depth =? 0 then
    if String.eqb (slice where_upper i (i + 4)) "AND "
       || String.eqb (slice where_upper i (i + 3)) "OR "
    then (and_or_count + 1, subquery_depth) else st
  else st.

(** The metric [where_condition_count]. *)
Definition where_condition_count (sql : string) : Z :=
  let sql_upper := upper sql in
  let where_start := py_find sql_upper "WHERE" 0 in
  if where_start =? -1 then 0
  else
    let end_keywords := ["GROUP BY"; "ORDER BY"; "HAVING"; "LIMIT"] in
    let where_end :=
      fold_left
        (fun where_end keyword =>
           let pos := py_find sql_upper keyword where_start in
           if negb (pos =? -1) && (pos <? where_end) then pos else where_end)
        end_keywords (len sql) in
    let where_clause := slice sql (where_start + 5) where_end in
    let where_upper := upper where_clause in
    let '(and_or_count, _) :=
      fold_left (where_step where_clause where_upper)
        (seqZ 0 (len where_clause)) (0, 0) in
    if nonempty (strip where_clause) then and_or_count + 1 else 0.

(** ** Table extraction helpers *)

(** [s.split(c)] for a one-character separator. *)
Fixpoint split_on (c : ascii) (s : string) : list string :=
  match s with
  | EmptyString => [EmptyString]
  | String d s' =>
      match split_on c s' with
      | h :: t => if ascii_eqb d c then EmptyString :: h :: t
                  else String d h :: t
      | [] => []
      end
  end.

Fixpoint take_token (s : string) : string :=
  match s with
  | String c s' => if is_space c then EmptyString else String c (take_token s')
  | EmptyString => EmptyString
  end.

(** [tokens = part.split()] followed by [tokens[0]]; [None] when
    [tokens] is empty. *)
Definition first_token (part : string) : option string :=
  match lstrip part with
  | EmptyString => None
  | t => Some (take_token t)
  end.

Definition sql_keywords : list string :=
  [ "LATERAL"; "NATURAL"; "OUTER"; "INNER"; "LEFT"; "RIGHT"; "FULL";
    "CROSS"; "SELECT"; "WHERE"; "AND"; "OR"; "ON"; "AS"; "SET"; "VALUES";
    "INTO" ].

(** The three lines shared by the extraction passes: strip the schema
    qualifier, drop keywords, add the upper-cased name. *)
Definition add_table (tables : gset string) (table_name : string)
  : gset string :=
  let table_name :=
    if mem_char "." table_name
    then List.last (split_on "." table_name) EmptyString
    else table_name in
  if existsb (String.eqb (upper table_name)) sql_keywords then tables
  else {[ upper table_name ]} ∪ tables.

(** ** Rules and metrics *)

(** A rule of the rule file, every key optional. *)
Record RawRule := {
  raw_id : option string;
  raw_name : option string;
  raw_weight : option Z;
  raw_detection_method : option string;
  raw_pattern : option string;
  raw_logic : option string;
  raw_note : option string
}.

(** The value under a section key of the rule file: a list of rules, or
    something else. *)
Inductive yaml_section :=
  | RuleList (rules_list : list RawRule)
  | NotAList.

(** The rule file after [yaml.safe_load]. *)
Record RuleSet := {
  rs_common_rules : option (list (string * yaml_section));
  rs_dbms_specific_rules : option (gmap string yaml_section)
}.

(** [str.lower] on 8-bit text. *)
Definition lower_char (c : ascii) : ascii :=
  if in_range 65 90 c || in_range 192 214 c || in_range 216 222 c
  then ascii_of_N (code c + 32)
  else c.

Fixpoint lower (s : string) : string :=
  match s with
  | EmptyString => EmptyString
  | String c s' => String (lower_char c) (lower s')
  end.

(** [DB_ALIASES], in the order the dictionary is written. *)
Definition DB_ALIASES : list (string * list string) :=
  [ ("ORA", ["ORA"; "ORACLE"]); ("MY", ["MY"; "MYSQL"]);
    ("MDB", ["MDB"; "MARIADB"]); ("PG", ["PG"; "POSTGRESQL"; "POSTGRES"]);
    ("SS", ["SS"; "SQLSERVER"; "MSSQL"]); ("ALT", ["ALT"; "ALTIBASE"]);
    ("DB2", ["DB2"; "IBM DB2"]) ].

(** [_normalize_db_name] *)
Definition _normalize_db_name (db_name : string) : string :=
  let db_upper := upper db_name in
  match List.find (fun '(_, aliases) => existsb (String.eqb db_upper) aliases)
          DB_ALIASES with
  | Some (canonical, _) => canonical
  | None => db_upper
  end.

(** [_map_category] *)
Definition _map_category (category_name : string) : string :=
  let category_mapping : gmap string string :=
    list_to_map
      [ ("structural_join", "structural");
        ("structural_subquery", "structural");
        ("structural_cte", "structural");
        ("structural_set_operation", "structural");
        ("clause_select", "clause");
        ("clause_where", "clause");
        ("clause_group_order", "clause");
        ("function_aggregate", "function_expression");
        ("function_window", "function_expression");
        ("function_case", "function_expression");
        ("function_common", "function_expression");
        ("query_metric", "query_metric") ] in
  default "structural" (category_mapping !! category_name).

Section Engine.
Context `{Regex}.

(** The fixed patterns of [_calculate_metrics], each compiled with
    [re.IGNORECASE]:
    - [join_word_pattern]: the word JOIN between word boundaries;
    - [from_pattern]: the FROM clause, whose group 1 is the
      comma-separated list of table items (dotted name, optional
      alias), not matching when a parenthesis follows FROM;
    - [join_pattern]: the JOIN clause, whose group 1 is the dotted
      name after JOIN, not matching JOIN LATERAL or a parenthesis;
    - [lateral_pattern]: LATERAL and a parenthesised group, whose
      group 1 is the text between the parentheses;
    - [inner_from_pattern]: FROM and a dotted name (group 1). *)
Class MetricPatterns := {
  join_word_pattern : pattern;
  from_pattern : pattern;
  join_pattern : pattern;
  lateral_pattern : pattern;
  inner_from_pattern : pattern
}.

Context `{MetricPatterns}.

(** [len(p.findall(s))] *)
Definition findall_count (p : pattern) (s : string) : Z :=
  match findall p s with
  | Strings l => Z.of_nat (length l)
  | Tuples l => Z.of_nat (length l)
  end.

(** The items of [re.findall] for a pattern with one group. *)
Definition findall_strings (p : pattern) (s : string) : list string :=
  match findall p s with
  | Strings l => l
  | Tuples _ => []
  end.

(** The metric [table_count]: three extraction passes into one set. *)
Definition table_count (sql : string) : Z :=
  let tables : gset string := ∅ in
  let tables :=
    fold_left
      (fun tables from_clause =>
         fold_left
           (fun tables part =>
              let part := strip part in
              if nonempty part then
                match first_token part with
                | Some table_name => add_table tables table_name
                | None => tables
                end
              else tables)
           (split_on "," from_clause) tables)
      (finditer_group1 from_pattern sql) tables in
  let tables :=
    fold_left add_table (finditer_group1 join_pattern sql) tables in
  let tables :=
    fold_left
      (fun tables inner_sql =>
         fold_left add_table (findall_strings inner_from_pattern inner_sql)
           tables)
      (finditer_group1 lateral_pattern sql) tables in
  Z.of_nat (size tables).

(** [_calculate_metrics] *)
Definition _calculate_metrics (sql : string) : gmap string Z :=
  let metrics : gmap string Z := ∅ in
  let metrics := <["length" := len sql]> metrics in
  let metrics :=
    <["join_count" := findall_count join_word_pattern sql]> metrics in
  let metrics := <["subquery_depth" := subquery_depth sql]> metrics in
  let metrics := <["table_count" := table_count sql]> metrics in
  let metrics :=
    <["select_column_count" := select_column_count sql]> metrics in
  <["where_condition_count" := where_condition_count sql]> metrics.

Record CompiledRule := {
  id : string;
  name : string;
  weight : Z;
  detection_method : string;
  rule_pattern : string;
  logic : string;
  category : string;
  subcategory : string;
  note : string;
  compiled_pattern : option pattern
}.

Record RuleMatch := {
  rule_id : string;
  rule_name : string;
  rm_weight : Z;
  rm_category : string;
  rm_subcategory : string;
  match_count : Z;
  matched_patterns : list string
}.

(** [RuleMatch(id, name, weight, category, subcategory)] with the
    defaults [match_count = 1] and [matched_patterns = []]. *)
Definition metric_match (rule_id rule_name : string) (weight : Z)
    (category subcategory : string) : RuleMatch :=
  {| rule_id := rule_id; rule_name := rule_name; rm_weight := weight;
     rm_category := category; rm_subcategory := subcategory;
     match_count := 1; matched_patterns := [] |}.

(** [_compile_rule]; the source returns the dictionary in every
    case. *)
Definition _compile_rule (rule : RawRule) (category subcategory : string)
  : CompiledRule :=
  let detection_method := default "regex" (raw_detection_method rule) in
  let rule_pattern := default "" (raw_pattern rule) in
  {| id := default "" (raw_id rule);
     name := default "" (raw_name rule);
     weight := default 0 (raw_weight rule);
     detection_method := detection_method;
     rule_pattern := rule_pattern;
     logic := default "" (raw_logic rule);
     category := category;
     subcategory := subcategory;
     note := default "" (raw_note rule);
     compiled_pattern :=
       if String.eqb detection_method "regex" && nonempty rule_pattern
       then re_compile rule_pattern true
       else if String.eqb detection_method "keyword"
               && nonempty rule_pattern
       then re_compile ("\b" +:+ re_escape rule_pattern +:+ "\b") false
       else None |}.

Definition compile_section (section : yaml_section)
    (category subcategory : string) : list CompiledRule :=
  match section with
  | RuleList rules_list =>
      map (fun rule => _compile_rule rule category subcategory) rules_list
  | NotAList => []
  end.

(** [_compile_common_rules] *)
Definition _compile_common_rules (rules : RuleSet) : list CompiledRule :=
  let common_rules := default [] (rs_common_rules rules) in
  flat_map
    (fun '(category_name, section) =>
       compile_section section (_map_category category_name) category_name)
    common_rules.

(** The loop [for db_key in db_keys] of [_compile_dbms_rules], which
    leaves through [break] at the first key present. *)
Fixpoint compile_first_section (db_keys : list string)
    (dbms_rules : gmap string yaml_section) : list CompiledRule :=
  match db_keys with
  | [] => []
  | db_key :: rest =>
      match dbms_rules !! db_key with
      | Some section => compile_section section "dbms_specific" db_key
      | None => compile_first_section rest dbms_rules
      end
  end.

(** [_compile_dbms_rules] *)
Definition _compile_dbms_rules (source_db : string) (rules : RuleSet)
  : list CompiledRule :=
  let dbms_rules := default ∅ (rs_dbms_specific_rules rules) in
  let db_keys := [source_db; lower source_db; upper source_db] in
  compile_first_section db_keys dbms_rules.

(** The engine after [__init__]; the counters [rule_match_counts] are
    threaded through the scoring functions. *)
Record Engine := {
  source_db : string;
  common_rules : list CompiledRule;
  dbms_rules : list CompiledRule
}.

(** [__init__], from the loaded rule file. *)
Definition init (rules : RuleSet) (source_db : string) : Engine :=
  let source_db := _normalize_db_name source_db in
  {| source_db := source_db;
     common_rules := _compile_common_rules rules;
     dbms_rules := _compile_dbms_rules source_db rules |}.

(** [metrics.get(k, 0)] *)
Definition metric (metrics : gmap string Z) (k : string) : Z :=
  default 0 (metrics !! k).

(** [_apply_metric_rules]: the bucketed thresholds, each surfaced as
    a synthetic rule match. *)
Definition _apply_metric_rules (metrics : gmap string Z) : list RuleMatch :=
  let length := metric metrics "length" in
  let by_length :=
    if length <? 200 then
      [metric_match "c_len_short" "짧은 쿼리" 0 "query_metric" "length"]
    else if length <? 500 then
      [metric_match "c_len_medium" "중간 쿼리" 5 "query_metric" "length"]
    else if length <? 1000 then
      [metric_match "c_len_long" "긴 쿼리" 10 "query_metric" "length"]
    else if length <? 2000 then
      [metric_match "c_len_very_long" "매우 긴 쿼리" 15 "query_metric"
         "length"]
    else
      [metric_match "c_len_huge" "초대형 쿼리" 20 "query_metric" "length"] in
  let join_count := metric metrics "join_count" in
  let by_join :=
    if join_count =? 0 then
      [metric_match "c_join_0" "JOIN 없음" 0 "structural" "join"]
    else if join_count =? 1 then
      [metric_match "c_join_1" "JOIN 1개" 5 "structural" "join"]
    else if join_count <=? 3 then
      [metric_match "c_join_2_3" "JOIN 2-3개" 10 "structural" "join"]
    else if join_count <=? 5 then
      [metric_match "c_join_4_5" "JOIN 4-5개" 15 "structural" "join"]
    else
      [metric_match "c_join_6plus" "JOIN 6개 이상" 20 "structural" "join"] in
  let subquery_depth := metric metrics "subquery_depth" in
  let by_depth :=
    if subquery_depth =? 0 then
      [metric_match "c_subq_0" "서브쿼리 없음" 0 "structural" "subquery"]
    else if subquery_depth =? 1 then
      [metric_match "c_subq_depth_1" "서브쿼리 깊이 1" 10 "structural"
         "subquery"]
    else if subquery_depth =? 2 then
      [metric_match "c_subq_depth_2" "서브쿼리 깊이 2" 20 "structural"
         "subquery"]
    else
      [metric_match "c_subq_depth_3plus" "서브쿼리 깊이 3+" 30 "structural"
         "subquery"] in
  let table_count := metric metrics "table_count" in
  let by_tables :=
    if (3 <=? table_count) && (table_count <=? 5) then
      [metric_match "c_tables_3_5" "테이블 3-5개" 5 "query_metric" "tables"]
    else if (6 <=? table_count) && (table_count <=? 10) then
      [metric_match "c_tables_6_10" "테이블 6-10개" 10 "query_metric"
         "tables"]
    else if table_count >=? 11 then
      [metric_match "c_tables_11plus" "테이블 11개 이상" 15 "query_metric"
         "tables"]
    else [] in
  let col_count := metric metrics "select_column_count" in
  let by_columns :=
    if col_count =? -1 then
      [metric_match "c_select_star" "SELECT *" 5 "clause" "select"]
    else if (6 <=? col_count) && (col_count <=? 10) then
      [metric_match "c_select_cols_6_10" "컬럼 6-10개" 5 "clause" "select"]
    else if (11 <=? col_count) && (col_count <=? 20) then
      [metric_match "c_select_cols_11_20" "컬럼 11-20개" 10 "clause"
         "select"]
    else if col_count >=? 21 then
      [metric_match "c_select_cols_21plus" "컬럼 21개 이상" 15 "clause"
         "select"]
    else [] in
  let cond_count := metric metrics "where_condition_count" in
  let by_conditions :=
    if (4 <=? cond_count) && (cond_count <=? 6) then
      [metric_match "c_where_cond_4_6" "조건 4-6개" 5 "clause" "where"]
    else if (7 <=? cond_count) && (cond_count <=? 10) then
      [metric_match "c_where_cond_7_10" "조건 7-10개" 10 "clause" "where"]
    else if cond_count >=? 11 then
      [metric_match "c_where_cond_11plus" "조건 11개 이상" 15 "clause"
         "where"]
    else [] in
  (by_length ++ by_join ++ by_depth ++ by_tables ++ by_columns
   ++ by_conditions)%list.

Record QueryScore := {
  query_name : string;
  sql : string;
  raw_score : Z;
  normalized_score : Q;
  complexity_level : level;
  matched_rules : list RuleMatch;
  category_scores : gmap string Q;
  metrics : gmap string Z
}.

Record FileScore := {
  file_name : string;
  file_path : string;
  query_count : Z;
  total_raw_score : Z;
  avg_score : Q;
  avg_normalized_score : Q;
  complexity_distribution : gmap level Z;
  queries : list QueryScore
}.

(** One turn of either rule loop of [score_query], on the state
    (matched rules, match counters). *)
Definition rule_step (preprocessed_sql : string)
    (st : list RuleMatch * gmap string Z) (rule : CompiledRule)
  : list RuleMatch * gmap string Z :=
  let '(matched_rules, counts) := st in
  match compiled_pattern rule with
  | None => st
  | Some p =>
      let '(match_count, matched_patterns) :=
        _count_pattern_matches preprocessed_sql p in
      if match_count >? 0 then
        let rule_match :=
          {| rule_id := id rule;
             rule_name := name rule;
             rm_weight := weight rule;
             rm_category := category rule;
             rm_subcategory := subcategory rule;
             match_count := match_count;
             matched_patterns := matched_patterns |} in
        ((matched_rules ++ [rule_match])%list,
         bump (id rule) match_count counts)
      else st
  end.

(** The loop [category_scores[category] += score].  The dictionary is
    a [defaultdict(float)]: its sums are exact while they stay within
    2^53 in absolute value. *)
Definition add_category (category_scores : gmap string Q)
    (rule_match : RuleMatch) : gmap string Q :=
  let category := rm_category rule_match in
  let score := rm_weight rule_match * match_count rule_match in
  <[category :=
      (default 0 (category_scores !! category) + inject_Z score)%Q]>
    category_scores.

(** [score_query]; returns the score and the updated counters. *)
Definition score_query (e : Engine) (counts : gmap string Z)
    (sql : string) (query_name : string) : QueryScore * gmap string Z :=
  let preprocessed_sql := _preprocess_sql sql in
  let metrics := _calculate_metrics preprocessed_sql in
  let metric_rules := _apply_metric_rules metrics in
  let st := (metric_rules, counts) in
  let st := fold_left (rule_step preprocessed_sql) (common_rules e) st in
  let '(matched_rules, counts) :=
    fold_left (rule_step preprocessed_sql) (dbms_rules e) st in
  let category_scores := fold_left add_category matched_rules ∅ in
  let raw_score :=
    sumZ (map (fun r => rm_weight r * match_count r) matched_rules) in
  let normalized_score := _calculate_normalized_score category_scores in
  let complexity_level := _get_complexity_level normalized_score in
  ({| query_name := query_name;
      sql := stored_sql sql;
      raw_score := raw_score;
      normalized_score := round2 normalized_score;
      complexity_level := complexity_level;
      matched_rules := matched_rules;
      category_scores := category_scores;
      metrics := metrics |}, counts).

Definition file_state : Type :=
  list QueryScore * gmap level Z * gmap string Z.

Definition query_step (e : Engine) (st : file_state) (query : Query)
  : file_state :=
  let '(query_scores, complexity_dist, counts) := st in
  let query_name := query_label query in
  let sql := default "" (q_sql query) in
  if negb (nonempty sql) then st
  else
    let '(score, counts) := score_query e counts sql query_name in
    ((query_scores ++ [score])%list,
     <[complexity_level score :=
         default 0 (complexity_dist !! complexity_level score) + 1]>
       complexity_dist,
     counts).

(** [analyze_file]; [None] stands for an arithmetic fault. *)
Definition analyze_file (e : Engine) (counts : gmap string Z)
    (file_data : FileData) : option (FileScore * gmap string Z) :=
  let queries := default [] (fd_queries file_data) in
  let '(query_scores, complexity_dist, counts) :=
    fold_left (query_step e) queries ([], ∅, counts) in
  let total_raw := sumZ (map raw_score query_scores) in
  avg_score ←
    match query_scores with
    | [] => Some 0%Q
    | _ => py_div (inject_Z total_raw) (Z.of_nat (length query_scores))
    end;
  avg_normalized ←
    match query_scores with
    | [] => Some 0%Q
    | _ => py_div (sumQ (map normalized_score query_scores))
             (Z.of_nat (length query_scores))
    end;
  Some ({| file_name := default "" (fd_file_name file_data);
           file_path := default "" (fd_file_path file_data);
           query_count := Z.of_nat (length query_scores);
           total_raw_score := total_raw;
           avg_score := round2 avg_score;
           avg_normalized_score := round2 avg_normalized;
           complexity_distribution := complexity_dist;
           queries := query_scores |}, counts).

(** The [summary] dictionary of [analyze_json_files]. *)
Record Summary := {
  total_queries : Z;
  s_total_raw_score : Z;
  average_raw_score : Q;
  average_normalized_score : Q;
  overall_complexity_level : level;
  s_complexity_distribution : gmap level Z
}.

Record corpus_state := {
  all_files : list FileScore;
  cs_total_queries : Z;
  total_score : Z;
  total_normalized : Q;
  overall_complexity_dist : gmap level Z;
  cs_counts : gmap string Z
}.

Definition file_step (e : Engine) (st : option corpus_state)
    (file_data : FileData) : option corpus_state :=
  st ← st;
  '(file_score, counts) ← analyze_file e (cs_counts st) file_data;
  Some {| all_files := (all_files st ++ [file_score])%list;
          cs_total_queries := cs_total_queries st + query_count file_score;
          total_score := total_score st + total_raw_score file_score;
          total_normalized :=
            (total_normalized st
             + avg_normalized_score file_score
               * inject_Z (query_count file_score))%Q;
          overall_complexity_dist :=
            fold_left
              (fun d '(lvl, count) =>
                 <[lvl := default 0 (d !! lvl) + count]> d)
              (map_to_list (complexity_distribution file_score))
              (overall_complexity_dist st);
          cs_counts := counts |}.

(** [analyze_json_files] on the parsed documents: each document is the
    list under its ['files'] key.  The result is the file scores and
    the summary (metadata and rule statistics are left to the report
    layer). *)
Definition analyze_json_files (e : Engine) (counts : gmap string Z)
    (documents : list (list FileData))
  : option (list FileScore * Summary) :=
  st ← fold_left (file_step e) (concat documents)
         (Some {| all_files := []; cs_total_queries := 0;
                  total_score := 0; total_normalized := 0;
                  overall_complexity_dist := ∅; cs_counts := counts |});
  avg_score ←
    (if cs_total_queries st >? 0
     then py_div (inject_Z (total_score st)) (cs_total_queries st)
     else Some 0%Q);
  avg_normalized ←
    (if cs_total_queries st >? 0
     then py_div (total_normalized st) (cs_total_queries st)
     else Some 0%Q);
  Some (all_files st,
        {| total_queries := cs_total_queries st;
           s_total_raw_score := total_score st;
           average_raw_score := round2 avg_score;
           average_normalized_score := round2 avg_normalized;
           overall_complexity_level := _get_complexity_level avg_normalized;
           s_complexity_distribution := overall_complexity_dist st |}).

End Engine.

End Structural.

(** * The report generators: what they select

    [sorted(l, key=key, reverse=True)].  The sort is stable: of two
    items with equal keys the one that comes first in [l] comes first
    in the result. *)

Fixpoint insert_desc {A} (key : A -> Q) (x : A) (l : list A) : list A :=
  match l with
  | [] => [x]
  | y :: l' =>
      if Qle_bool (key y) (key x) then x :: l
      else y :: insert_desc key x l'
  end.

Definition py_sorted_desc {A} (key : A -> Q) (l : list A) : list A :=
  fold_right (insert_desc key) [] l.

Module ConversionReport.

(** [to_csv] and [to_markdown]: the rules named in a row, the [n] with
    the largest [weight * match_count] ([n] is 5 in the CSV file and 3
    in the Markdown table). *)
Definition top_rules (n : nat) (q : Conversion.QueryScore)
  : list Conversion.RuleMatch :=
  take n
    (py_sorted_desc
       (fun r => inject_Z (Conversion.rm_weight r * Conversion.match_count r))
       (Conversion.matched_rules q)).

(** [to_markdown]: the queries of a file that are listed, the 20 with
    the largest weighted score. *)
Definition listed_queries (file_score : Conversion.FileScore)
  : list Conversion.QueryScore :=
  take 20
    (py_sorted_desc Conversion.weighted_score
       (Conversion.queries file_score)).

(** [to_markdown]: the high-complexity list, the 50 queries with the
    largest weighted score among those that reach 50, each with its
    file name. *)
Definition high_complexity_queries (files : list Conversion.FileScore)
  : list (string * Conversion.QueryScore) :=
  take 50
    (py_sorted_desc (fun item => Conversion.weighted_score (snd item))
       (flat_map
          (fun file_score =>
             map (fun q => (Conversion.file_name file_score, q))
               (List.filter
                  (fun q => Qle_bool 50 (Conversion.weighted_score q))
                  (Conversion.queries file_score)))
          files)).

End ConversionReport.

Module StructuralReport.

Definition top_rules (n : nat) (q : Structural.QueryScore)
  : list Structural.RuleMatch :=
  take n
    (py_sorted_desc
       (fun r => inject_Z (Structural.rm_weight r * Structural.match_count r))
       (Structural.matched_rules q)).

(** [to_markdown]: the 20 queries of a file with the largest
    normalised score. *)
Definition listed_queries (file_score : Structural.FileScore)
  : list Structural.QueryScore :=
  take 20
    (py_sorted_desc Structural.normalized_score
       (Structural.queries file_score)).

(** [to_markdown]: the 50 queries with the largest normalised score
    among those that reach 6. *)
Definition high_complexity_queries (files : list Structural.FileScore)
  : list (string * Structural.QueryScore) :=
  take 50
    (py_sorted_desc (fun item => Structural.normalized_score (snd item))
       (flat_map
          (fun file_score =>
             map (fun q => (Structural.file_name file_score, q))
               (List.filter
                  (fun q => Qle_bool 6 (Structural.normalized_score q))
                  (Structural.queries file_score)))
          files)).

End StructuralReport.

(** * Notions used by the statements *)

(** One category's share: the clamped, scaled score times the category
    weight. *)
Definition category_term (category_scores : gmap string Q)
    (category : string) (max_score weight : Q) : Q :=
  (Structural.qmin
     (default 0 (category_scores !! category) / max_score * 10) 10
   * weight)%Q.

(** The match count of a catalogue rule on a preprocessed text: what
    [_count_pattern_matches] counts, and 0 for an inert rule (one whose
    compiled pattern is [None]). *)
Definition conversion_rule_count `{Regex} (preprocessed_sql : string)
    (rule : Conversion.CompiledRule) : Z :=
  match Conversion.compiled_pattern rule with
  | Some p => fst (_count_pattern_matches preprocessed_sql p)
  | None => 0
  end.

Definition structural_rule_count `{Regex} (preprocessed_sql : string)
    (rule : Structural.CompiledRule) : Z :=
  match Structural.compiled_pattern rule with
  | Some p => fst (_count_pattern_matches preprocessed_sql p)
  | None => 0
  end.

(** What one matched rule adds to the raw score:
    [r.weight * r.match_count]. *)
Definition conversion_contribution (r : Conversion.RuleMatch) : Z :=
  Conversion.rm_weight r * Conversion.match_count r.

Definition structural_contribution (r : Structural.RuleMatch) : Z :=
  Structural.rm_weight r * Structural.match_count r.

(** A query record is scoreable when its SQL is present and not
    empty. *)
Definition scoreable (q : Query) : bool := nonempty (default "" (q_sql q)).

(** The file record with the unscoreable queries removed. *)
Definition drop_unscoreable (file_data : FileData) : FileData :=
  {| fd_file_name := fd_file_name file_data;
     fd_file_path := fd_file_path file_data;
     fd_queries :=
       Some (List.filter scoreable (default [] (fd_queries file_data))) |}.

(** The number of scoreable queries of a file and of a corpus. *)
Definition scoreable_in_file (file_data : FileData) : Z :=
  Z.of_nat
    (length (List.filter scoreable (default [] (fd_queries file_data)))).

Definition scoreable_in_corpus (documents : list (list FileData)) : Z :=
  sumZ (map scoreable_in_file (concat documents)).

(** A matcher consumes: the text it leaves after a match is shorter than
    the text it was given, so the loop of [re_sub] has fuel to spare. *)
Definition consuming (m : matcher) : Prop :=
  forall (c : ascii) (u out rest : string),
    m (String c u) = Some (out, rest) ->
    (String.length rest <= String.length u)%nat.

(** A matcher shrinks: its replacement and the text it leaves are
    together no longer than the text it was given. *)
Definition shrinking (m : matcher) : Prop :=
  forall (c : ascii) (u out rest : string),
    m (String c u) = Some (out, rest) ->
    (String.length out + String.length rest <= S (String.length u))%nat.

(** The total match count of the matched rules of one conversion grade,
    and of the matched rules with one rule id; the three grade keys. *)
Definition grade_total (g : string) (matched : list Conversion.RuleMatch)
  : Z :=
  sumZ (map Conversion.match_count
          (List.filter
             (fun r => String.eqb (Conversion.rm_conversion_grade r) g)
             matched)).

Definition id_total (k : string) (matched : list Conversion.RuleMatch) : Z :=
  sumZ (map Conversion.match_count
          (List.filter (fun r => String.eqb (Conversion.rule_id r) k)
             matched)).

Definition is_grade (g : string) : bool :=
  existsb (String.eqb g) ["A"; "P"; "M"].

(** The invariant of the rule loop: the summary holds, for each grade
    key, the matches counted so far; the counters hold what they held
    plus the matches counted so far. *)
Definition summaries_agree (counts0 : gmap string Z)
    (st : Conversion.loop_state) : Prop :=
  (forall g, snd (fst st) !! g
             = if is_grade g then Some (grade_total g (fst (fst st)))
               else None)
  /\ (forall k, get0 (snd st) k = get0 counts0 k + id_total k (fst (fst st))).

(** The total contribution of the matched rules of one category. *)
Definition category_total (c : string) (matched : list Structural.RuleMatch)
  : Z :=
  sumZ (map structural_contribution
          (List.filter (fun r => String.eqb (Structural.rm_category r) c)
             matched)).

(** The number of scored queries of one level. *)
Definition level_count_conversion (lvl : Conversion.level)
    (scores : list Conversion.QueryScore) : Z :=
  Z.of_nat
    (length
       (List.filter
          (fun q => bool_decide (Conversion.complexity_level q = lvl))
          scores)).

Definition level_count_structural (lvl : Structural.level)
    (scores : list Structural.QueryScore) : Z :=
  Z.of_nat
    (length
       (List.filter
          (fun q => bool_decide (Structural.complexity_level q = lvl))
          scores)).

(** The five weighted categories of the structural engine. *)
Definition five_categories : list string :=
  map fst Structural.CATEGORY_WEIGHTS.

(** The levels, lowest first. *)
Definition conversion_levels : list Conversion.level :=
  [Conversion.VeryLow; Conversion.Low; Conversion.Medium; Conversion.High;
   Conversion.VeryHigh].

Definition structural_levels : list Structural.level :=
  [Structural.VerySimple; Structural.Simple; Structural.Moderate;
   Structural.Complex; Structural.VeryComplex].

(** What the file loop of the conversion [analyze_json_files] has added to
    its state when it ends: one file result per file record. *)
Record conversion_loop_facts `{Regex} (files : list FileData)
    (st st' : Conversion.corpus_state) (new : list Conversion.FileScore)
  : Prop := {
  cf_files : Conversion.all_files st'
             = (Conversion.all_files st ++ new)%list;
  cf_names : map Conversion.file_name new
             = map (fun fd => default "" (fd_file_name fd)) files;
  cf_each : Forall (fun fs =>
                      sumZ (map (fun lvl =>
                                   default 0
                                     (Conversion.complexity_distribution fs
                                        !! lvl))
                              conversion_levels)
                      = Conversion.query_count fs) new;
  cf_total : Conversion.cs_total_queries st'
             = Conversion.cs_total_queries st
               + sumZ (map Conversion.query_count new);
  cf_dist : forall lvl,
      default 0 (Conversion.overall_complexity_dist st' !! lvl)
      = default 0 (Conversion.overall_complexity_dist st !! lvl)
        + sumZ (map (fun fs =>
                       default 0
                         (Conversion.complexity_distribution fs !! lvl))
                  new)
}.

(** What the file loop of the structural [analyze_json_files] has added to
    its state when it ends: one file result per file record. *)
Record structural_loop_facts `{Regex} (files : list FileData)
    (st st' : Structural.corpus_state) (new : list Structural.FileScore)
  : Prop := {
  sf_files : Structural.all_files st'
             = (Structural.all_files st ++ new)%list;
  sf_names : map Structural.file_name new
             = map (fun fd => default "" (fd_file_name fd)) files;
  sf_each : Forall (fun fs =>
                      sumZ (map (fun lvl =>
                                   default 0
                                     (Structural.complexity_distribution fs
                                        !! lvl))
                              structural_levels)
                      = Structural.query_count fs) new;
  sf_total : Structural.cs_total_queries st'
             = Structural.cs_total_queries st
               + sumZ (map Structural.query_count new);
  sf_dist : forall lvl,
      default 0 (Structural.overall_complexity_dist st' !! lvl)
      = default 0 (Structural.overall_complexity_dist st !! lvl)
        + sumZ (map (fun fs =>
                       default 0
                         (Structural.complexity_distribution fs !! lvl))
                  new)
}.

(** The strings a rule's pattern finds in a preprocessed text, at most
    five; none when the pattern did not compile. *)
Definition conversion_rule_samples `{Regex} (preprocessed_sql : string)
    (rule : Conversion.CompiledRule) : list string :=
  match Conversion.compiled_pattern rule with
  | Some p => snd (_count_pattern_matches preprocessed_sql p)
  | None => []
  end.

Definition structural_rule_samples `{Regex} (preprocessed_sql : string)
    (rule : Structural.CompiledRule) : list string :=
  match Structural.compiled_pattern rule with
  | Some p => snd (_count_pattern_matches preprocessed_sql p)
  | None => []
  end.

(** The match record of a catalogue rule on a preprocessed text. *)
Definition conversion_match_of `{Regex} (preprocessed_sql : string)
    (rule : Conversion.CompiledRule) : Conversion.RuleMatch :=
  {| Conversion.rule_id := Conversion.id rule;
     Conversion.rule_name := Conversion.name rule;
     Conversion.rm_weight := Conversion.weight rule;
     Conversion.rm_conversion_grade := Conversion.conversion_grade rule;
     Conversion.rm_category := Conversion.category rule;
     Conversion.rm_subcategory := Conversion.subcategory rule;
     Conversion.match_count := conversion_rule_count preprocessed_sql rule;
     Conversion.matched_patterns :=
       conversion_rule_samples preprocessed_sql rule |}.

Definition structural_match_of `{Regex} (preprocessed_sql : string)
    (rule : Structural.CompiledRule) : Structural.RuleMatch :=
  {| Structural.rule_id := Structural.id rule;
     Structural.rule_name := Structural.name rule;
     Structural.rm_weight := Structural.weight rule;
     Structural.rm_category := Structural.category rule;
     Structural.rm_subcategory := Structural.subcategory rule;
     Structural.match_count := structural_rule_count preprocessed_sql rule;
     Structural.matched_patterns :=
       structural_rule_samples preprocessed_sql rule |}.

(** The rules of a conversion rule file in the order of the file, each
    with the category and subcategory keys it is listed under.  Values
    that are not mappings or lists hold no rules. *)
Definition conversion_listed_rules (rules : Conversion.RuleFile)
  : list (string * string * Conversion.RawRule) :=
  flat_map
    (fun '(category_name, category_data) =>
       match category_data with
       | Conversion.NotADict => []
       | Conversion.SubCategories category_data =>
           flat_map
             (fun '(subcategory_name, rules_list) =>
                match rules_list with
                | Conversion.NotAList => []
                | Conversion.RuleList rules_list =>
                    map (fun rule => (category_name, subcategory_name, rule))
                      rules_list
                end)
             category_data
       end)
    (default [] (Conversion.rf_rules rules)).

(** A rule the conversion engine can search for: its detection method
    is [regex] or [keyword] and its pattern is not empty. *)
Definition searchable (rule : Conversion.RawRule) : bool :=
  let detection_method :=
    default "regex" (Conversion.raw_detection_method rule) in
  (String.eqb detection_method "regex"
   || String.eqb detection_method "keyword")
  && nonempty (default "" (Conversion.raw_pattern rule)).

(** [chosen] are the [n] items of [l] with the largest keys, largest
    first: no item left out has a larger key than a chosen one, and
    items with equal keys keep the order they have in [l]. *)
Definition top_selection {A} (key : A -> Q) (n : nat) (l chosen : list A)
  : Prop :=
  length chosen = Nat.min n (length l)
  /\ StronglySorted (fun a b => (key b <= key a)%Q) chosen
  /\ (exists rest,
         (chosen ++ rest)%list ≡ₚ l
         /\ Forall (fun a => Forall (fun b => (key b <= key a)%Q) rest)
              chosen)
  /\ forall k,
       List.filter (fun a => Qeq_bool (key a) k) chosen
       `prefix_of` List.filter (fun a => Qeq_bool (key a) k) l.

(** The queries of the files whose score reaches a threshold, each with
    the name of its file, in the order of the files. *)
Definition threshold_candidates {F Q' : Type} (score : Q' -> Q)
    (file_name : F -> string) (queries : F -> list Q') (threshold : Q)
    (files : list F) : list (string * Q') :=
  flat_map
    (fun file_score =>
       map (fun q => (file_name file_score, q))
         (List.filter (fun q => Qle_bool threshold (score q))
            (queries file_score)))
    files.

(** The absolute contributions of the matched rules of a query, added
    up.  Every partial sum of the contributions lies within it. *)
Definition conversion_magnitude (q : Conversion.QueryScore) : Z :=
  sumZ (map (fun r => Z.abs (conversion_contribution r))
          (Conversion.matched_rules q)).

Definition structural_magnitude (q : Structural.QueryScore) : Z :=
  sumZ (map (fun r => Z.abs (structural_contribution r))
          (Structural.matched_rules q)).

(** A text of [n] copies of one character. *)
Fixpoint replicate_char (n : nat) (c : ascii) : string :=
  match n with
  | O => EmptyString
  | S n' => String c (replicate_char n' c)
  end.

(** Template markup: the text starts as one of the five patterns the
    preprocessor removes does, with the CDATA opener, with [<] and a tag
    name, with a closing tag, or with [#{] or [${]. *)
Definition has_marker (u : string) : bool :=
  startswith u "<![CDATA["
  || match u with
     | String c t => ascii_eqb c "<" && existsb (startswith_ci t) tag_names
     | EmptyString => false
     end
  || existsb (fun n => startswith_ci u ("</" +:+ n +:+ ">")) tag_names
  || match u with
     | String c0 (String c1 _) =>
         (ascii_eqb c0 "#" || ascii_eqb c0 "$") && ascii_eqb c1 "{"
     | _ => false
     end.

(** No suffix of the text starts with template markup. *)
Fixpoint markup_free (s : string) : bool :=
  match s with
  | EmptyString => true
  | String _ s' => negb (has_marker s) && markup_free s'
  end.

(** Every whitespace character of the text is a single space that is
    not followed by whitespace. *)
Fixpoint tidy (s : string) : bool :=
  match s with
  | EmptyString => true
  | String c s' =>
      (if is_space c
       then ascii_eqb c " " && negb (Structural.head_is_space s')
       else true)
      && tidy s'
  end.

(** ** A small instance of the [re] interface, for worked examples

    A pattern is a piece of literal text: [re] matches a pattern made
    of letters, digits and spaces by finding that text, here without
    regard to case and without overlap.  Such a pattern has no group,
    so [finditer_group1] finds nothing. *)

Fixpoint occurrences (fuel : nat) (p s : string) : list string :=
  match fuel with
  | O => []
  | S fuel' =>
      match s with
      | EmptyString => []
      | String _ s' =>
          if nonempty p && startswith_ci s p
          then substring 0 (String.length p) s
               :: occurrences fuel' p (drop_str (String.length p) s)
          else occurrences fuel' p s'
      end
  end.

Definition literal_regex : Regex :=
  {| pattern := string;
     re_compile := fun src _ => Some src;
     re_escape := fun s => s;
     findall := fun p s => Strings (occurrences (String.length s) p s);
     finditer_group1 := fun _ _ => [];
     tuple_str := fun _ => EmptyString |}.

(** Stand-ins for the fixed metric patterns under the literal instance:
    the word JOIN without its boundaries, and the keywords of the three
    table patterns, which find no group. *)
Definition literal_metric_patterns
  : @Structural.MetricPatterns literal_regex :=
  {| Structural.join_word_pattern := "JOIN" : @pattern literal_regex;
     Structural.from_pattern := "FROM" : @pattern literal_regex;
     Structural.join_pattern := "JOIN" : @pattern literal_regex;
     Structural.lateral_pattern := "LATERAL" : @pattern literal_regex;
     Structural.inner_from_pattern := "FROM" : @pattern literal_regex |}.

(** * Properties *)

(** ** The preprocessor on an example *)

Example preprocess_example :
  _preprocess_sql
    "<![CDATA[ SELECT  a ]]> FROM t <if test='x'> WHERE b = #{b} </if>"
  = "SELECT a FROM t WHERE b = ?".
Proof. vm_compute. reflexivity. Qed.

(** ** The complexity classifier *)

Lemma Qle_bool_false (a b : Q) : (b < a)%Q -> Qle_bool a b = false.
Proof.
  intros Hlt. destruct (Qle_bool a b) eqn:E; [|reflexivity].
  apply Qle_bool_iff in E. exfalso. apply (Qlt_not_le _ _ Hlt E).
Qed.

Lemma find_no_match {A} (f : A -> bool) (l : list A) :
  forallb (fun x => negb (f x)) l = true -> List.find f l = None.
Proof.
  induction l as [|x l IH]; cbn; [reflexivity|].
  intros Hno. apply andb_prop in Hno. destruct Hno as [Hx Hl].
  apply negb_true_iff in Hx. rewrite Hx. apply IH, Hl.
Qed.

(** A score that falls in no band gets the fall-through label. *)
Lemma conversion_fall_through (score : Q) :
  forallb (fun b => negb (Conversion.in_band score b))
    Conversion.COMPLEXITY_LEVELS = true ->
  Conversion._get_complexity_level score = Conversion.VeryHigh.
Proof.
  intros Hno. unfold Conversion._get_complexity_level.
  rewrite (find_no_match _ _ Hno). reflexivity.
Qed.

Lemma structural_fall_through (score : Q) :
  forallb (fun b => negb (Structural.in_band score b))
    Structural.COMPLEXITY_LEVELS = true ->
  Structural._get_complexity_level score = Structural.VeryComplex.
Proof.
  intros Hno. unfold Structural._get_complexity_level.
  rewrite (find_no_match _ _ Hno). reflexivity.
Qed.

Lemma conversion_negative_no_band (score : Q) :
  (score < 0)%Q ->
  forallb (fun b => negb (Conversion.in_band score b))
    Conversion.COMPLEXITY_LEVELS = true.
Proof.
  intros Hneg. cbn [forallb Conversion.COMPLEXITY_LEVELS].
  unfold Conversion.in_band; cbn [Conversion.b_min Conversion.b_max].
  rewrite !Qle_bool_false; [reflexivity | lra ..].
Qed.

Lemma structural_negative_no_band (score : Q) :
  (score < 0)%Q ->
  forallb (fun b => negb (Structural.in_band score b))
    Structural.COMPLEXITY_LEVELS = true.
Proof.
  intros Hneg. cbn [forallb Structural.COMPLEXITY_LEVELS].
  unfold Structural.in_band; cbn [Structural.b_min Structural.b_max].
  rewrite !Qle_bool_false; [reflexivity | lra ..].
Qed.

(** C10.  In both engines the classifier is a total function that
    gives the fall-through label, the label of the highest band, to
    every score that falls in no band.  Every negative score is such a
    score, since it lies below the minimum 0 of the lowest band: it
    gets the highest label, not the lowest. *)
Theorem classifier_fall_through (score : Q) :
  (forallb (fun b => negb (Conversion.in_band score b))
     Conversion.COMPLEXITY_LEVELS = true ->
   Conversion._get_complexity_level score = Conversion.VeryHigh)
  /\ (forallb (fun b => negb (Structural.in_band score b))
        Structural.COMPLEXITY_LEVELS = true ->
      Structural._get_complexity_level score = Structural.VeryComplex)
  /\ ((score < 0)%Q ->
      forallb (fun b => negb (Conversion.in_band score b))
        Conversion.COMPLEXITY_LEVELS = true
      /\ Conversion._get_complexity_level score = Conversion.VeryHigh
      /\ Conversion._get_complexity_level score <> Conversion.VeryLow
      /\ forallb (fun b => negb (Structural.in_band score b))
           Structural.COMPLEXITY_LEVELS = true
      /\ Structural._get_complexity_level score = Structural.VeryComplex
      /\ Structural._get_complexity_level score <> Structural.VerySimple).
Proof.
  split; [apply conversion_fall_through|].
  split; [apply structural_fall_through|].
  intros Hneg.
  pose proof (conversion_negative_no_band score Hneg) as Hc.
  pose proof (structural_negative_no_band score Hneg) as Hs.
  rewrite (conversion_fall_through score Hc).
  rewrite (structural_fall_through score Hs).
  repeat split; try assumption; discriminate.
Qed.

Lemma classifier_fall_through_witness :
  (-1 < 0)%Q
  /\ Conversion._get_complexity_level (-1) = Conversion.VeryHigh
  /\ Structural._get_complexity_level (-1) = Structural.VeryComplex
  /\ Structural._get_complexity_level 10 = Structural.VeryComplex.
Proof.
  assert (Hneg : (-1 < 0)%Q) by reflexivity.
  destruct (classifier_fall_through (-1)) as (_ & _ & Hall).
  destruct (Hall Hneg) as (_ & Hc & _ & _ & Hs & _).
  destruct (classifier_fall_through 10) as (_ & Hten & _).
  split; [exact Hneg|].
  split; [exact Hc|].
  split; [exact Hs|].
  apply Hten. reflexivity.
Defined.

(** ** The structural metric scanners *)

(** The depth loop keeps [0 <= current_depth <= max_depth], whatever the
    two texts are: the depth is decremented only when positive, and the
    maximum follows every increment. *)
Lemma depth_step_invariant (sql sql_upper : string) (st : Z * Z) (i : Z) :
  0 <= fst st <= snd st ->
  0 <= fst (Structural.depth_step sql sql_upper st i)
    <= snd (Structural.depth_step sql sql_upper st i).
Proof.
  destruct st as [cur mx]. unfold Structural.depth_step. cbn [fst snd].
  intros Hinv.
  destruct (char_is sql i "(" && _); cbn [fst snd]; [lia|].
  destruct (char_is sql i ")"); cbn [andb fst snd]; [|lia].
  destruct (cur >? 0) eqn:Hpos; cbn [fst snd]; lia.
Qed.

Lemma depth_loop_invariant (sql sql_upper : string) (l : list Z)
    (st : Z * Z) :
  0 <= fst st <= snd st ->
  0 <= fst (fold_left (Structural.depth_step sql sql_upper) l st)
    <= snd (fold_left (Structural.depth_step sql sql_upper) l st).
Proof.
  revert st. induction l as [|i l IH]; intros st Hinv; cbn [fold_left].
  - exact Hinv.
  - apply IH, depth_step_invariant, Hinv.
Qed.

Lemma depth_scan_invariant (sql sql_upper : string) :
  0 <= fst (Structural.depth_scan sql sql_upper)
    <= snd (Structural.depth_scan sql sql_upper).
Proof.
  unfold Structural.depth_scan. apply depth_loop_invariant. cbn. lia.
Qed.

Section StructuralMetrics.
Context `{Regex} `{!Structural.MetricPatterns}.

Lemma metrics_subquery_depth (sql : string) :
  Structural._calculate_metrics sql !! "subquery_depth"
  = Some (Structural.subquery_depth sql).
Proof. unfold Structural._calculate_metrics. by simplify_map_eq. Qed.

Lemma metrics_select_column_count (sql : string) :
  Structural._calculate_metrics sql !! "select_column_count"
  = Some (Structural.select_column_count sql).
Proof. unfold Structural._calculate_metrics. by simplify_map_eq. Qed.

Lemma metrics_where_condition_count (sql : string) :
  Structural._calculate_metrics sql !! "where_condition_count"
  = Some (Structural.where_condition_count sql).
Proof. unfold Structural._calculate_metrics. by simplify_map_eq. Qed.

(** C4.  For every input string, balanced or not, the [subquery_depth]
    entry of the metrics is present and lies between 0 and 5: the
    running depth never goes below 0, the maximum never below the
    running depth, and the reported value is [min(max_depth, 5)]. *)
Theorem subquery_depth_bounds (sql : string) :
  exists d : Z,
    Structural._calculate_metrics sql !! "subquery_depth" = Some d
    /\ d = Z.min (snd (Structural.depth_scan sql (upper sql))) 5
    /\ 0 <= fst (Structural.depth_scan sql (upper sql))
         <= snd (Structural.depth_scan sql (upper sql))
    /\ 0 <= d <= 5.
Proof.
  exists (Structural.subquery_depth sql).
  pose proof (depth_scan_invariant sql (upper sql)) as Hinv.
  split; [apply metrics_subquery_depth|].
  unfold Structural.subquery_depth. repeat split; lia.
Qed.

(** C5.  The column counter gives the sentinel -1 for [SELECT * FROM t]
    and for [SELECT t.* FROM t], and 4 for
    [SELECT a, b, f(x,y), c FROM t], where the comma between the
    parentheses is masked by the placeholder before commas are
    counted. *)
Theorem select_column_count_examples :
  Structural._calculate_metrics "SELECT * FROM t" !! "select_column_count"
  = Some (-1)
  /\ Structural._calculate_metrics "SELECT t.* FROM t"
       !! "select_column_count" = Some (-1)
  /\ Structural._calculate_metrics "SELECT a, b, f(x,y), c FROM t"
       !! "select_column_count" = Some 4
  /\ Structural.mask_groups 50 "a, b, f(x,y), c" = "a, b, f__PH__, c".
Proof.
  rewrite !metrics_select_column_count.
  repeat split; vm_compute; reflexivity.
Qed.

(** C2, as amended.  For
    [WHERE a=1 AND b=2 AND c IN (SELECT x FROM y WHERE p=1 AND q=2)] the
    metrics give [where_condition_count = 3]: the two top-level [AND]s
    plus one.  The [AND] inside the subquery is not counted: without it
    the count is the same. *)
Theorem where_condition_count_example :
  Structural._calculate_metrics
    "WHERE a=1 AND b=2 AND c IN (SELECT x FROM y WHERE p=1 AND q=2)"
    !! "where_condition_count" = Some 3
  /\ Structural._calculate_metrics
       "WHERE a=1 AND b=2 AND c IN (SELECT x FROM y WHERE p=1)"
       !! "where_condition_count" = Some 3.
Proof.
  rewrite !metrics_where_condition_count.
  split; vm_compute; reflexivity.
Qed.

End StructuralMetrics.

(** C2, as stated, fails: the count for that text is not 2. *)
Lemma where_condition_count_not_2 :
  Structural.where_condition_count
    "WHERE a=1 AND b=2 AND c IN (SELECT x FROM y WHERE p=1 AND q=2)" <> 2.
Proof. vm_compute. discriminate. Qed.

(** ** The normalised score of the structural engine *)

Lemma qmin_le_r (a b : Q) : (Structural.qmin a b <= b)%Q.
Proof.
  unfold Structural.qmin. destruct (Qle_bool a b) eqn:E.
  - apply Qle_bool_iff, E.
  - apply Qle_refl.
Qed.

Lemma qmin_lower (c a b : Q) :
  (c <= a)%Q -> (c <= b)%Q -> (c <= Structural.qmin a b)%Q.
Proof.
  intros Ha Hb. unfold Structural.qmin.
  destruct (Qle_bool a b); assumption.
Qed.

Lemma normalized_score_terms (category_scores : gmap string Q) :
  Structural._calculate_normalized_score category_scores
  = (0 + category_term category_scores "structural" 100 (30 # 100)
     + category_term category_scores "clause" 50 (15 # 100)
     + category_term category_scores "function_expression" 80 (20 # 100)
     + category_term category_scores "query_metric" 40 (10 # 100)
     + category_term category_scores "dbms_specific" 100 (25 # 100))%Q.
Proof. reflexivity. Qed.

Lemma category_weights_sum :
  (sumQ (map snd Structural.CATEGORY_WEIGHTS) == 1)%Q.
Proof. reflexivity. Qed.

Lemma category_term_upper (category_scores : gmap string Q)
    (category : string) (max_score weight : Q) :
  (0 <= weight)%Q ->
  (category_term category_scores category max_score weight
   <= 10 * weight)%Q.
Proof.
  intros Hw. unfold category_term.
  apply Qmult_le_compat_r; [apply qmin_le_r | exact Hw].
Qed.

Lemma category_term_lower (category_scores : gmap string Q)
    (category : string) (max_score weight : Q) :
  (forall c q, category_scores !! c = Some q -> 0 <= q)%Q ->
  (0 < max_score)%Q -> (0 <= weight)%Q ->
  (0 <= category_term category_scores category max_score weight)%Q.
Proof.
  intros Hpos Hmax Hw. unfold category_term.
  apply Qmult_le_0_compat; [|exact Hw].
  apply qmin_lower; [|discriminate].
  assert (Hraw : (0 <= default 0 (category_scores !! category))%Q).
  { destruct (category_scores !! category) as [q|] eqn:E; cbn.
    - apply (Hpos _ _ E).
    - apply Qle_refl. }
  apply Qmult_le_0_compat; [|discriminate].
  apply Qle_shift_div_l; [exact Hmax|].
  rewrite Qmult_0_l. exact Hraw.
Qed.

(** The clamp alone bounds the score from above, for every assignment
    of category scores. *)
Lemma normalized_score_at_most_10 (category_scores : gmap string Q) :
  (Structural._calculate_normalized_score category_scores <= 10)%Q.
Proof.
  rewrite normalized_score_terms.
  pose proof (category_term_upper category_scores "structural" 100
                (30 # 100)) as H1.
  pose proof (category_term_upper category_scores "clause" 50
                (15 # 100)) as H2.
  pose proof (category_term_upper category_scores "function_expression" 80
                (20 # 100)) as H3.
  pose proof (category_term_upper category_scores "query_metric" 40
                (10 # 100)) as H4.
  pose proof (category_term_upper category_scores "dbms_specific" 100
                (25 # 100)) as H5.
  specialize (H1 ltac:(discriminate)). specialize (H2 ltac:(discriminate)).
  specialize (H3 ltac:(discriminate)). specialize (H4 ltac:(discriminate)).
  specialize (H5 ltac:(discriminate)).
  lra.
Qed.

(** On per-category raw scores none of which is negative, which is
    what rules of non-negative weight give, the normalised score of the
    structural engine lies in [0, 10]: each category score is divided
    by its maximum, scaled by 10 and clamped to 10 from above, and the
    category weights 0.30, 0.15, 0.20, 0.10, 0.25 sum to 1.  The upper
    bound 10 holds for every assignment whatsoever
    ([normalized_score_at_most_10]). *)
Theorem normalized_score_in_0_10 (category_scores : gmap string Q) :
  (forall c q, category_scores !! c = Some q -> 0 <= q)%Q ->
  (0 <= Structural._calculate_normalized_score category_scores)%Q
  /\ (Structural._calculate_normalized_score category_scores <= 10)%Q
  /\ (sumQ (map snd Structural.CATEGORY_WEIGHTS) == 1)%Q.
Proof.
  intros Hpos.
  split; [|split; [apply normalized_score_at_most_10
                  | apply category_weights_sum]].
  rewrite normalized_score_terms.
  pose proof (category_term_lower category_scores "structural" 100
                (30 # 100) Hpos) as H1.
  pose proof (category_term_lower category_scores "clause" 50
                (15 # 100) Hpos) as H2.
  pose proof (category_term_lower category_scores "function_expression" 80
                (20 # 100) Hpos) as H3.
  pose proof (category_term_lower category_scores "query_metric" 40
                (10 # 100) Hpos) as H4.
  pose proof (category_term_lower category_scores "dbms_specific" 100
                (25 # 100) Hpos) as H5.
  specialize (H1 ltac:(reflexivity) ltac:(discriminate)).
  specialize (H2 ltac:(reflexivity) ltac:(discriminate)).
  specialize (H3 ltac:(reflexivity) ltac:(discriminate)).
  specialize (H4 ltac:(reflexivity) ltac:(discriminate)).
  specialize (H5 ltac:(reflexivity) ltac:(discriminate)).
  lra.
Qed.

Lemma normalized_score_in_0_10_witness :
  (0 <= Structural._calculate_normalized_score
          (<["structural" := 250%Q]> (<["clause" := 10%Q]> ∅)))%Q
  /\ (Structural._calculate_normalized_score
        (<["structural" := 250%Q]> (<["clause" := 10%Q]> ∅)) <= 10)%Q.
Proof.
  destruct (normalized_score_in_0_10
              (<["structural" := 250%Q]> (<["clause" := 10%Q]> ∅)))
    as (Hlo & Hhi & _).
  - intros c q Hlook.
    apply lookup_insert_Some in Hlook.
    destruct Hlook as [[_ <-] | [_ Hlook]]; [discriminate|].
    apply lookup_insert_Some in Hlook.
    destruct Hlook as [[_ <-] | [_ Hlook]]; [discriminate|].
    rewrite lookup_empty in Hlook. discriminate.
  - split; [exact Hlo | exact Hhi].
Defined.


(** The engine builds such category scores from a rule file: weights
    are read as they are written, and one match of a rule of weight
    -100 under [structural_join] gives the raw score -100 and the
    normalised score -3, which is in no band and so gets the label of
    the most complex queries. *)
Example negative_weight_rule_scores_below_zero :
  let rules :=
    {| Structural.rs_common_rules :=
         Some [ ("structural_join",
                 Structural.RuleList
                   [ {| Structural.raw_id := Some "j1";
                        Structural.raw_name := Some "nvl";
                        Structural.raw_weight := Some (-100);
                        Structural.raw_detection_method := Some "regex";
                        Structural.raw_pattern := Some "NVL";
                        Structural.raw_logic := None;
                        Structural.raw_note := None |} ]) ];
       Structural.rs_dbms_specific_rules := None |} in
  let q := fst (@Structural.score_query literal_regex
                  literal_metric_patterns
                  (@Structural.init literal_regex rules "oracle") ∅
                  "UPDATE t SET a = NVL(b, 0) WHERE id = 1" "q") in
  Structural.raw_score q = -100
  /\ (Structural.normalized_score q == -3)%Q
  /\ Structural.complexity_level q = Structural.VeryComplex.
Proof. vm_compute. repeat split. Qed.

(** ** Compiling the DBMS-specific rules *)

Section DbmsRules.
Context `{Regex}.

(** C9.  [_compile_dbms_rules] tries the dialect token as it is, then
    lower-cased, then upper-cased, as section keys; the rules it
    compiles are those of the first section found and of no other, so
    sections present under several casings are never united. *)
Theorem dbms_rules_first_section (source_db : string)
    (rules : Structural.RuleSet) :
  let dbms_rules := default ∅ (Structural.rs_dbms_specific_rules rules) in
  let compiled := Structural._compile_dbms_rules source_db rules in
  (forall section,
      dbms_rules !! source_db = Some section ->
      compiled
      = Structural.compile_section section "dbms_specific" source_db)
  /\ (forall section,
         dbms_rules !! source_db = None ->
         dbms_rules !! Structural.lower source_db = Some section ->
         compiled
         = Structural.compile_section section "dbms_specific"
             (Structural.lower source_db))
  /\ (forall section,
         dbms_rules !! source_db = None ->
         dbms_rules !! Structural.lower source_db = None ->
         dbms_rules !! upper source_db = Some section ->
         compiled
         = Structural.compile_section section "dbms_specific"
             (upper source_db))
  /\ (dbms_rules !! source_db = None ->
      dbms_rules !! Structural.lower source_db = None ->
      dbms_rules !! upper source_db = None ->
      compiled = []).
Proof.
  cbn zeta. unfold Structural._compile_dbms_rules.
  cbn [Structural.compile_first_section].
  repeat split.
  - intros section Hexact. rewrite Hexact. reflexivity.
  - intros section Hexact Hlower. rewrite Hexact, Hlower. reflexivity.
  - intros section Hexact Hlower Hupper.
    rewrite Hexact, Hlower, Hupper. reflexivity.
  - intros Hexact Hlower Hupper. rewrite Hexact, Hlower, Hupper.
    reflexivity.
Qed.

End DbmsRules.

Lemma dbms_rules_first_section_witness :
  let rule (i : string) :=
    {| Structural.raw_id := Some i; Structural.raw_name := None;
       Structural.raw_weight := Some 5;
       Structural.raw_detection_method := Some "regex";
       Structural.raw_pattern := Some "ROWNUM";
       Structural.raw_logic := None; Structural.raw_note := None |} in
  let rules :=
    {| Structural.rs_common_rules := None;
       Structural.rs_dbms_specific_rules :=
         Some (<["ora" := Structural.RuleList [rule "lower_1"; rule "lower_2"]]>
                 (<["ORA" := Structural.RuleList [rule "upper_1"]]> ∅)) |} in
  map Structural.id
    (@Structural._compile_dbms_rules literal_regex "ORA" rules)
  = ["upper_1"]
  /\ map Structural.id
       (@Structural._compile_dbms_rules literal_regex "ora" rules)
     = ["lower_1"; "lower_2"]
  /\ map Structural.id
       (@Structural._compile_dbms_rules literal_regex "Ora" rules)
     = ["lower_1"; "lower_2"].
Proof.
  cbn zeta.
  set (rule := fun i : string =>
    {| Structural.raw_id := Some i; Structural.raw_name := None;
       Structural.raw_weight := Some 5;
       Structural.raw_detection_method := Some "regex";
       Structural.raw_pattern := Some "ROWNUM";
       Structural.raw_logic := None; Structural.raw_note := None |}).
  set (rules :=
    {| Structural.rs_common_rules := None;
       Structural.rs_dbms_specific_rules :=
         Some (<["ora" := Structural.RuleList [rule "lower_1"; rule "lower_2"]]>
                 (<["ORA" := Structural.RuleList [rule "upper_1"]]> ∅)) |}).
  destruct (@dbms_rules_first_section literal_regex "ORA" rules)
    as (Hexact & _).
  destruct (@dbms_rules_first_section literal_regex "ora" rules)
    as (Hexact' & _).
  destruct (@dbms_rules_first_section literal_regex "Ora" rules)
    as (_ & Hlower & _).
  split; [|split].
  - rewrite (Hexact (Structural.RuleList [rule "upper_1"])); reflexivity.
  - rewrite (Hexact' (Structural.RuleList [rule "lower_1"; rule "lower_2"]));
      reflexivity.
  - rewrite (Hlower (Structural.RuleList [rule "lower_1"; rule "lower_2"]));
      reflexivity.
Defined.

(** ** The raw score *)

Lemma fold_add_init (l : list Z) (a : Z) :
  fold_left Z.add l a = a + sumZ l.
Proof.
  unfold sumZ. revert a. induction l as [|x l IH]; intros a; cbn [fold_left].
  - lia.
  - rewrite (IH (a + x)), (IH (0 + x)). lia.
Qed.

Lemma sumZ_cons (x : Z) (l : list Z) : sumZ (x :: l) = x + sumZ l.
Proof. unfold sumZ at 1. cbn [fold_left]. rewrite fold_add_init. lia. Qed.

Lemma sumZ_app (l1 l2 : list Z) : sumZ (l1 ++ l2)%list = sumZ l1 + sumZ l2.
Proof.
  induction l1 as [|x l1 IH]; [reflexivity|].
  cbn [app]. rewrite !sumZ_cons, IH. lia.
Qed.

Lemma count_pattern_matches_nonneg `{Regex} (sql : string) (p : pattern) :
  0 <= fst (_count_pattern_matches sql p).
Proof.
  unfold _count_pattern_matches.
  destruct (findall p sql) as [[|x l]|[|x l]]; cbn [fst]; lia.
Qed.

Section ConversionRawScore.
Context `{Regex}.

Lemma conversion_rule_step_sum (pre : string) (st : Conversion.loop_state)
    (rule : Conversion.CompiledRule) :
  sumZ (map conversion_contribution
          (fst (fst (Conversion.rule_step pre st rule))))
  = sumZ (map conversion_contribution (fst (fst st)))
    + (if conversion_rule_count pre rule >? 0
       then Conversion.weight rule * conversion_rule_count pre rule
       else 0).
Proof.
  destruct st as [[matched grades] counts].
  unfold Conversion.rule_step, conversion_rule_count.
  destruct (Conversion.compiled_pattern rule) as [p|]; cbn [fst];
    [|cbn; lia].
  destruct (_count_pattern_matches pre p) as [n samples]. cbn [fst].
  destruct (n >? 0); cbn [fst]; [|lia].
  rewrite map_app, sumZ_app. cbn [map]. rewrite sumZ_cons.
  change (sumZ []) with 0. unfold conversion_contribution at 2.
  cbn [Conversion.rm_weight Conversion.match_count]. lia.
Qed.

Lemma conversion_rule_loop_sum (pre : string)
    (rules : list Conversion.CompiledRule) (st : Conversion.loop_state) :
  sumZ (map conversion_contribution
          (fst (fst (fold_left (Conversion.rule_step pre) rules st))))
  = sumZ (map conversion_contribution (fst (fst st)))
    + sumZ (map (fun rule =>
                   Conversion.weight rule * conversion_rule_count pre rule)
              (List.filter (fun rule => conversion_rule_count pre rule >? 0)
                 rules)).
Proof.
  revert st. induction rules as [|rule rules IH]; intros st.
  - cbn [fold_left List.filter map]. change (sumZ []) with 0. lia.
  - cbn [fold_left List.filter]. rewrite IH, conversion_rule_step_sum.
    destruct (conversion_rule_count pre rule >? 0).
    + cbn [map]. rewrite sumZ_cons. lia.
    + lia.
Qed.

Lemma conversion_rule_step_counts (pre : string)
    (st : Conversion.loop_state) (rule : Conversion.CompiledRule) :
  Forall (fun r => 1 <= Conversion.match_count r) (fst (fst st)) ->
  Forall (fun r => 1 <= Conversion.match_count r)
    (fst (fst (Conversion.rule_step pre st rule))).
Proof.
  destruct st as [[matched grades] counts]. cbn [fst]. intros Hall.
  unfold Conversion.rule_step.
  destruct (Conversion.compiled_pattern rule) as [p|]; [|exact Hall].
  destruct (_count_pattern_matches pre p) as [n samples].
  destruct (n >? 0) eqn:Hpos; [|exact Hall]. cbn [fst].
  apply Forall_app. split; [exact Hall|].
  constructor; [cbn; lia | constructor].
Qed.

Lemma conversion_rule_loop_counts (pre : string)
    (rules : list Conversion.CompiledRule) (st : Conversion.loop_state) :
  Forall (fun r => 1 <= Conversion.match_count r) (fst (fst st)) ->
  Forall (fun r => 1 <= Conversion.match_count r)
    (fst (fst (fold_left (Conversion.rule_step pre) rules st))).
Proof.
  revert st. induction rules as [|rule rules IH]; intros st Hall.
  - exact Hall.
  - cbn [fold_left]. apply IH, conversion_rule_step_counts, Hall.
Qed.

Lemma conversion_score_query_fields (e : Conversion.Engine)
    (counts : gmap string Z) (sql query_name : string) :
  let q := fst (Conversion.score_query e counts sql query_name) in
  Conversion.matched_rules q
  = fst (fst (fold_left (Conversion.rule_step (_preprocess_sql sql))
                (Conversion.compiled_patterns e)
                ([], list_to_map [("A", 0); ("P", 0); ("M", 0)], counts)))
  /\ Conversion.raw_score q
     = sumZ (map conversion_contribution (Conversion.matched_rules q))
  /\ Conversion.sql q = stored_sql sql.
Proof.
  cbn zeta. unfold Conversion.score_query.
  destruct (fold_left _ _ _) as [[matched grades] counts'].
  cbn. repeat split.
Qed.

End ConversionRawScore.

Section StructuralRawScore.
Context `{Regex} `{!Structural.MetricPatterns}.

Lemma structural_rule_step_sum (pre : string)
    (st : list Structural.RuleMatch * gmap string Z)
    (rule : Structural.CompiledRule) :
  sumZ (map structural_contribution
          (fst (Structural.rule_step pre st rule)))
  = sumZ (map structural_contribution (fst st))
    + (if structural_rule_count pre rule >? 0
       then Structural.weight rule * structural_rule_count pre rule
       else 0).
Proof.
  destruct st as [matched counts].
  unfold Structural.rule_step, structural_rule_count.
  destruct (Structural.compiled_pattern rule) as [p|]; cbn [fst];
    [|cbn; lia].
  destruct (_count_pattern_matches pre p) as [n samples]. cbn [fst].
  destruct (n >? 0); cbn [fst]; [|lia].
  rewrite map_app, sumZ_app. cbn [map]. rewrite sumZ_cons.
  change (sumZ []) with 0. unfold structural_contribution at 2.
  cbn [Structural.rm_weight Structural.match_count]. lia.
Qed.

Lemma structural_rule_loop_sum (pre : string)
    (rules : list Structural.CompiledRule)
    (st : list Structural.RuleMatch * gmap string Z) :
  sumZ (map structural_contribution
          (fst (fold_left (Structural.rule_step pre) rules st)))
  = sumZ (map structural_contribution (fst st))
    + sumZ (map (fun rule =>
                   Structural.weight rule * structural_rule_count pre rule)
              (List.filter (fun rule => structural_rule_count pre rule >? 0)
                 rules)).
Proof.
  revert st. induction rules as [|rule rules IH]; intros st.
  - cbn [fold_left List.filter map]. change (sumZ []) with 0. lia.
  - cbn [fold_left List.filter]. rewrite IH, structural_rule_step_sum.
    destruct (structural_rule_count pre rule >? 0).
    + cbn [map]. rewrite sumZ_cons. lia.
    + lia.
Qed.

Lemma structural_rule_step_counts (pre : string)
    (st : list Structural.RuleMatch * gmap string Z)
    (rule : Structural.CompiledRule) :
  Forall (fun r => 1 <= Structural.match_count r) (fst st) ->
  Forall (fun r => 1 <= Structural.match_count r)
    (fst (Structural.rule_step pre st rule)).
Proof.
  destruct st as [matched counts]. cbn [fst]. intros Hall.
  unfold Structural.rule_step.
  destruct (Structural.compiled_pattern rule) as [p|]; [|exact Hall].
  destruct (_count_pattern_matches pre p) as [n samples].
  destruct (n >? 0) eqn:Hpos; [|exact Hall]. cbn [fst].
  apply Forall_app. split; [exact Hall|].
  constructor; [cbn; lia | constructor].
Qed.

Lemma structural_rule_loop_counts (pre : string)
    (rules : list Structural.CompiledRule)
    (st : list Structural.RuleMatch * gmap string Z) :
  Forall (fun r => 1 <= Structural.match_count r) (fst st) ->
  Forall (fun r => 1 <= Structural.match_count r)
    (fst (fold_left (Structural.rule_step pre) rules st)).
Proof.
  revert st. induction rules as [|rule rules IH]; intros st Hall.
  - exact Hall.
  - cbn [fold_left]. apply IH, structural_rule_step_counts, Hall.
Qed.

(** Every synthetic match of [_apply_metric_rules] has the default
    match count 1. *)
Lemma metric_rules_counts (metrics : gmap string Z) :
  Forall (fun r => Structural.match_count r = 1)
    (Structural._apply_metric_rules metrics).
Proof.
  unfold Structural._apply_metric_rules. cbn zeta.
  repeat (apply Forall_app; split);
    repeat match goal with
           | |- Forall _ (if ?b then _ else _) => destruct b
           end;
    repeat constructor.
Qed.

Lemma structural_score_query_fields (e : Structural.Engine)
    (counts : gmap string Z) (sql query_name : string) :
  let q := fst (Structural.score_query e counts sql query_name) in
  let pre := _preprocess_sql sql in
  Structural.matched_rules q
  = fst (fold_left (Structural.rule_step pre) (Structural.dbms_rules e)
           (fold_left (Structural.rule_step pre) (Structural.common_rules e)
              (Structural._apply_metric_rules
                 (Structural._calculate_metrics pre), counts)))
  /\ Structural.raw_score q
     = sumZ (map structural_contribution (Structural.matched_rules q))
  /\ Structural.sql q = stored_sql sql
  /\ Structural.metrics q = Structural._calculate_metrics pre.
Proof.
  cbn zeta. unfold Structural.score_query.
  destruct (fold_left _ (Structural.dbms_rules e) _) as [matched counts'].
  cbn. repeat split.
Qed.

End StructuralRawScore.

Section RawScore.
Context `{Regex} `{!Structural.MetricPatterns}.

(** C1.  For every query scored by either engine, [raw_score] is the
    sum of [weight * match_count] over the matched rules.  In terms of
    the catalogue it is the sum of [weight * match_count] over the rules
    that match at least once: a rule whose compiled pattern is [None]
    counts 0 matches, and a rule with 0 matches is left out of the sum.
    In the structural engine the synthetic metric matches, each with
    match count 1, come first.  Every matched rule has a match count of
    at least 1. *)
Theorem raw_score_is_weighted_match_sum
    (ce : Conversion.Engine) (se : Structural.Engine)
    (counts : gmap string Z) (sql query_name : string) :
  let pre := _preprocess_sql sql in
  let qc := fst (Conversion.score_query ce counts sql query_name) in
  let qs := fst (Structural.score_query se counts sql query_name) in
  Conversion.raw_score qc
  = sumZ (map (fun r => Conversion.rm_weight r * Conversion.match_count r)
            (Conversion.matched_rules qc))
  /\ Conversion.raw_score qc
     = sumZ (map (fun rule =>
                    Conversion.weight rule * conversion_rule_count pre rule)
               (List.filter
                  (fun rule => conversion_rule_count pre rule >? 0)
                  (Conversion.compiled_patterns ce)))
  /\ Forall (fun r => 1 <= Conversion.match_count r)
       (Conversion.matched_rules qc)
  /\ Structural.raw_score qs
     = sumZ (map (fun r => Structural.rm_weight r * Structural.match_count r)
               (Structural.matched_rules qs))
  /\ Structural.raw_score qs
     = sumZ (map Structural.rm_weight
               (Structural._apply_metric_rules
                  (Structural._calculate_metrics pre)))
       + sumZ (map (fun rule =>
                      Structural.weight rule
                      * structural_rule_count pre rule)
                 (List.filter
                    (fun rule => structural_rule_count pre rule >? 0)
                    (Structural.common_rules se)))
       + sumZ (map (fun rule =>
                      Structural.weight rule
                      * structural_rule_count pre rule)
                 (List.filter
                    (fun rule => structural_rule_count pre rule >? 0)
                    (Structural.dbms_rules se)))
  /\ Forall (fun r => 1 <= Structural.match_count r)
       (Structural.matched_rules qs).
Proof.
  cbn zeta.
  destruct (conversion_score_query_fields ce counts sql query_name)
    as (Hcm & Hcr & _).
  destruct (structural_score_query_fields se counts sql query_name)
    as (Hsm & Hsr & _).
  cbn zeta in Hcm, Hcr, Hsm, Hsr.
  split; [exact Hcr|].
  split.
  { rewrite Hcr, Hcm, conversion_rule_loop_sum. cbn [fst map].
    change (sumZ []) with 0. lia. }
  split.
  { rewrite Hcm. apply conversion_rule_loop_counts. constructor. }
  split; [exact Hsr|].
  split.
  { rewrite Hsr, Hsm, !structural_rule_loop_sum. cbn [fst].
    f_equal. f_equal.
    f_equal. apply map_ext_Forall.
    eapply Forall_impl; [apply metric_rules_counts|].
    intros r Hone. unfold structural_contribution. cbn beta in Hone.
    rewrite Hone. lia. }
  rewrite Hsm. apply structural_rule_loop_counts,
    structural_rule_loop_counts. cbn [fst].
  eapply Forall_impl; [apply metric_rules_counts|].
  intros r Hone. cbn beta in Hone. rewrite Hone. lia.
Qed.

End RawScore.

(** ** The stored SQL text *)

Lemma length_app_str (s1 s2 : string) :
  String.length (s1 +:+ s2) = (String.length s1 + String.length s2)%nat.
Proof.
  induction s1 as [|c s1 IH]; [reflexivity|].
  change (String c s1 +:+ s2) with (String c (s1 +:+ s2)).
  cbn [String.length plus]. rewrite IH. reflexivity.
Qed.

Lemma length_substring_0 (n : nat) (s : string) :
  String.length (substring 0 n s) = Nat.min n (String.length s).
Proof.
  revert s. induction n as [|n IH]; intros [|c s]; cbn; try reflexivity.
  rewrite IH. reflexivity.
Qed.

Lemma stored_sql_short (sql : string) :
  (String.length sql <= 500)%nat -> stored_sql sql = sql.
Proof.
  intros Hshort. unfold stored_sql, len.
  destruct (Z.of_nat (String.length sql) >? 500) eqn:E; [lia | reflexivity].
Qed.

Lemma stored_sql_long (sql : string) :
  (500 < String.length sql)%nat ->
  stored_sql sql = substring 0 500 sql +:+ "...".
Proof.
  intros Hlong. unfold stored_sql, len.
  destruct (Z.of_nat (String.length sql) >? 500) eqn:E; [reflexivity | lia].
Qed.

Lemma stored_sql_length (sql : string) :
  String.length (stored_sql sql)
  = if (500 <? String.length sql)%nat then 503%nat else String.length sql.
Proof.
  destruct (500 <? String.length sql)%nat eqn:E.
  - apply Nat.ltb_lt in E. rewrite (stored_sql_long sql E).
    rewrite length_app_str, length_substring_0. cbn [String.length]. lia.
  - apply Nat.ltb_ge in E. rewrite (stored_sql_short sql E). reflexivity.
Qed.

Section StoredSql.
Context `{Regex} `{!Structural.MetricPatterns}.

(** C8, as amended.  For every scored query, in both engines, the
    stored [sql] field is at most 503 characters long: a text of at
    most 500 characters is stored unchanged, and a longer one is cut to
    its first 500 characters followed by the three characters
    ["..."]. *)
Theorem stored_sql_at_most_503
    (ce : Conversion.Engine) (se : Structural.Engine)
    (counts : gmap string Z) (sql query_name : string) :
  let qc := fst (Conversion.score_query ce counts sql query_name) in
  let qs := fst (Structural.score_query se counts sql query_name) in
  Structural.sql qs = Conversion.sql qc
  /\ (String.length (Conversion.sql qc) <= 503)%nat
  /\ ((String.length sql <= 500)%nat -> Conversion.sql qc = sql)
  /\ ((500 < String.length sql)%nat ->
      Conversion.sql qc = substring 0 500 sql +:+ "..."
      /\ String.length (Conversion.sql qc) = 503%nat).
Proof.
  cbn zeta.
  destruct (conversion_score_query_fields ce counts sql query_name)
    as (_ & _ & Hc).
  destruct (structural_score_query_fields se counts sql query_name)
    as (_ & _ & Hs & _).
  cbn zeta in Hc, Hs. rewrite Hc, Hs.
  pose proof (stored_sql_length sql) as Hlen.
  split; [reflexivity|].
  split.
  { rewrite Hlen. destruct (500 <? String.length sql)%nat eqn:E; [lia|].
    apply Nat.ltb_ge in E. lia. }
  split; [apply stored_sql_short|].
  intros Hlong. split; [apply stored_sql_long, Hlong|].
  rewrite Hlen. apply Nat.ltb_lt in Hlong. rewrite Hlong. reflexivity.
Qed.

End StoredSql.

Lemma stored_sql_at_most_503_witness :
  let ce : @Conversion.Engine literal_regex :=
    {| Conversion.source_db := "ORA"; Conversion.compiled_patterns := [] |} in
  let se : @Structural.Engine literal_regex :=
    {| Structural.source_db := "ORA"; Structural.common_rules := [];
       Structural.dbms_rules := [] |} in
  (500 < String.length (replicate_char 501 "a"))%nat
  /\ String.length
       (Conversion.sql
          (fst (Conversion.score_query ce ∅ (replicate_char 501 "a") "q")))
     = 503%nat
  /\ Conversion.sql (fst (Conversion.score_query ce ∅ "SELECT 1" "q"))
     = "SELECT 1".
Proof.
  cbn zeta.
  assert (Hlong : (500 < String.length (replicate_char 501 "a"))%nat)
    by (vm_compute; lia).
  assert (Hshort : (String.length "SELECT 1" <= 500)%nat) by (cbn; lia).
  split; [exact Hlong|].
  split.
  - destruct (@stored_sql_at_most_503 literal_regex literal_metric_patterns
                {| Conversion.source_db := "ORA";
                   Conversion.compiled_patterns := [] |}
                {| Structural.source_db := "ORA";
                   Structural.common_rules := [];
                   Structural.dbms_rules := [] |}
                ∅ (replicate_char 501 "a") "q")
      as (_ & _ & _ & Hcut).
    exact (proj2 (Hcut Hlong)).
  - destruct (@stored_sql_at_most_503 literal_regex literal_metric_patterns
                {| Conversion.source_db := "ORA";
                   Conversion.compiled_patterns := [] |}
                {| Structural.source_db := "ORA";
                   Structural.common_rules := [];
                   Structural.dbms_rules := [] |}
                ∅ "SELECT 1" "q")
      as (_ & _ & Hkeep & _).
    exact (Hkeep Hshort).
Defined.

(** C8, as stated, fails: a text of 501 characters is stored with 503
    characters. *)
Lemma stored_sql_exceeds_500 :
  String.length
    (Conversion.sql
       (fst (@Conversion.score_query literal_regex
               {| Conversion.source_db := "ORA";
                  Conversion.compiled_patterns := [] |}
               ∅ (replicate_char 501 "a") "q")))
  = 503%nat
  /\ ~ (String.length (stored_sql (replicate_char 501 "a")) <= 500)%nat.
Proof.
  split; [vm_compute; reflexivity|].
  vm_compute. lia.
Qed.

(** ** Empty queries and empty corpora *)

Lemma round2_zero : (round2 0 == 0)%Q.
Proof. reflexivity. Qed.

Lemma py_div_positive (a : Q) (n : Z) :
  0 < n -> py_div a n = Some (a / inject_Z n)%Q.
Proof.
  intros Hpos. unfold py_div. destruct (n =? 0) eqn:E; [lia | reflexivity].
Qed.

Lemma scoreable_in_file_nonneg (file_data : FileData) :
  0 <= scoreable_in_file file_data.
Proof. unfold scoreable_in_file. lia. Qed.

Lemma sumZ_nonneg (l : list Z) : Forall (fun x => 0 <= x) l -> 0 <= sumZ l.
Proof.
  induction 1 as [|x l Hx _ IH]; [reflexivity|]. rewrite sumZ_cons. lia.
Qed.

Lemma scoreable_in_corpus_nonneg (documents : list (list FileData)) :
  0 <= scoreable_in_corpus documents.
Proof.
  unfold scoreable_in_corpus. apply sumZ_nonneg, Forall_map, Forall_forall.
  intros fd _. apply scoreable_in_file_nonneg.
Qed.

Section ConversionRollUp.
Context `{Regex}.
Variable e : Conversion.Engine.

Lemma conversion_query_step_skip (st : Conversion.file_state) (q : Query) :
  scoreable q = false -> Conversion.query_step e st q = st.
Proof.
  intros Hskip. destruct st as [[scores dist] counts].
  unfold Conversion.query_step. unfold scoreable in Hskip.
  rewrite Hskip. reflexivity.
Qed.

Lemma conversion_query_step_length (st : Conversion.file_state) (q : Query) :
  scoreable q = true ->
  length (fst (fst (Conversion.query_step e st q)))
  = S (length (fst (fst st))).
Proof.
  intros Hkeep. destruct st as [[scores dist] counts].
  unfold Conversion.query_step. unfold scoreable in Hkeep.
  rewrite Hkeep. cbn [negb].
  destruct (Conversion.score_query e counts _ _) as [score counts'].
  cbn [fst]. rewrite length_app. cbn. lia.
Qed.

Lemma conversion_query_loop_filter (qs : list Query)
    (st : Conversion.file_state) :
  fold_left (Conversion.query_step e) qs st
  = fold_left (Conversion.query_step e) (List.filter scoreable qs) st.
Proof.
  revert st. induction qs as [|q qs IH]; intros st; [reflexivity|].
  cbn [fold_left List.filter]. destruct (scoreable q) eqn:E.
  - cbn [fold_left]. apply IH.
  - rewrite (conversion_query_step_skip st q E). apply IH.
Qed.

Lemma conversion_query_loop_length (qs : list Query)
    (st : Conversion.file_state) :
  length (fst (fst (fold_left (Conversion.query_step e) qs st)))
  = (length (fst (fst st)) + length (List.filter scoreable qs))%nat.
Proof.
  revert st. induction qs as [|q qs IH]; intros st.
  - cbn. lia.
  - cbn [fold_left List.filter]. rewrite IH. destruct (scoreable q) eqn:E.
    + rewrite (conversion_query_step_length st q E). cbn [length]. lia.
    + rewrite (conversion_query_step_skip st q E). lia.
Qed.

Lemma conversion_analyze_file_skips (counts : gmap string Z)
    (file_data : FileData) :
  Conversion.analyze_file e counts file_data
  = Conversion.analyze_file e counts (drop_unscoreable file_data).
Proof.
  unfold Conversion.analyze_file.
  cbn [drop_unscoreable fd_queries fd_file_name fd_file_path default].
  rewrite conversion_query_loop_filter. reflexivity.
Qed.

Lemma conversion_analyze_file_total (counts : gmap string Z)
    (file_data : FileData) :
  exists fs counts',
    Conversion.analyze_file e counts file_data = Some (fs, counts')
    /\ Conversion.query_count fs = scoreable_in_file file_data
    /\ length (Conversion.queries fs)
       = length (List.filter scoreable (default [] (fd_queries file_data)))
    /\ (scoreable_in_file file_data = 0 ->
        Conversion.queries fs = []
        /\ Conversion.total_raw_score fs = 0
        /\ (Conversion.total_weighted_score fs == 0)%Q
        /\ (Conversion.avg_score fs == 0)%Q).
Proof.
  unfold Conversion.analyze_file, scoreable_in_file.
  pose proof (conversion_query_loop_length
                (default [] (fd_queries file_data)) ([], ∅, counts)) as Hlen.
  destruct (fold_left _ _ _) as [[scores dist] counts'].
  cbn [fst length plus] in Hlen.
  destruct scores as [|score scores].
  - cbn. eexists _, _. split; [reflexivity|]. cbn.
    rewrite <- Hlen. repeat split; reflexivity.
  - rewrite py_div_positive by (cbn [length]; lia).
    cbn. eexists _, _. split; [reflexivity|]. cbn.
    rewrite <- Hlen. cbn [length]. repeat split; lia.
Qed.

Lemma conversion_file_step_total (st : Conversion.corpus_state)
    (file_data : FileData) :
  exists st',
    Conversion.file_step e (Some st) file_data = Some st'
    /\ Conversion.cs_total_queries st'
       = Conversion.cs_total_queries st + scoreable_in_file file_data.
Proof.
  destruct (conversion_analyze_file_total (Conversion.cs_counts st)
              file_data) as (fs & counts' & Hfile & Hcount & _).
  unfold Conversion.file_step. cbn. rewrite Hfile. cbn.
  eexists. split; [reflexivity|]. cbn. rewrite Hcount. reflexivity.
Qed.

Lemma conversion_file_loop_total (files : list FileData)
    (st : Conversion.corpus_state) :
  exists st',
    fold_left (Conversion.file_step e) files (Some st) = Some st'
    /\ Conversion.cs_total_queries st'
       = Conversion.cs_total_queries st
         + sumZ (map scoreable_in_file files).
Proof.
  revert st. induction files as [|fd files IH]; intros st.
  - exists st. split; [reflexivity|]. cbn. change (sumZ []) with 0. lia.
  - destruct (conversion_file_step_total st fd) as (st1 & Hstep & Hq1).
    destruct (IH st1) as (st' & Hloop & Hq).
    exists st'. cbn [fold_left map]. rewrite Hstep, Hloop, sumZ_cons.
    split; [reflexivity | lia].
Qed.

Lemma conversion_file_loop_skips (files : list FileData)
    (st : option Conversion.corpus_state) :
  fold_left (Conversion.file_step e) (map drop_unscoreable files) st
  = fold_left (Conversion.file_step e) files st.
Proof.
  revert st. induction files as [|fd files IH]; intros st; [reflexivity|].
  cbn [map fold_left]. rewrite IH. f_equal.
  unfold Conversion.file_step. destruct st as [st|]; [|reflexivity].
  cbn. rewrite <- conversion_analyze_file_skips. reflexivity.
Qed.

Lemma conversion_corpus_total (counts : gmap string Z)
    (documents : list (list FileData)) :
  exists files summary,
    Conversion.analyze_json_files e counts documents
    = Some (files, summary)
    /\ Conversion.total_queries summary = scoreable_in_corpus documents
    /\ (scoreable_in_corpus documents = 0 ->
        (Conversion.average_score summary == 0)%Q
        /\ Conversion.overall_complexity_level summary
           = Conversion.VeryLow).
Proof.
  unfold Conversion.analyze_json_files, scoreable_in_corpus.
  destruct (conversion_file_loop_total (concat documents)
              {| Conversion.all_files := [];
                 Conversion.cs_total_queries := 0;
                 Conversion.total_score := 0;
                 Conversion.overall_complexity_dist := ∅;
                 Conversion.cs_counts := counts |})
    as (st' & Hloop & Hq).
  rewrite Hloop. cbn [Conversion.cs_total_queries] in Hq.
  cbn [mbind option_bind].
  destruct (Conversion.cs_total_queries st' >? 0) eqn:Hpos.
  - rewrite py_div_positive by lia. cbn.
    eexists _, _. split; [reflexivity|]. cbn.
    split; [lia|]. intros Hzero. lia.
  - cbn. eexists _, _. split; [reflexivity|]. cbn.
    split; [lia|]. intros _. split; reflexivity.
Qed.

Lemma conversion_corpus_skips (counts : gmap string Z)
    (documents : list (list FileData)) :
  Conversion.analyze_json_files e counts
    (map (map drop_unscoreable) documents)
  = Conversion.analyze_json_files e counts documents.
Proof.
  unfold Conversion.analyze_json_files.
  rewrite <- concat_map, conversion_file_loop_skips. reflexivity.
Qed.

End ConversionRollUp.

Section StructuralRollUp.
Context `{Regex} `{!Structural.MetricPatterns}.
Variable e : Structural.Engine.

Lemma structural_query_step_skip (st : Structural.file_state) (q : Query) :
  scoreable q = false -> Structural.query_step e st q = st.
Proof.
  intros Hskip. destruct st as [[scores dist] counts].
  unfold Structural.query_step. unfold scoreable in Hskip.
  rewrite Hskip. reflexivity.
Qed.

Lemma structural_query_step_length (st : Structural.file_state) (q : Query) :
  scoreable q = true ->
  length (fst (fst (Structural.query_step e st q)))
  = S (length (fst (fst st))).
Proof.
  intros Hkeep. destruct st as [[scores dist] counts].
  unfold Structural.query_step. unfold scoreable in Hkeep.
  rewrite Hkeep. cbn [negb].
  destruct (Structural.score_query e counts _ _) as [score counts'].
  cbn [fst]. rewrite length_app. cbn. lia.
Qed.

Lemma structural_query_loop_filter (qs : list Query)
    (st : Structural.file_state) :
  fold_left (Structural.query_step e) qs st
  = fold_left (Structural.query_step e) (List.filter scoreable qs) st.
Proof.
  revert st. induction qs as [|q qs IH]; intros st; [reflexivity|].
  cbn [fold_left List.filter]. destruct (scoreable q) eqn:E.
  - cbn [fold_left]. apply IH.
  - rewrite (structural_query_step_skip st q E). apply IH.
Qed.

Lemma structural_query_loop_length (qs : list Query)
    (st : Structural.file_state) :
  length (fst (fst (fold_left (Structural.query_step e) qs st)))
  = (length (fst (fst st)) + length (List.filter scoreable qs))%nat.
Proof.
  revert st. induction qs as [|q qs IH]; intros st.
  - cbn. lia.
  - cbn [fold_left List.filter]. rewrite IH. destruct (scoreable q) eqn:E.
    + rewrite (structural_query_step_length st q E). cbn [length]. lia.
    + rewrite (structural_query_step_skip st q E). lia.
Qed.

Lemma structural_analyze_file_skips (counts : gmap string Z)
    (file_data : FileData) :
  Structural.analyze_file e counts file_data
  = Structural.analyze_file e counts (drop_unscoreable file_data).
Proof.
  unfold Structural.analyze_file.
  cbn [drop_unscoreable fd_queries fd_file_name fd_file_path default].
  rewrite structural_query_loop_filter. reflexivity.
Qed.

Lemma structural_analyze_file_total (counts : gmap string Z)
    (file_data : FileData) :
  exists fs counts',
    Structural.analyze_file e counts file_data = Some (fs, counts')
    /\ Structural.query_count fs = scoreable_in_file file_data
    /\ length (Structural.queries fs)
       = length (List.filter scoreable (default [] (fd_queries file_data)))
    /\ (scoreable_in_file file_data = 0 ->
        Structural.queries fs = []
        /\ Structural.total_raw_score fs = 0
        /\ (Structural.avg_score fs == 0)%Q
        /\ (Structural.avg_normalized_score fs == 0)%Q).
Proof.
  unfold Structural.analyze_file, scoreable_in_file.
  pose proof (structural_query_loop_length
                (default [] (fd_queries file_data)) ([], ∅, counts)) as Hlen.
  destruct (fold_left _ _ _) as [[scores dist] counts'].
  cbn [fst length plus] in Hlen.
  destruct scores as [|score scores].
  - cbn. eexists _, _. split; [reflexivity|]. cbn.
    rewrite <- Hlen. repeat split; reflexivity.
  - rewrite !py_div_positive by (cbn [length]; lia).
    cbn. eexists _, _. split; [reflexivity|]. cbn.
    rewrite <- Hlen. cbn [length]. repeat split; lia.
Qed.

Lemma structural_file_step_total (st : Structural.corpus_state)
    (file_data : FileData) :
  exists st',
    Structural.file_step e (Some st) file_data = Some st'
    /\ Structural.cs_total_queries st'
       = Structural.cs_total_queries st + scoreable_in_file file_data.
Proof.
  destruct (structural_analyze_file_total (Structural.cs_counts st)
              file_data) as (fs & counts' & Hfile & Hcount & _).
  unfold Structural.file_step. cbn. rewrite Hfile. cbn.
  eexists. split; [reflexivity|]. cbn. rewrite Hcount. reflexivity.
Qed.

Lemma structural_file_loop_total (files : list FileData)
    (st : Structural.corpus_state) :
  exists st',
    fold_left (Structural.file_step e) files (Some st) = Some st'
    /\ Structural.cs_total_queries st'
       = Structural.cs_total_queries st
         + sumZ (map scoreable_in_file files).
Proof.
  revert st. induction files as [|fd files IH]; intros st.
  - exists st. split; [reflexivity|]. cbn. change (sumZ []) with 0. lia.
  - destruct (structural_file_step_total st fd) as (st1 & Hstep & Hq1).
    destruct (IH st1) as (st' & Hloop & Hq).
    exists st'. cbn [fold_left map]. rewrite Hstep, Hloop, sumZ_cons.
    split; [reflexivity | lia].
Qed.

Lemma structural_file_loop_skips (files : list FileData)
    (st : option Structural.corpus_state) :
  fold_left (Structural.file_step e) (map drop_unscoreable files) st
  = fold_left (Structural.file_step e) files st.
Proof.
  revert st. induction files as [|fd files IH]; intros st; [reflexivity|].
  cbn [map fold_left]. rewrite IH. f_equal.
  unfold Structural.file_step. destruct st as [st|]; [|reflexivity].
  cbn. rewrite <- structural_analyze_file_skips. reflexivity.
Qed.

Lemma structural_corpus_total (counts : gmap string Z)
    (documents : list (list FileData)) :
  exists files summary,
    Structural.analyze_json_files e counts documents
    = Some (files, summary)
    /\ Structural.total_queries summary = scoreable_in_corpus documents
    /\ (scoreable_in_corpus documents = 0 ->
        (Structural.average_raw_score summary == 0)%Q
        /\ (Structural.average_normalized_score summary == 0)%Q
        /\ Structural.overall_complexity_level summary
           = Structural.VerySimple).
Proof.
  unfold Structural.analyze_json_files, scoreable_in_corpus.
  destruct (structural_file_loop_total (concat documents)
              {| Structural.all_files := [];
                 Structural.cs_total_queries := 0;
                 Structural.total_score := 0;
                 Structural.total_normalized := 0;
                 Structural.overall_complexity_dist := ∅;
                 Structural.cs_counts := counts |})
    as (st' & Hloop & Hq).
  rewrite Hloop. cbn [Structural.cs_total_queries] in Hq.
  cbn [mbind option_bind].
  destruct (Structural.cs_total_queries st' >? 0) eqn:Hpos.
  - rewrite !py_div_positive by lia. cbn.
    eexists _, _. split; [reflexivity|]. cbn.
    split; [lia|]. intros Hzero. lia.
  - cbn. eexists _, _. split; [reflexivity|]. cbn.
    split; [lia|]. intros _. repeat split; reflexivity.
Qed.

Lemma structural_corpus_skips (counts : gmap string Z)
    (documents : list (list FileData)) :
  Structural.analyze_json_files e counts
    (map (map drop_unscoreable) documents)
  = Structural.analyze_json_files e counts documents.
Proof.
  unfold Structural.analyze_json_files.
  rewrite <- concat_map, structural_file_loop_skips. reflexivity.
Qed.

End StructuralRollUp.

Section SkippedQueries.
Context `{Regex} `{!Structural.MetricPatterns}.

(** C7.  A query whose SQL is empty or missing is skipped altogether:
    analysing a file, or a corpus, gives the very same result as
    analysing it with those queries removed, and [query_count] (and the
    corpus total) counts the scoreable queries only.  The roll-ups never
    fault: they return a result for every input, and with no scoreable
    query every average is 0 (and the overall level is the lowest
    band's). *)
Theorem empty_queries_are_skipped
    (ce : Conversion.Engine) (se : Structural.Engine)
    (counts : gmap string Z) (file_data : FileData)
    (documents : list (list FileData)) :
  (exists fs counts',
      Conversion.analyze_file ce counts file_data = Some (fs, counts')
      /\ Conversion.query_count fs = scoreable_in_file file_data
      /\ length (Conversion.queries fs)
         = length (List.filter scoreable
                     (default [] (fd_queries file_data)))
      /\ (scoreable_in_file file_data = 0 ->
          Conversion.queries fs = []
          /\ Conversion.total_raw_score fs = 0
          /\ (Conversion.total_weighted_score fs == 0)%Q
          /\ (Conversion.avg_score fs == 0)%Q))
  /\ Conversion.analyze_file ce counts file_data
     = Conversion.analyze_file ce counts (drop_unscoreable file_data)
  /\ (exists fs counts',
         Structural.analyze_file se counts file_data = Some (fs, counts')
         /\ Structural.query_count fs = scoreable_in_file file_data
         /\ length (Structural.queries fs)
            = length (List.filter scoreable
                        (default [] (fd_queries file_data)))
         /\ (scoreable_in_file file_data = 0 ->
             Structural.queries fs = []
             /\ Structural.total_raw_score fs = 0
             /\ (Structural.avg_score fs == 0)%Q
             /\ (Structural.avg_normalized_score fs == 0)%Q))
  /\ Structural.analyze_file se counts file_data
     = Structural.analyze_file se counts (drop_unscoreable file_data)
  /\ (exists files summary,
         Conversion.analyze_json_files ce counts documents
         = Some (files, summary)
         /\ Conversion.total_queries summary = scoreable_in_corpus documents
         /\ (scoreable_in_corpus documents = 0 ->
             (Conversion.average_score summary == 0)%Q
             /\ Conversion.overall_complexity_level summary
                = Conversion.VeryLow))
  /\ Conversion.analyze_json_files ce counts
       (map (map drop_unscoreable) documents)
     = Conversion.analyze_json_files ce counts documents
  /\ (exists files summary,
         Structural.analyze_json_files se counts documents
         = Some (files, summary)
         /\ Structural.total_queries summary = scoreable_in_corpus documents
         /\ (scoreable_in_corpus documents = 0 ->
             (Structural.average_raw_score summary == 0)%Q
             /\ (Structural.average_normalized_score summary == 0)%Q
             /\ Structural.overall_complexity_level summary
                = Structural.VerySimple))
  /\ Structural.analyze_json_files se counts
       (map (map drop_unscoreable) documents)
     = Structural.analyze_json_files se counts documents.
Proof.
  split; [apply conversion_analyze_file_total|].
  split; [apply conversion_analyze_file_skips|].
  split; [apply structural_analyze_file_total|].
  split; [apply structural_analyze_file_skips|].
  split; [apply conversion_corpus_total|].
  split; [apply conversion_corpus_skips|].
  split; [apply structural_corpus_total|].
  apply structural_corpus_skips.
Qed.

End SkippedQueries.

Lemma empty_queries_are_skipped_witness :
  let ce : @Conversion.Engine literal_regex :=
    {| Conversion.source_db := "ORA";
       Conversion.compiled_patterns :=
         [ {| Conversion.id := "r1"; Conversion.name := "join";
              Conversion.weight := 10; Conversion.conversion_grade := "P";
              Conversion.detection_method := "regex";
              Conversion.rule_pattern := "JOIN";
              Conversion.category := "c"; Conversion.subcategory := "s";
              Conversion.compiled_pattern :=
                Some ("JOIN" : @pattern literal_regex) |} ] |} in
  let se : @Structural.Engine literal_regex :=
    {| Structural.source_db := "ORA"; Structural.common_rules := [];
       Structural.dbms_rules := [] |} in
  let blank :=
    {| fd_file_name := Some "a.xml"; fd_file_path := None;
       fd_queries :=
         Some [ {| q_name := Some "q1"; q_type := None; q_sql := None |};
                {| q_name := None; q_type := None; q_sql := Some "" |} ] |} in
  scoreable_in_file blank = 0
  /\ scoreable_in_corpus [[blank]; []] = 0
  /\ (exists fs counts',
         Conversion.analyze_file ce ∅ blank = Some (fs, counts')
         /\ Conversion.query_count fs = 0
         /\ (Conversion.avg_score fs == 0)%Q)
  /\ (exists files summary,
         @Structural.analyze_json_files literal_regex
           literal_metric_patterns se ∅ [[blank]; []]
         = Some (files, summary)
         /\ Structural.total_queries summary = 0
         /\ (Structural.average_raw_score summary == 0)%Q
         /\ (Structural.average_normalized_score summary == 0)%Q).
Proof.
  cbn zeta.
  set (ce := {| Conversion.source_db := "ORA";
                Conversion.compiled_patterns := _ |}).
  set (se := {| Structural.source_db := "ORA";
                Structural.common_rules := [];
                Structural.dbms_rules := [] |}).
  set (blank := {| fd_file_name := Some "a.xml"; fd_file_path := None;
                   fd_queries := _ |}).
  assert (Hfile : scoreable_in_file blank = 0) by reflexivity.
  assert (Hcorpus : scoreable_in_corpus [[blank]; []] = 0) by reflexivity.
  destruct (@empty_queries_are_skipped literal_regex
              literal_metric_patterns ce se ∅ blank [[blank]; []])
    as (Hcf & _ & _ & _ & _ & _ & Hsc & _).
  split; [exact Hfile|].
  split; [exact Hcorpus|].
  split.
  - destruct Hcf as (fs & counts' & Heq & Hcount & _ & Hzero).
    exists fs, counts'. split; [exact Heq|].
    split; [rewrite Hcount; exact Hfile|].
    exact (proj2 (proj2 (proj2 (Hzero Hfile)))).
  - destruct Hsc as (files & summary & Heq & Htotal & Hzero).
    exists files, summary. split; [exact Heq|].
    split; [rewrite Htotal; exact Hcorpus|].
    destruct (Hzero Hcorpus) as (Hraw & Hnorm & _).
    split; [exact Hraw | exact Hnorm].
Defined.

(** ** Preprocessing twice *)

Lemma find_none_existsb {A} (f : A -> bool) (l : list A) :
  existsb f l = false -> List.find f l = None.
Proof.
  induction l as [|x l IH]; cbn; [reflexivity|].
  intros Hno. apply orb_false_elim in Hno. destruct Hno as [Hx Hl].
  rewrite Hx. apply IH, Hl.
Qed.

Lemma has_marker_parts (u : string) :
  has_marker u = false ->
  startswith u "<![CDATA[" = false
  /\ match u with
     | String c t => ascii_eqb c "<" && existsb (startswith_ci t) tag_names
     | EmptyString => false
     end = false
  /\ existsb (fun n => startswith_ci u ("</" +:+ n +:+ ">")) tag_names
     = false
  /\ match u with
     | String c0 (String c1 _) =>
         (ascii_eqb c0 "#" || ascii_eqb c0 "$") && ascii_eqb c1 "{"
     | _ => false
     end = false.
Proof.
  unfold has_marker. intros Hno.
  apply orb_false_elim in Hno. destruct Hno as [Hno H4].
  apply orb_false_elim in Hno. destruct Hno as [Hno H3].
  apply orb_false_elim in Hno. destruct Hno as [H1 H2].
  repeat split; assumption.
Qed.

Lemma match_cdata_no_marker (u : string) :
  has_marker u = false -> match_cdata u = None.
Proof.
  intros Hno. apply has_marker_parts in Hno. destruct Hno as (H1 & _).
  unfold match_cdata. rewrite H1. reflexivity.
Qed.

Lemma match_open_tag_no_marker (u : string) :
  has_marker u = false -> match_open_tag u = None.
Proof.
  intros Hno. apply has_marker_parts in Hno. destruct Hno as (_ & H2 & _).
  unfold match_open_tag. destruct u as [|c t]; [reflexivity|].
  rewrite H2. reflexivity.
Qed.

Lemma match_close_tag_no_marker (u : string) :
  has_marker u = false -> match_close_tag u = None.
Proof.
  intros Hno. apply has_marker_parts in Hno.
  destruct Hno as (_ & _ & H3 & _).
  unfold match_close_tag. rewrite (find_none_existsb _ _ H3). reflexivity.
Qed.

Lemma match_param_no_marker (sigil : ascii) (u : string) :
  sigil = "#"%char \/ sigil = "$"%char ->
  has_marker u = false -> match_param sigil u = None.
Proof.
  intros Hsigil Hno. apply has_marker_parts in Hno.
  destruct Hno as (_ & _ & _ & H4).
  unfold match_param.
  destruct u as [|c0 [|c1 [|c2 rest]]]; try reflexivity.
  assert (Hhead : ascii_eqb c0 sigil && ascii_eqb c1 "{" = false).
  { destruct (ascii_eqb c1 "{"); [|apply andb_false_r].
    rewrite andb_true_r in H4 |- *.
    apply orb_false_elim in H4. destruct H4 as [Hhash Hdollar].
    destruct Hsigil as [-> | ->]; assumption. }
  rewrite Hhead. reflexivity.
Qed.

(** A substitution whose pattern matches nowhere leaves the text as it
    is. *)
Lemma re_sub_loop_markup_free (m : matcher) :
  (forall u, has_marker u = false -> m u = None) ->
  forall (fuel : nat) (s : string),
    markup_free s = true -> re_sub_loop fuel m s = s.
Proof.
  intros Hm. induction fuel as [|fuel IH]; intros s Hfree; [reflexivity|].
  destruct s as [|c s']; [reflexivity|].
  cbn [markup_free] in Hfree. apply andb_prop in Hfree.
  destruct Hfree as [Hhead Htail]. apply negb_true_iff in Hhead.
  cbn [re_sub_loop]. rewrite (Hm _ Hhead), (IH s' Htail). reflexivity.
Qed.

Lemma re_sub_markup_free (m : matcher) (s : string) :
  (forall u, has_marker u = false -> m u = None) ->
  markup_free s = true -> re_sub m s = s.
Proof. intros Hm Hfree. apply re_sub_loop_markup_free; assumption. Qed.

(** *** Whitespace *)

Lemma lstrip_head (s : string) :
  Structural.head_is_space (lstrip s) = false.
Proof.
  induction s as [|c s IH]; [reflexivity|].
  cbn [lstrip]. destruct (is_space c) eqn:E; [exact IH|].
  cbn. exact E.
Qed.

Lemma lstrip_id (s : string) :
  Structural.head_is_space s = false -> lstrip s = s.
Proof.
  destruct s as [|c s]; [reflexivity|]. cbn. intros ->. reflexivity.
Qed.

Lemma length_lstrip (s : string) :
  (String.length (lstrip s) <= String.length s)%nat.
Proof.
  induction s as [|c s IH]; cbn [lstrip]; [lia|].
  destruct (is_space c); cbn [String.length]; lia.
Qed.

Lemma tidy_lstrip (s : string) : tidy s = true -> tidy (lstrip s) = true.
Proof.
  induction s as [|c s IH]; [reflexivity|].
  intros Htidy. cbn [lstrip]. destruct (is_space c) eqn:E; [|exact Htidy].
  apply IH. cbn [tidy] in Htidy. apply andb_prop in Htidy. apply Htidy.
Qed.

Lemma rstrip_head (s : string) :
  Structural.head_is_space s = false ->
  Structural.head_is_space (rstrip s) = false.
Proof.
  destruct s as [|c s]; [reflexivity|].
  cbn [Structural.head_is_space rstrip]. intros Hc.
  destruct (rstrip s); [rewrite Hc|]; cbn [Structural.head_is_space];
    exact Hc.
Qed.

Lemma tidy_rstrip (s : string) : tidy s = true -> tidy (rstrip s) = true.
Proof.
  induction s as [|c s IH]; [reflexivity|].
  intros Htidy. cbn [tidy] in Htidy. apply andb_prop in Htidy.
  destruct Htidy as [Hc Hs]. specialize (IH Hs).
  cbn [rstrip]. destruct (rstrip s) as [|d r] eqn:Er.
  - destruct (is_space c) eqn:E; [reflexivity|].
    cbn [tidy]. rewrite E. reflexivity.
  - cbn [tidy]. cbn [tidy] in IH. rewrite IH, andb_true_r.
    destruct (is_space c) eqn:E; [|reflexivity].
    apply andb_prop in Hc. destruct Hc as [Hsp Hnext].
    rewrite Hsp. cbn [andb]. apply negb_true_iff in Hnext.
    pose proof (rstrip_head s Hnext) as Hhead. rewrite Er in Hhead.
    rewrite Hhead. reflexivity.
Qed.

Lemma rstrip_idempotent (s : string) : rstrip (rstrip s) = rstrip s.
Proof.
  induction s as [|c s IH]; [reflexivity|].
  cbn [rstrip]. destruct (rstrip s) as [|d r] eqn:Er.
  - destruct (is_space c) eqn:E; [reflexivity|].
    cbn [rstrip]. rewrite E. reflexivity.
  - cbn [rstrip]. cbn [rstrip] in IH.
    destruct (rstrip r) as [|d' r'] eqn:Er'.
    + destruct (is_space d); [discriminate|]. rewrite IH. reflexivity.
    + rewrite IH. reflexivity.
Qed.

Lemma strip_idempotent (s : string) : strip (strip s) = strip s.
Proof.
  unfold strip.
  rewrite (lstrip_id (rstrip (lstrip s)))
    by apply rstrip_head, lstrip_head.
  apply rstrip_idempotent.
Qed.

Lemma tidy_strip (s : string) : tidy s = true -> tidy (strip s) = true.
Proof. intros Htidy. apply tidy_rstrip, tidy_lstrip, Htidy. Qed.

Lemma space_app (s : string) : " " +:+ s = String " " s.
Proof. reflexivity. Qed.

(** The whitespace substitution gives a tidy text, and keeps a head
    that is not whitespace. *)
Lemma collapse_tidy (fuel : nat) (s : string) :
  (String.length s <= fuel)%nat ->
  tidy (re_sub_loop fuel match_spaces s) = true
  /\ (Structural.head_is_space s = false ->
      Structural.head_is_space (re_sub_loop fuel match_spaces s) = false).
Proof.
  revert s. induction fuel as [|fuel IH]; intros s Hlen.
  - destruct s; [split; reflexivity | cbn in Hlen; lia].
  - destruct s as [|c s']; [split; reflexivity|].
    cbn [String.length] in Hlen. cbn [re_sub_loop match_spaces].
    destruct (is_space c) eqn:E.
    + pose proof (length_lstrip s') as Hl.
      destruct (IH (lstrip s') ltac:(lia)) as (Htidy & Hhead).
      specialize (Hhead (lstrip_head s')).
      rewrite space_app. split.
      * cbn [tidy]. rewrite Htidy, Hhead. reflexivity.
      * cbn [Structural.head_is_space]. rewrite E. discriminate.
    + destruct (IH s' ltac:(lia)) as (Htidy & _). split.
      * cbn [tidy]. rewrite E, Htidy. reflexivity.
      * intros _. cbn [Structural.head_is_space]. exact E.
Qed.

Lemma ascii_eqb_eq (a b : ascii) : ascii_eqb a b = true -> a = b.
Proof. apply Ascii.eqb_eq. Qed.

(** On a tidy text the whitespace substitution changes nothing. *)
Lemma collapse_tidy_id (fuel : nat) (s : string) :
  tidy s = true -> re_sub_loop fuel match_spaces s = s.
Proof.
  revert s. induction fuel as [|fuel IH]; intros s Htidy; [reflexivity|].
  destruct s as [|c s']; [reflexivity|].
  cbn [tidy] in Htidy. apply andb_prop in Htidy.
  destruct Htidy as [Hc Hs]. cbn [re_sub_loop match_spaces].
  destruct (is_space c) eqn:E.
  - apply andb_prop in Hc. destruct Hc as [Hsp Hnext].
    apply ascii_eqb_eq in Hsp. subst c.
    apply negb_true_iff in Hnext.
    rewrite (lstrip_id s' Hnext), space_app, (IH s' Hs). reflexivity.
  - rewrite (IH s' Hs). reflexivity.
Qed.

Lemma preprocess_tidy (s : string) : tidy (_preprocess_sql s) = true.
Proof.
  unfold _preprocess_sql. apply tidy_strip.
  unfold re_sub at 1. apply collapse_tidy. lia.
Qed.

(** C3, as amended.  Preprocessing a preprocessed text returns it
    unchanged whenever no template markup is left in it, that is, when
    no place of the preprocessed text starts as one of the five
    substitution patterns does. *)
Theorem preprocess_idempotent_without_markup (s : string) :
  markup_free (_preprocess_sql s) = true ->
  _preprocess_sql (_preprocess_sql s) = _preprocess_sql s.
Proof.
  intros Hfree.
  pose proof (preprocess_tidy s) as Htidy.
  set (t := _preprocess_sql s) in *.
  unfold _preprocess_sql at 1. cbn zeta.
  rewrite (re_sub_markup_free match_cdata t match_cdata_no_marker Hfree).
  rewrite (re_sub_markup_free match_open_tag t match_open_tag_no_marker
             Hfree).
  rewrite (re_sub_markup_free match_close_tag t match_close_tag_no_marker
             Hfree).
  rewrite (re_sub_markup_free (match_param "#") t
             (fun u => match_param_no_marker "#" u (or_introl eq_refl))
             Hfree).
  rewrite (re_sub_markup_free (match_param "$") t
             (fun u => match_param_no_marker "$" u (or_intror eq_refl))
             Hfree).
  unfold re_sub. rewrite (collapse_tidy_id _ t Htidy).
  subst t. unfold _preprocess_sql at 1. cbn zeta.
  apply strip_idempotent.
Qed.

Lemma preprocess_idempotent_without_markup_witness :
  markup_free
    (_preprocess_sql
       "<![CDATA[ SELECT  a ]]> FROM t <if test='x'> WHERE b < #{b} </if>")
  = true
  /\ _preprocess_sql
       (_preprocess_sql
          "<![CDATA[ SELECT  a ]]> FROM t <if test='x'> WHERE b < #{b} </if>")
     = "SELECT a FROM t WHERE b < ?".
Proof.
  assert (Hfree :
    markup_free
      (_preprocess_sql
         "<![CDATA[ SELECT  a ]]> FROM t <if test='x'> WHERE b < #{b} </if>")
    = true) by (vm_compute; reflexivity).
  split; [exact Hfree|].
  rewrite (preprocess_idempotent_without_markup _ Hfree).
  vm_compute. reflexivity.
Defined.

(** C3, as stated for every input, fails: of two nested CDATA sections
    the first pass unwraps only the outer opener, and the second pass
    unwraps what is left. *)
Lemma preprocess_not_idempotent :
  _preprocess_sql "<![CDATA[<![CDATA[x]]>]]>" = "<![CDATA[x]]>"
  /\ _preprocess_sql (_preprocess_sql "<![CDATA[<![CDATA[x]]>]]>") = "x"
  /\ _preprocess_sql (_preprocess_sql "<![CDATA[<![CDATA[x]]>]]>")
     <> _preprocess_sql "<![CDATA[<![CDATA[x]]>]]>".
Proof.
  split; [vm_compute; reflexivity|].
  split; [vm_compute; reflexivity|].
  vm_compute. discriminate.
Qed.

(** ** The fuel of [re_sub] *)

Lemma length_drop_str (n : nat) (s : string) :
  (String.length (drop_str n s) <= String.length s)%nat.
Proof.
  revert s. induction n as [|n IH]; intros [|c s]; cbn; try lia.
  specialize (IH s). lia.
Qed.

Lemma re_sub_loop_enough (m : matcher) :
  consuming m ->
  forall (fuel1 fuel2 : nat) (s : string),
    (String.length s <= fuel1)%nat -> (String.length s <= fuel2)%nat ->
    re_sub_loop fuel1 m s = re_sub_loop fuel2 m s.
Proof.
  intros Hm. induction fuel1 as [|fuel1 IH]; intros fuel2 s H1 H2.
  - destruct s; [|cbn in H1; lia]. destruct fuel2; reflexivity.
  - destruct s as [|c s']; [destruct fuel2; reflexivity|].
    destruct fuel2 as [|fuel2]; [cbn in H2; lia|].
    cbn [String.length] in H1, H2. cbn [re_sub_loop].
    destruct (m (String c s')) as [[out rest]|] eqn:E.
    + pose proof (Hm _ _ _ _ E) as Hrest.
      rewrite (IH fuel2 rest) by lia. reflexivity.
    + rewrite (IH fuel2 s') by lia. reflexivity.
Qed.

Lemma preprocess_matchers_consume :
  consuming match_cdata /\ consuming match_open_tag
  /\ consuming match_close_tag /\ consuming (match_param "#")
  /\ consuming (match_param "$") /\ consuming match_spaces.
Proof.
  repeat split; intros c u out rest.
  - unfold match_cdata. destruct (startswith _ _); [|discriminate].
    assert (Hbody : (String.length (drop_str 9 (String c u))
                     <= String.length u)%nat)
      by (change (drop_str 9 (String c u)) with (drop_str 8 u);
          apply length_drop_str).
    revert Hbody. generalize (drop_str 9 (String c u)). intros body Hbody.
    destruct (String.index _ _ _) as [k|]; [|discriminate].
    intros [= _ <-].
    pose proof (length_drop_str (k + 3) body). lia.
  - unfold match_open_tag. destruct (_ && _); [|discriminate].
    destruct (String.index _ _ _) as [k|]; [|discriminate].
    intros [= _ <-]. apply length_drop_str.
  - unfold match_close_tag. destruct (List.find _ _) as [n|];
      [|discriminate].
    intros [= _ <-].
    replace (String.length n + 3)%nat with (S (String.length n + 2))
      by lia.
    cbn [drop_str]. apply length_drop_str.
  - unfold match_param. destruct u as [|c1 [|c2 u']]; try discriminate.
    destruct (_ && _); [|discriminate].
    destruct (String.index _ _ _) as [k|]; [|discriminate].
    intros [= _ <-]. pose proof (length_drop_str (k + 1) u').
    cbn [String.length]. lia.
  - unfold match_param. destruct u as [|c1 [|c2 u']]; try discriminate.
    destruct (_ && _); [|discriminate].
    destruct (String.index _ _ _) as [k|]; [|discriminate].
    intros [= _ <-]. pose proof (length_drop_str (k + 1) u').
    cbn [String.length]. lia.
  - unfold match_spaces. destruct (is_space c); [|discriminate].
    intros [= _ <-]. apply length_lstrip.
Qed.

(** * Further properties of the engines *)

(** ** Dialect names *)

Lemma upper_char_idempotent (c : ascii) :
  upper_char (upper_char c) = upper_char c.
Proof.
  destruct c as [[] [] [] [] [] [] [] []]; vm_compute; reflexivity.
Qed.

Lemma upper_idempotent (s : string) : upper (upper s) = upper s.
Proof.
  induction s as [|c s IH]; [reflexivity|].
  cbn [upper]. rewrite upper_char_idempotent, IH. reflexivity.
Qed.

Lemma normalize_db_name_canonical (db_name canonical : string)
    (aliases : list string) :
  List.find
    (fun '(_, aliases) => existsb (String.eqb (upper db_name)) aliases)
    Structural.DB_ALIASES = Some (canonical, aliases) ->
  In canonical ["ORA"; "MY"; "MDB"; "PG"; "SS"; "ALT"; "DB2"].
Proof.
  intros Hfind. apply find_some in Hfind. destruct Hfind as [Hin _].
  cbn in Hin.
  repeat (destruct Hin as [[= <- _] | Hin]; [cbn; tauto|]).
  destruct Hin.
Qed.

(** X1.  [_normalize_db_name] is the same function in both engines.  It
    is idempotent and blind to the case of its argument, and its result
    is one of the seven canonical tokens or else the upper-cased
    argument. *)
Theorem normalize_db_name_idempotent (db_name : string) :
  Conversion._normalize_db_name db_name
  = Structural._normalize_db_name db_name
  /\ Structural._normalize_db_name (Structural._normalize_db_name db_name)
     = Structural._normalize_db_name db_name
  /\ Structural._normalize_db_name (upper db_name)
     = Structural._normalize_db_name db_name
  /\ (In (Structural._normalize_db_name db_name)
        ["ORA"; "MY"; "MDB"; "PG"; "SS"; "ALT"; "DB2"]
      \/ Structural._normalize_db_name db_name = upper db_name).
Proof.
  split; [reflexivity|].
  assert (Hupper : Structural._normalize_db_name (upper db_name)
                   = Structural._normalize_db_name db_name).
  { unfold Structural._normalize_db_name. cbn zeta.
    rewrite upper_idempotent. reflexivity. }
  split; [|split; [exact Hupper|]].
  - unfold Structural._normalize_db_name at 2 3. cbn zeta.
    destruct (List.find _ Structural.DB_ALIASES) as [[canonical aliases]|]
      eqn:Hfind.
    + pose proof (normalize_db_name_canonical _ _ _ Hfind) as Hin.
      cbn in Hin.
      repeat (destruct Hin as [<- | Hin]; [vm_compute; reflexivity|]).
      destruct Hin.
    + unfold Structural._normalize_db_name. cbn zeta.
      rewrite upper_idempotent, Hfind. reflexivity.
  - unfold Structural._normalize_db_name. cbn zeta.
    destruct (List.find _ Structural.DB_ALIASES) as [[canonical aliases]|]
      eqn:Hfind.
    + left. exact (normalize_db_name_canonical _ _ _ Hfind).
    + right. reflexivity.
Qed.

(** ** Match counts and samples *)

(** X2.  [_count_pattern_matches] returns a count that is never
    negative together with the first samples: as many samples as
    matches, but never more than 5; there is no sample exactly when the
    count is 0. *)
Theorem count_pattern_matches_samples `{Regex} (sql : string)
    (p : pattern) :
  0 <= fst (_count_pattern_matches sql p)
  /\ Z.of_nat (length (snd (_count_pattern_matches sql p)))
     = Z.min 5 (fst (_count_pattern_matches sql p))
  /\ (fst (_count_pattern_matches sql p) = 0
      <-> snd (_count_pattern_matches sql p) = []).
Proof.
  unfold _count_pattern_matches.
  destruct (findall p sql) as [[|x l]|[|x l]]; cbn [fst snd].
  - repeat split; lia.
  - rewrite length_take. repeat split; try lia.
    + cbn [length]. lia.
    + intros Hnil. discriminate Hnil.
  - repeat split; lia.
  - rewrite length_take, length_map. repeat split; try lia.
    + cbn [length]. lia.
    + intros Hnil. discriminate Hnil.
Qed.

(** ** The bands of the classifier *)

Lemma Qle_bool_true (a b : Q) : (a <= b)%Q -> Qle_bool a b = true.
Proof. apply Qle_bool_iff. Qed.

Ltac settle_bands s :=
  repeat match goal with
         | |- context [Qle_bool ?a s] =>
             first [ rewrite (Qle_bool_true a s) by lra
                   | rewrite (Qle_bool_false a s) by lra
                   | destruct (Qle_bool a s) ]
         end;
  reflexivity.

Lemma structural_level_cases (s : Q) :
  (0 <= s)%Q ->
  ((s < 2)%Q /\ Structural._get_complexity_level s = Structural.VerySimple)
  \/ ((2 <= s)%Q /\ (s < 4)%Q
      /\ Structural._get_complexity_level s = Structural.Simple)
  \/ ((4 <= s)%Q /\ (s < 6)%Q
      /\ Structural._get_complexity_level s = Structural.Moderate)
  \/ ((6 <= s)%Q /\ (s < 8)%Q
      /\ Structural._get_complexity_level s = Structural.Complex)
  \/ ((8 <= s)%Q
      /\ Structural._get_complexity_level s = Structural.VeryComplex).
Proof.
  intros Hpos.
  unfold Structural._get_complexity_level, Structural.in_band.
  cbn [List.find Structural.COMPLEXITY_LEVELS Structural.b_min
       Structural.b_max Structural.b_level].
  destruct (Qlt_le_dec s 2) as [H2|H2];
    [left; split; [exact H2 | settle_bands s]|right].
  destruct (Qlt_le_dec s 4) as [H4|H4];
    [left; split; [exact H2 | split; [exact H4 | settle_bands s]]|right].
  destruct (Qlt_le_dec s 6) as [H6|H6];
    [left; split; [exact H4 | split; [exact H6 | settle_bands s]]|right].
  destruct (Qlt_le_dec s 8) as [H8|H8];
    [left; split; [exact H6 | split; [exact H8 | settle_bands s]]|right].
  split; [exact H8 | settle_bands s].
Qed.

Lemma conversion_level_cases (s : Q) :
  (0 <= s)%Q ->
  ((s < 10)%Q /\ Conversion._get_complexity_level s = Conversion.VeryLow)
  \/ ((10 <= s)%Q /\ (s < 30)%Q
      /\ Conversion._get_complexity_level s = Conversion.Low)
  \/ ((30 <= s)%Q /\ (s < 60)%Q
      /\ Conversion._get_complexity_level s = Conversion.Medium)
  \/ ((60 <= s)%Q /\ (s < 100)%Q
      /\ Conversion._get_complexity_level s = Conversion.High)
  \/ ((100 <= s)%Q
      /\ Conversion._get_complexity_level s = Conversion.VeryHigh).
Proof.
  intros Hpos.
  unfold Conversion._get_complexity_level, Conversion.in_band.
  cbn [List.find Conversion.COMPLEXITY_LEVELS Conversion.b_min
       Conversion.b_max Conversion.b_level].
  destruct (Qlt_le_dec s 10) as [H2|H2];
    [left; split; [exact H2 | settle_bands s]|right].
  destruct (Qlt_le_dec s 30) as [H4|H4];
    [left; split; [exact H2 | split; [exact H4 | settle_bands s]]|right].
  destruct (Qlt_le_dec s 60) as [H6|H6];
    [left; split; [exact H4 | split; [exact H6 | settle_bands s]]|right].
  destruct (Qlt_le_dec s 100) as [H8|H8];
    [left; split; [exact H6 | split; [exact H8 | settle_bands s]]|right].
  split; [exact H8 | settle_bands s].
Qed.

(** X3.  On scores that are not negative both classifiers are monotone:
    a larger score never gets a lower level.  In the structural engine a
    score of 10 or more, which lies in no band, gets the same label as
    the top band from 8 to 10. *)
Theorem classifier_monotone (s1 s2 : Q) :
  (0 <= s1)%Q -> (s1 <= s2)%Q ->
  (Conversion.level_code (Conversion._get_complexity_level s1)
   <= Conversion.level_code (Conversion._get_complexity_level s2))%nat
  /\ (Structural.level_code (Structural._get_complexity_level s1)
      <= Structural.level_code (Structural._get_complexity_level s2))%nat
  /\ ((8 <= s1)%Q ->
      Structural._get_complexity_level s1 = Structural.VeryComplex).
Proof.
  intros Hpos Hle.
  assert (Hpos2 : (0 <= s2)%Q) by lra.
  split; [|split].
  - destruct (conversion_level_cases s1 Hpos)
      as [(? & ->)|[(? & ? & ->)|[(? & ? & ->)|[(? & ? & ->)|(? & ->)]]]];
    destruct (conversion_level_cases s2 Hpos2)
      as [(? & ->)|[(? & ? & ->)|[(? & ? & ->)|[(? & ? & ->)|(? & ->)]]]];
    cbn [Conversion.level_code]; first [lia | exfalso; lra].
  - destruct (structural_level_cases s1 Hpos)
      as [(? & ->)|[(? & ? & ->)|[(? & ? & ->)|[(? & ? & ->)|(? & ->)]]]];
    destruct (structural_level_cases s2 Hpos2)
      as [(? & ->)|[(? & ? & ->)|[(? & ? & ->)|[(? & ? & ->)|(? & ->)]]]];
    cbn [Structural.level_code]; first [lia | exfalso; lra].
  - intros H8.
    destruct (structural_level_cases s1 Hpos)
      as [(? & ?)|[(? & ? & ?)|[(? & ? & ?)|[(? & ? & ?)|(? & Hl)]]]];
      first [exact Hl | exfalso; lra].
Qed.

Lemma classifier_monotone_witness :
  (0 <= 9)%Q /\ (9 <= 12)%Q
  /\ Structural._get_complexity_level 12 = Structural.VeryComplex
  /\ (Conversion.level_code (Conversion._get_complexity_level 9)
      <= Conversion.level_code (Conversion._get_complexity_level 12))%nat.
Proof.
  assert (H0 : (0 <= 9)%Q) by discriminate.
  assert (H1 : (9 <= 12)%Q) by discriminate.
  assert (H2 : (0 <= 12)%Q) by discriminate.
  assert (H3 : (12 <= 12)%Q) by discriminate.
  destruct (classifier_monotone 9 12 H0 H1) as (Hc & _ & _).
  destruct (classifier_monotone 12 12 H2 H3) as (_ & _ & Htop).
  split; [exact H0|]. split; [exact H1|].
  split; [apply Htop; discriminate | exact Hc].
Defined.

(** ** The synthetic metric matches *)

Ltac split_ifs :=
  repeat match goal with
         | |- context [if ?b then _ else _] => destruct b
         end.

Ltac metric_component :=
  split_ifs; cbn [length map];
  (split; [first [reflexivity | lia] | split; [unfold sumZ; cbn; lia|]]);
  repeat first [apply List.Forall_nil | apply List.Forall_cons];
  cbn; intuition (try reflexivity; try lia).

(** X4.  Whatever the metrics are, [_apply_metric_rules] gives between
    three and six synthetic matches (always one each for length, joins
    and subquery depth), whose weights add up to at most 115; each has
    match count 1, no sample, and one of the categories [query_metric],
    [structural] and [clause]. *)
Theorem metric_rules_bounds (metrics : gmap string Z) :
  (3 <= length (Structural._apply_metric_rules metrics) <= 6)%nat
  /\ 0 <= sumZ (map Structural.rm_weight
                  (Structural._apply_metric_rules metrics)) <= 115
  /\ Forall (fun r =>
               Structural.match_count r = 1
               /\ Structural.matched_patterns r = []
               /\ 0 <= Structural.rm_weight r <= 30
               /\ In (Structural.rm_category r)
                    ["query_metric"; "structural"; "clause"])
       (Structural._apply_metric_rules metrics).
Proof.
  unfold Structural._apply_metric_rules. cbn zeta.
  match goal with
  | |- context [(?a ++ ?b ++ ?c ++ ?d ++ ?e ++ ?f)%list] =>
      set (by_length := a); set (by_join := b); set (by_depth := c);
      set (by_tables := d); set (by_columns := e); set (by_conditions := f)
  end.
  set (ok := fun r : Structural.RuleMatch =>
               Structural.match_count r = 1
               /\ Structural.matched_patterns r = []
               /\ 0 <= Structural.rm_weight r <= 30
               /\ In (Structural.rm_category r)
                    ["query_metric"; "structural"; "clause"]).
  assert (Ha : length by_length = 1%nat
               /\ 0 <= sumZ (map Structural.rm_weight by_length) <= 20
               /\ Forall ok by_length).
  { subst by_length ok. metric_component. }
  assert (Hb : length by_join = 1%nat
               /\ 0 <= sumZ (map Structural.rm_weight by_join) <= 20
               /\ Forall ok by_join).
  { subst by_join ok. metric_component. }
  assert (Hc : length by_depth = 1%nat
               /\ 0 <= sumZ (map Structural.rm_weight by_depth) <= 30
               /\ Forall ok by_depth).
  { subst by_depth ok. metric_component. }
  assert (Hd : (length by_tables <= 1)%nat
               /\ 0 <= sumZ (map Structural.rm_weight by_tables) <= 15
               /\ Forall ok by_tables).
  { subst by_tables ok. metric_component. }
  assert (He : (length by_columns <= 1)%nat
               /\ 0 <= sumZ (map Structural.rm_weight by_columns) <= 15
               /\ Forall ok by_columns).
  { subst by_columns ok. metric_component. }
  assert (Hf : (length by_conditions <= 1)%nat
               /\ 0 <= sumZ (map Structural.rm_weight by_conditions) <= 15
               /\ Forall ok by_conditions).
  { subst by_conditions ok. metric_component. }
  clearbody by_length by_join by_depth by_tables by_columns by_conditions.
  destruct Ha as (La & Sa & Fa), Hb as (Lb & Sb & Fb),
    Hc as (Lc & Sc & Fc), Hd as (Ld & Sd & Fd), He as (Le & Se & Fe),
    Hf as (Lf & Sf & Ff).
  rewrite !length_app, !map_app, !sumZ_app.
  split; [lia|]. split; [lia|].
  repeat (apply Forall_app; split); assumption.
Qed.

(** ** What a query's score depends on *)

Section ScoreDependencies.
Context `{Regex} `{!Structural.MetricPatterns}.

Lemma conversion_rule_loop_counters (pre : string)
    (rules : list Conversion.CompiledRule)
    (matched : list Conversion.RuleMatch) (grades c1 c2 : gmap string Z) :
  fst (fold_left (Conversion.rule_step pre) rules (matched, grades, c1))
  = fst (fold_left (Conversion.rule_step pre) rules (matched, grades, c2)).
Proof.
  revert matched grades c1 c2.
  induction rules as [|rule rules IH]; intros matched grades c1 c2;
    [reflexivity|].
  cbn [fold_left]. unfold Conversion.rule_step at 2 4.
  destruct (Conversion.compiled_pattern rule) as [p|]; [|apply IH].
  destruct (_count_pattern_matches pre p) as [n samples].
  destruct (n >? 0); apply IH.
Qed.

Lemma structural_rule_loop_counters (pre : string)
    (rules : list Structural.CompiledRule)
    (matched : list Structural.RuleMatch) (c1 c2 : gmap string Z) :
  fst (fold_left (Structural.rule_step pre) rules (matched, c1))
  = fst (fold_left (Structural.rule_step pre) rules (matched, c2)).
Proof.
  revert matched c1 c2.
  induction rules as [|rule rules IH]; intros matched c1 c2;
    [reflexivity|].
  cbn [fold_left]. unfold Structural.rule_step at 2 4.
  destruct (Structural.compiled_pattern rule) as [p|]; [|apply IH].
  destruct (_count_pattern_matches pre p) as [n samples].
  destruct (n >? 0); apply IH.
Qed.

(** X5.  The score of a query does not depend on the match counters,
    that is, on the queries scored before it: with any two counter
    states both engines return the same [QueryScore]. *)
Theorem score_independent_of_counters
    (ce : Conversion.Engine) (se : Structural.Engine)
    (c1 c2 : gmap string Z) (sql query_name : string) :
  fst (Conversion.score_query ce c1 sql query_name)
  = fst (Conversion.score_query ce c2 sql query_name)
  /\ fst (Structural.score_query se c1 sql query_name)
     = fst (Structural.score_query se c2 sql query_name).
Proof.
  split.
  - unfold Conversion.score_query.
    pose proof (conversion_rule_loop_counters (_preprocess_sql sql)
                  (Conversion.compiled_patterns ce) []
                  (list_to_map [("A", 0); ("P", 0); ("M", 0)]) c1 c2) as Heq.
    revert Heq.
    generalize (fold_left (Conversion.rule_step (_preprocess_sql sql))
                  (Conversion.compiled_patterns ce)
                  ([], list_to_map [("A", 0); ("P", 0); ("M", 0)], c1)).
    generalize (fold_left (Conversion.rule_step (_preprocess_sql sql))
                  (Conversion.compiled_patterns ce)
                  ([], list_to_map [("A", 0); ("P", 0); ("M", 0)], c2)).
    intros [[m2 g2] k2] [[m1 g1] k1] Heq.
    cbn [fst] in Heq. injection Heq as -> ->. reflexivity.
  - unfold Structural.score_query. cbn zeta.
    set (pre := _preprocess_sql sql).
    set (metric_rules :=
           Structural._apply_metric_rules (Structural._calculate_metrics pre)).
    pose proof (structural_rule_loop_counters pre
                  (Structural.common_rules se) metric_rules c1 c2) as Hcommon.
    revert Hcommon.
    generalize (fold_left (Structural.rule_step pre)
                  (Structural.common_rules se) (metric_rules, c1)).
    generalize (fold_left (Structural.rule_step pre)
                  (Structural.common_rules se) (metric_rules, c2)).
    intros [m2 k2] [m1 k1] Hcommon. cbn [fst] in Hcommon. subst m2.
    pose proof (structural_rule_loop_counters pre
                  (Structural.dbms_rules se) m1 k1 k2) as Hdbms.
    revert Hdbms.
    generalize (fold_left (Structural.rule_step pre)
                  (Structural.dbms_rules se) (m1, k1)).
    generalize (fold_left (Structural.rule_step pre)
                  (Structural.dbms_rules se) (m1, k2)).
    intros [n2 j2] [n1 j1] Hdbms. cbn [fst] in Hdbms. subst n2.
    reflexivity.
Qed.

(** X6.  A query is scored through its preprocessed text only: two SQL
    texts with the same preprocessed form get the same raw score, the
    same final score, level and matched rules (and, in the structural
    engine, the same metrics and category scores); only the stored SQL
    text can differ. *)
Theorem score_depends_on_preprocessed_text
    (ce : Conversion.Engine) (se : Structural.Engine)
    (counts : gmap string Z) (sql1 sql2 query_name : string) :
  _preprocess_sql sql1 = _preprocess_sql sql2 ->
  let c1 := fst (Conversion.score_query ce counts sql1 query_name) in
  let c2 := fst (Conversion.score_query ce counts sql2 query_name) in
  let s1 := fst (Structural.score_query se counts sql1 query_name) in
  let s2 := fst (Structural.score_query se counts sql2 query_name) in
  Conversion.raw_score c1 = Conversion.raw_score c2
  /\ Conversion.weighted_score c1 = Conversion.weighted_score c2
  /\ Conversion.complexity_level c1 = Conversion.complexity_level c2
  /\ Conversion.matched_rules c1 = Conversion.matched_rules c2
  /\ Conversion.grade_summary c1 = Conversion.grade_summary c2
  /\ snd (Conversion.score_query ce counts sql1 query_name)
     = snd (Conversion.score_query ce counts sql2 query_name)
  /\ Structural.raw_score s1 = Structural.raw_score s2
  /\ Structural.normalized_score s1 = Structural.normalized_score s2
  /\ Structural.complexity_level s1 = Structural.complexity_level s2
  /\ Structural.matched_rules s1 = Structural.matched_rules s2
  /\ Structural.category_scores s1 = Structural.category_scores s2
  /\ Structural.metrics s1 = Structural.metrics s2.
Proof.
  intros Hpre. cbn zeta.
  unfold Conversion.score_query, Structural.score_query. cbn zeta.
  rewrite Hpre.
  destruct (fold_left (Conversion.rule_step _) _ _) as [[m g] k].
  destruct (fold_left (Structural.rule_step _) (Structural.dbms_rules se) _)
    as [m' k'].
  cbn. repeat split.
Qed.

End ScoreDependencies.

Lemma score_depends_on_preprocessed_text_witness :
  let ce : @Conversion.Engine literal_regex :=
    {| Conversion.source_db := "ORA";
       Conversion.compiled_patterns :=
         [ {| Conversion.id := "r1"; Conversion.name := "join";
              Conversion.weight := 10; Conversion.conversion_grade := "M";
              Conversion.detection_method := "regex";
              Conversion.rule_pattern := "JOIN";
              Conversion.category := "c"; Conversion.subcategory := "s";
              Conversion.compiled_pattern :=
                Some ("JOIN" : @pattern literal_regex) |} ] |} in
  _preprocess_sql "SELECT 1 FROM a  JOIN b <if test='x'>JOIN c</if>"
  = _preprocess_sql "  SELECT 1 FROM a JOIN b JOIN c"
  /\ Conversion.raw_score
       (fst (Conversion.score_query ce ∅
               "SELECT 1 FROM a  JOIN b <if test='x'>JOIN c</if>" "q"))
     = Conversion.raw_score
         (fst (Conversion.score_query ce ∅
                 "  SELECT 1 FROM a JOIN b JOIN c" "q"))
  /\ Conversion.raw_score
       (fst (Conversion.score_query ce ∅
               "  SELECT 1 FROM a JOIN b JOIN c" "q")) = 20.
Proof.
  cbn zeta.
  set (ce := {| Conversion.source_db := "ORA";
                Conversion.compiled_patterns := _ |}).
  set (se := {| Structural.source_db := "ORA";
                Structural.common_rules := [];
                Structural.dbms_rules := [] |}
             : @Structural.Engine literal_regex).
  assert (Hpre :
    _preprocess_sql "SELECT 1 FROM a  JOIN b <if test='x'>JOIN c</if>"
    = _preprocess_sql "  SELECT 1 FROM a JOIN b JOIN c")
    by (vm_compute; reflexivity).
  split; [exact Hpre|].
  split.
  - exact (proj1 (@score_depends_on_preprocessed_text literal_regex
                    literal_metric_patterns ce se ∅ _ _ "q" Hpre)).
  - vm_compute. reflexivity.
Defined.

(** ** The shape of preprocessed text *)

Lemma rstrip_fixed_of_strip (s : string) : rstrip (strip s) = strip s.
Proof. unfold strip. apply rstrip_idempotent. Qed.

(** X7.  Preprocessed text is tidy: every whitespace character in it is
    a single space that is followed by a character that is not
    whitespace, and the text neither starts nor ends with whitespace
    (stripping it on either side changes nothing). *)
Theorem preprocess_output_is_tidy (s : string) :
  tidy (_preprocess_sql s) = true
  /\ lstrip (_preprocess_sql s) = _preprocess_sql s
  /\ rstrip (_preprocess_sql s) = _preprocess_sql s
  /\ Structural.head_is_space (_preprocess_sql s) = false.
Proof.
  split; [apply preprocess_tidy|].
  assert (Hhead : Structural.head_is_space (_preprocess_sql s) = false).
  { unfold _preprocess_sql, strip. cbn zeta. apply rstrip_head, lstrip_head. }
  split; [apply lstrip_id, Hhead|].
  split; [|exact Hhead].
  unfold _preprocess_sql. cbn zeta. apply rstrip_fixed_of_strip.
Qed.

Lemma length_lstrip_le (s : string) :
  (String.length (lstrip s) <= String.length s)%nat.
Proof. apply length_lstrip. Qed.

Lemma length_rstrip_le (s : string) :
  (String.length (rstrip s) <= String.length s)%nat.
Proof.
  induction s as [|c s IH]; [reflexivity|].
  cbn [rstrip]. destruct (rstrip s) as [|d r].
  - destruct (is_space c); cbn [String.length]; lia.
  - cbn [String.length] in *. lia.
Qed.

Lemma length_strip_le (s : string) :
  (String.length (strip s) <= String.length s)%nat.
Proof.
  unfold strip. pose proof (length_rstrip_le (lstrip s)).
  pose proof (length_lstrip_le s). lia.
Qed.

Lemma length_drop_str_eq (n : nat) (s : string) :
  String.length (drop_str n s) = (String.length s - n)%nat.
Proof.
  revert s. induction n as [|n IH]; intros [|c s]; cbn; try lia.
  apply IH.
Qed.

Lemma re_sub_loop_shrinks (m : matcher) :
  shrinking m ->
  forall (fuel : nat) (s : string),
    (String.length (re_sub_loop fuel m s) <= String.length s)%nat.
Proof.
  intros Hm. induction fuel as [|fuel IH]; intros s; [reflexivity|].
  destruct s as [|c s']; [reflexivity|].
  cbn [re_sub_loop]. destruct (m (String c s')) as [[out rest]|] eqn:E.
  - pose proof (Hm _ _ _ _ E) as Hlen. specialize (IH rest).
    rewrite length_app_str. cbn [String.length]. lia.
  - specialize (IH s'). cbn [String.length]. lia.
Qed.

Lemma consuming_one_shrinks (m : matcher) :
  consuming m ->
  (forall u out rest, m u = Some (out, rest) -> String.length out = 1%nat) ->
  shrinking m.
Proof.
  intros Hcons Hone c u out rest E.
  pose proof (Hcons _ _ _ _ E). pose proof (Hone _ _ _ E). lia.
Qed.

Lemma preprocess_matchers_shrink :
  shrinking match_cdata /\ shrinking match_open_tag
  /\ shrinking match_close_tag /\ shrinking (match_param "#")
  /\ shrinking (match_param "$") /\ shrinking match_spaces.
Proof.
  destruct preprocess_matchers_consume as (_ & C2 & C3 & C4 & C5 & C6).
  split.
  { intros c u out rest. unfold match_cdata.
    destruct (startswith _ _); [|discriminate].
    assert (Hbody : (String.length (drop_str 9 (String c u))
                     <= String.length u)%nat)
      by (change (drop_str 9 (String c u)) with (drop_str 8 u);
          apply length_drop_str).
    revert Hbody. generalize (drop_str 9 (String c u)). intros body Hbody.
    destruct (String.index _ _ _) as [k|]; [|discriminate].
    intros [= <- <-].
    rewrite length_substring_0, length_drop_str_eq. lia. }
  split.
  { apply consuming_one_shrinks; [exact C2|].
    intros u out rest. unfold match_open_tag. destruct u; [discriminate|].
    destruct (_ && _); [|discriminate].
    destruct (String.index _ _ _); [|discriminate].
    intros [= <- _]. reflexivity. }
  split.
  { apply consuming_one_shrinks; [exact C3|].
    intros u out rest. unfold match_close_tag.
    destruct (List.find _ _); [|discriminate].
    intros [= <- _]. reflexivity. }
  split.
  { apply consuming_one_shrinks; [exact C4|].
    intros u out rest. unfold match_param.
    destruct u as [|c0 [|c1 [|c2 u']]]; try discriminate.
    destruct (_ && _); [|discriminate].
    destruct (String.index _ _ _); [|discriminate].
    intros [= <- _]. reflexivity. }
  split.
  { apply consuming_one_shrinks; [exact C5|].
    intros u out rest. unfold match_param.
    destruct u as [|c0 [|c1 [|c2 u']]]; try discriminate.
    destruct (_ && _); [|discriminate].
    destruct (String.index _ _ _); [|discriminate].
    intros [= <- _]. reflexivity. }
  apply consuming_one_shrinks; [exact C6|].
  intros u out rest. unfold match_spaces. destruct u; [discriminate|].
  destruct (is_space _); [|discriminate].
  intros [= <- _]. reflexivity.
Qed.

(** X8.  Preprocessing never lengthens the text: every substitution
    replaces a match by something shorter or equally long, and the
    metric [length] is therefore at most the length of the raw SQL. *)
Theorem preprocess_never_lengthens (s : string) :
  (String.length (_preprocess_sql s) <= String.length s)%nat.
Proof.
  destruct preprocess_matchers_shrink as (S1 & S2 & S3 & S4 & S5 & S6).
  unfold _preprocess_sql, re_sub. cbn zeta.
  pose proof (re_sub_loop_shrinks _ S1 (String.length s) s) as H1.
  set (s1 := re_sub_loop (String.length s) match_cdata s) in *.
  pose proof (re_sub_loop_shrinks _ S2 (String.length s1) s1) as H2.
  set (s2 := re_sub_loop (String.length s1) match_open_tag s1) in *.
  pose proof (re_sub_loop_shrinks _ S3 (String.length s2) s2) as H3.
  set (s3 := re_sub_loop (String.length s2) match_close_tag s2) in *.
  pose proof (re_sub_loop_shrinks _ S4 (String.length s3) s3) as H4.
  set (s4 := re_sub_loop (String.length s3) (match_param "#") s3) in *.
  pose proof (re_sub_loop_shrinks _ S5 (String.length s4) s4) as H5.
  set (s5 := re_sub_loop (String.length s4) (match_param "$") s4) in *.
  pose proof (re_sub_loop_shrinks _ S6 (String.length s5) s5) as H6.
  set (s6 := re_sub_loop (String.length s5) match_spaces s5) in *.
  pose proof (length_strip_le s6). lia.
Qed.

(** ** Subquery depth and parentheses *)

Lemma drop_str_head (k : nat) (full : string) (d : ascii) (s' : string) :
  drop_str k full = String d s' ->
  String.get k full = Some d /\ drop_str (S k) full = s'.
Proof.
  revert full. induction k as [|k IH]; intros full Hdrop.
  - cbn in Hdrop. subst full. split; reflexivity.
  - destruct full as [|c full]; [discriminate|].
    cbn [drop_str] in Hdrop. destruct (IH full Hdrop) as [Hget Hrest].
    split; [exact Hget | exact Hrest].
Qed.

Lemma char_count_by_index (c : ascii) (full s : string) (k : nat) :
  drop_str k full = s ->
  sumZ (map (fun i => if char_is full i c then 1 else 0)
          (seqZ (Z.of_nat k) (len s)))
  = count_char c s.
Proof.
  revert k. induction s as [|d s' IH]; intros k Hdrop; [reflexivity|].
  destruct (drop_str_head k full d s' Hdrop) as [Hget Hrest].
  unfold len. cbn [String.length].
  rewrite seqZ_cons by lia. cbn [map]. rewrite sumZ_cons.
  replace (Z.pred (Z.of_nat (S (String.length s')))) with (len s')
    by (unfold len; lia).
  replace (Z.succ (Z.of_nat k)) with (Z.of_nat (S k)) by lia.
  rewrite (IH (S k) Hrest). cbn [count_char].
  unfold char_is, char_at.
  destruct (Z.of_nat k <? 0) eqn:E; [apply Z.ltb_lt in E; lia|].
  rewrite Nat2Z.id, Hget. reflexivity.
Qed.

Lemma depth_loop_opens (sql sql_upper : string) (l : list Z)
    (st : Z * Z) (bound : Z) :
  fst st <= snd st <= bound ->
  snd (fold_left (Structural.depth_step sql sql_upper) l st)
  <= bound + sumZ (map (fun i => if char_is sql i "(" then 1 else 0) l).
Proof.
  revert st bound. induction l as [|i l IH]; intros [cur mx] bound Hinv.
  - cbn [fold_left map snd fst] in *. change (sumZ []) with 0. lia.
  - cbn [fold_left map]. rewrite sumZ_cons.
    cbn [fst snd] in Hinv.
    unfold Structural.depth_step at 2.
    destruct (char_is sql i "(") eqn:Hopen; cbn [andb].
    + destruct (startswith _ _).
      * specialize (IH (cur + 1, Z.max mx (cur + 1)) (bound + 1)).
        cbn [fst snd] in IH. specialize (IH ltac:(lia)). lia.
      * destruct (char_is sql i ")" && (cur >? 0)) eqn:Hclose.
        -- specialize (IH (cur - 1, mx) (bound + 1)).
           cbn [fst snd] in IH. specialize (IH ltac:(lia)). lia.
        -- specialize (IH (cur, mx) (bound + 1)).
           cbn [fst snd] in IH. specialize (IH ltac:(lia)). lia.
    + destruct (char_is sql i ")" && (cur >? 0)) eqn:Hclose.
      * specialize (IH (cur - 1, mx) bound).
        cbn [fst snd] in IH. specialize (IH ltac:(lia)). lia.
      * specialize (IH (cur, mx) bound).
        cbn [fst snd] in IH. specialize (IH ltac:(lia)). lia.
Qed.

Lemma count_char_absent (c : ascii) (s : string) :
  mem_char c s = false -> count_char c s = 0.
Proof.
  induction s as [|d s IH]; [reflexivity|].
  cbn [mem_char count_char]. intros Hno.
  apply orb_false_elim in Hno. destruct Hno as [Hd Hs].
  rewrite Hd, (IH Hs). reflexivity.
Qed.

(** X9.  The subquery depth is never more than the number of opening
    parentheses of the text; a text without an opening parenthesis has
    depth 0. *)
Theorem subquery_depth_at_most_parentheses (sql : string) :
  Structural.subquery_depth sql <= count_char "(" sql
  /\ (mem_char "(" sql = false -> Structural.subquery_depth sql = 0).
Proof.
  assert (Hbound : Structural.subquery_depth sql <= count_char "(" sql).
  { unfold Structural.subquery_depth, Structural.depth_scan.
    pose proof (depth_loop_opens sql (upper sql) (seqZ 0 (len sql))
                  (0, 0) 0) as Hloop.
    cbn [fst snd] in Hloop. specialize (Hloop ltac:(lia)).
    pose proof (char_count_by_index "(" sql sql 0 eq_refl) as Hcount.
    change (Z.of_nat 0) with 0 in Hcount. rewrite Hcount in Hloop.
    lia. }
  split; [exact Hbound|].
  intros Hno. rewrite (count_char_absent _ _ Hno) in Hbound.
  pose proof (depth_scan_invariant sql (upper sql)) as Hinv.
  unfold Structural.subquery_depth in *. lia.
Qed.

Lemma subquery_depth_at_most_parentheses_witness :
  mem_char "(" "SELECT a FROM t WHERE b = 1" = false
  /\ Structural.subquery_depth "SELECT a FROM t WHERE b = 1" = 0.
Proof.
  assert (Hno : mem_char "(" "SELECT a FROM t WHERE b = 1" = false)
    by reflexivity.
  split; [exact Hno|].
  exact (proj2 (subquery_depth_at_most_parentheses _) Hno).
Defined.

(** ** Bounds of the column and condition counters *)

Lemma count_char_nonneg (c : ascii) (s : string) : 0 <= count_char c s.
Proof.
  induction s as [|d s IH]; cbn [count_char]; [lia|].
  destruct (ascii_eqb d c); lia.
Qed.

Lemma count_char_app (c : ascii) (s1 s2 : string) :
  count_char c (s1 +:+ s2) = count_char c s1 + count_char c s2.
Proof.
  induction s1 as [|d s1 IH]; [reflexivity|].
  change (String d s1 +:+ s2) with (String d (s1 +:+ s2)).
  cbn [count_char]. rewrite IH. lia.
Qed.

Lemma count_char_drop (c : ascii) (n : nat) (s : string) :
  count_char c (drop_str n s) <= count_char c s.
Proof.
  revert s. induction n as [|n IH]; intros [|d s]; cbn [drop_str count_char];
    try lia.
  specialize (IH s). destruct (ascii_eqb d c); lia.
Qed.

Lemma count_char_substring (c : ascii) (n m : nat) (s : string) :
  count_char c (substring n m s) <= count_char c s.
Proof.
  revert n m. induction s as [|d s IH]; intros [|n] [|m];
    cbn [substring count_char]; try lia;
    try (pose proof (count_char_nonneg c s); destruct (ascii_eqb d c); lia).
  - specialize (IH 0%nat m). destruct (ascii_eqb d c); lia.
  - specialize (IH n 0%nat). destruct (ascii_eqb d c); lia.
  - specialize (IH n (S m)). destruct (ascii_eqb d c); lia.
Qed.

Lemma count_char_cut (c : ascii) (a b : nat) (s : string) :
  (a <= b)%nat ->
  count_char c (substring 0 a s) + count_char c (drop_str b s)
  <= count_char c s.
Proof.
  revert a b. induction s as [|d s IH]; intros a b Hab.
  - destruct a, b; cbn; lia.
  - destruct a as [|a].
    + cbn [substring count_char]. pose proof (count_char_drop c b (String d s)).
      cbn [count_char] in *. lia.
    + destruct b as [|b]; [lia|].
      cbn [substring drop_str count_char]. specialize (IH a b ltac:(lia)).
      lia.
Qed.

Lemma count_char_lstrip (c : ascii) (s : string) :
  count_char c (lstrip s) <= count_char c s.
Proof.
  induction s as [|d s IH]; cbn [lstrip count_char]; [lia|].
  destruct (is_space d); cbn [count_char]; destruct (ascii_eqb d c); lia.
Qed.

Lemma count_char_rstrip (c : ascii) (s : string) :
  count_char c (rstrip s) <= count_char c s.
Proof.
  induction s as [|d s IH]; cbn [rstrip count_char]; [lia|].
  pose proof (count_char_nonneg c s).
  destruct (rstrip s) as [|e r].
  - destruct (is_space d); cbn [count_char]; destruct (ascii_eqb d c); lia.
  - cbn [count_char] in *. lia.
Qed.

Lemma count_char_strip (c : ascii) (s : string) :
  count_char c (strip s) <= count_char c s.
Proof.
  unfold strip. pose proof (count_char_rstrip c (lstrip s)).
  pose proof (count_char_lstrip c s). lia.
Qed.

Lemma search_group_ordered (s : string) (a b : nat) :
  Structural.search_group s = Some (a, b) -> (a <= b)%nat.
Proof.
  revert a b. induction s as [|c s IH]; intros a b; [discriminate|].
  cbn [Structural.search_group].
  assert (Hlater :
    (fun '(a, b) => (S a, S b)) <$> Structural.search_group s = Some (a, b)
    -> (a <= b)%nat).
  { destruct (Structural.search_group s) as [[a' b']|]; [|discriminate].
    cbn. intros [= <- <-]. specialize (IH a' b' eq_refl). lia. }
  destruct (ascii_eqb c "("); [|exact Hlater].
  destruct (Structural.group_end s) as [k|]; [|exact Hlater].
  intros [= <- <-]. lia.
Qed.

Lemma mask_groups_commas (rounds : nat) (processed : string) :
  count_char "," (Structural.mask_groups rounds processed)
  <= count_char "," processed.
Proof.
  revert processed. induction rounds as [|rounds IH]; intros processed;
    [cbn; lia|].
  cbn [Structural.mask_groups].
  destruct (Structural.search_group processed) as [[a b]|] eqn:E; [|lia].
  pose proof (search_group_ordered _ _ _ E) as Hab.
  specialize (IH (substring 0 a processed +:+ "__PH__"
                  +:+ drop_str b processed)).
  rewrite !count_char_app in IH.
  pose proof (count_char_cut "," a b processed Hab).
  change (count_char "," "__PH__") with 0 in IH. lia.
Qed.

Lemma strip_distinct_commas (s : string) :
  count_char "," (Structural.strip_distinct s) <= count_char "," s.
Proof.
  unfold Structural.strip_distinct, Structural.after_distinct.
  pose proof (count_char_lstrip "," s) as H1.
  pose proof (count_char_drop "," 3 (lstrip s)) as H2.
  pose proof (count_char_lstrip "," (drop_str 3 (lstrip s))) as H3.
  pose proof (count_char_drop "," 8 (lstrip (drop_str 3 (lstrip s)))) as H4.
  pose proof (count_char_lstrip ","
                (drop_str 8 (lstrip (drop_str 3 (lstrip s))))) as H5.
  pose proof (count_char_drop "," 8 (lstrip s)) as H6.
  pose proof (count_char_lstrip "," (drop_str 8 (lstrip s))) as H7.
  repeat match goal with
         | |- context [if ?b then _ else _] => destruct b
         end; lia.
Qed.

Lemma py_find_at_least (s sub : string) (start : Z) :
  -1 <= py_find s sub start.
Proof. unfold py_find. destruct (String.index _ _ _); lia. Qed.

Lemma where_step_bounds (where_clause where_upper : string) (st : Z * Z)
    (i : Z) :
  fst st <= fst (Structural.where_step where_clause where_upper st i)
    <= fst st + 1.
Proof.
  destruct st as [n depth]. unfold Structural.where_step.
  repeat match goal with
         | |- context [if ?b then _ else _] => destruct b
         end; cbn [fst]; lia.
Qed.

Lemma where_loop_bounds (where_clause where_upper : string) (l : list Z)
    (st : Z * Z) :
  0 <= fst st ->
  0 <= fst (fold_left (Structural.where_step where_clause where_upper) l st)
    <= fst st + Z.of_nat (length l).
Proof.
  revert st. induction l as [|i l IH]; intros st Hpos.
  - cbn. lia.
  - cbn [fold_left length].
    pose proof (where_step_bounds where_clause where_upper st i) as Hstep.
    specialize (IH (Structural.where_step where_clause where_upper st i)
                  ltac:(lia)).
    lia.
Qed.

Lemma length_substring_le (n m : nat) (s : string) :
  (String.length (substring n m s) <= String.length s - n)%nat.
Proof.
  revert n m. induction s as [|d s IH]; intros [|n] [|m];
    cbn [substring String.length]; try lia.
  - specialize (IH 0%nat m). lia.
  - specialize (IH n 0%nat). lia.
  - specialize (IH n (S m)). lia.
Qed.

(** X10.  The condition counter gives a number between 0 and the length
    of the text, and 0 when the text holds no [WHERE]; the column
    counter gives -1 (the star sentinel) or a number between 0 and the
    number of commas of the text plus one: masking parenthesised groups
    never adds a comma. *)
Theorem counter_bounds (sql : string) :
  0 <= Structural.where_condition_count sql <= len sql
  /\ (py_find (upper sql) "WHERE" 0 = -1 ->
      Structural.where_condition_count sql = 0)
  /\ -1 <= Structural.select_column_count sql <= count_char "," sql + 1
  /\ (py_find (upper sql) "SELECT" 0 = -1 ->
      Structural.select_column_count sql = 0).
Proof.
  split; [|split; [|split]].
  - unfold Structural.where_condition_count. cbn zeta.
    pose proof (py_find_at_least (upper sql) "WHERE" 0) as Hfound.
    set (where_start := py_find (upper sql) "WHERE" 0) in *.
    destruct (where_start =? -1) eqn:E; [unfold len; lia|].
    apply Z.eqb_neq in E.
    match goal with
    | |- context [slice sql ?a ?b] => set (where_clause := slice sql a b)
    end.
    pose proof (where_loop_bounds where_clause (upper where_clause)
                  (seqZ 0 (len where_clause)) (0, 0)) as Hloop.
    cbn [fst] in Hloop. specialize (Hloop ltac:(lia)).
    rewrite length_seqZ in Hloop.
    destruct (fold_left (Structural.where_step _ _) _ _)
      as [and_or_count depth].
    cbn [fst] in Hloop.
    assert (Hlen : (String.length where_clause
                    <= String.length sql - 5)%nat).
    { subst where_clause. unfold slice.
      etransitivity; [apply length_substring_le|]. lia. }
    destruct (strip where_clause) as [|c r] eqn:Hstrip; cbn [nonempty];
      [unfold len; lia|].
    assert (Hne : (1 <= String.length where_clause)%nat).
    { pose proof (length_strip_le where_clause) as Hs.
      rewrite Hstrip in Hs. cbn [String.length] in Hs. lia. }
    unfold len in *. lia.
  - intros Hno. unfold Structural.where_condition_count. cbn zeta.
    rewrite Hno. reflexivity.
  - pose proof (count_char_nonneg "," sql) as Hpos.
    unfold Structural.select_column_count. cbn zeta.
    destruct (py_find (upper sql) "SELECT" 0 =? -1); [lia|].
    destruct (fold_left (Structural.from_step _ _) _ _)
      as [depth from_pos].
    destruct (from_pos =? -1); [lia|].
    destruct (Structural.is_star _); [lia|].
    destruct (Structural.is_qualified_star _); [lia|].
    match goal with
    | |- context [Structural.mask_groups 50 ?p] =>
        pose proof (mask_groups_commas 50 p) as Hmask;
        pose proof (count_char_nonneg "," (Structural.mask_groups 50 p))
    end.
    match type of Hmask with
    | _ <= count_char _ (Structural.strip_distinct ?s) =>
        pose proof (strip_distinct_commas s) as Hd
    end.
    match type of Hd with
    | _ <= count_char _ (strip ?s) =>
        pose proof (count_char_strip "," s) as Hs
    end.
    match type of Hs with
    | _ <= count_char _ (slice sql ?a ?b) =>
        pose proof (count_char_substring "," (Z.to_nat a)
                      (Z.to_nat (b - a)) sql) as Hsub;
        change (substring (Z.to_nat a) (Z.to_nat (b - a)) sql)
          with (slice sql a b) in Hsub
    end.
    lia.
  - intros Hno. unfold Structural.select_column_count. cbn zeta.
    rewrite Hno. reflexivity.
Qed.

Lemma counter_bounds_witness :
  py_find (upper "update t set a = 1") "WHERE" 0 = -1
  /\ Structural.where_condition_count "update t set a = 1" = 0
  /\ Structural.select_column_count "update t set a = 1" = 0.
Proof.
  assert (Hw : py_find (upper "update t set a = 1") "WHERE" 0 = -1)
    by reflexivity.
  assert (Hs : py_find (upper "update t set a = 1") "SELECT" 0 = -1)
    by reflexivity.
  destruct (counter_bounds "update t set a = 1") as (_ & Hwhere & _ & Hsel).
  split; [exact Hw|]. split; [exact (Hwhere Hw) | exact (Hsel Hs)].
Defined.

(** ** The weighted score of the conversion engine *)

Lemma grade_coefficient_bounds (r : Conversion.RuleMatch) :
  (1 # 2 <= Conversion.grade_coefficient r)%Q
  /\ (Conversion.grade_coefficient r <= 3 # 2)%Q.
Proof.
  unfold Conversion.grade_coefficient, Conversion.GRADE_COEFFICIENTS.
  cbn [list_to_map foldr uncurry fst snd].
  destruct (_ !! Conversion.rm_conversion_grade r) as [v|] eqn:E;
    cbn [default]; [|split; discriminate].
  apply lookup_insert_Some in E. destruct E as [[_ <-]|[_ E]];
    [split; discriminate|].
  apply lookup_insert_Some in E. destruct E as [[_ <-]|[_ E]];
    [split; discriminate|].
  apply lookup_insert_Some in E. destruct E as [[_ <-]|[_ E]];
    [split; discriminate|].
  rewrite lookup_empty in E. discriminate.
Qed.

Lemma fold_Qplus_bounds (l : list Conversion.RuleMatch) (acc : Q) (z : Z) :
  Forall (fun r => 0 <= Conversion.rm_weight r * Conversion.match_count r) l ->
  (inject_Z z * (1 # 2) <= acc)%Q -> (acc <= inject_Z z * (3 # 2))%Q ->
  (inject_Z (z + sumZ (map conversion_contribution l)) * (1 # 2)
   <= fold_left Qplus
        (map (fun r => inject_Z (Conversion.rm_weight r
                                 * Conversion.match_count r)
                       * Conversion.grade_coefficient r)%Q l) acc)%Q
  /\ (fold_left Qplus
        (map (fun r => inject_Z (Conversion.rm_weight r
                                 * Conversion.match_count r)
                       * Conversion.grade_coefficient r)%Q l) acc
      <= inject_Z (z + sumZ (map conversion_contribution l)) * (3 # 2))%Q.
Proof.
  intros Hall. revert acc z.
  induction Hall as [|r l Hr _ IH]; intros acc z Hlo Hhi.
  - cbn [map fold_left]. change (sumZ []) with 0. rewrite Z.add_0_r.
    split; assumption.
  - cbn [map fold_left]. rewrite sumZ_cons.
    unfold conversion_contribution at 1 3.
    set (c := Conversion.rm_weight r * Conversion.match_count r) in *.
    rewrite Z.add_assoc.
    destruct (grade_coefficient_bounds r) as [Hk1 Hk2].
    set (k := Conversion.grade_coefficient r) in *.
    assert (Hc : (0 <= inject_Z c)%Q).
    { change 0%Q with (inject_Z 0). rewrite <- Zle_Qle. exact Hr. }
    apply IH.
    + rewrite inject_Z_plus.
      assert (inject_Z c * (1 # 2) <= inject_Z c * k)%Q
        by (rewrite (Qmult_comm (inject_Z c) (1 # 2)),
              (Qmult_comm (inject_Z c) k);
            apply Qmult_le_compat_r; assumption).
      lra.
    + rewrite inject_Z_plus.
      assert (inject_Z c * k <= inject_Z c * (3 # 2))%Q
        by (rewrite (Qmult_comm (inject_Z c) (3 # 2)),
              (Qmult_comm (inject_Z c) k);
            apply Qmult_le_compat_r; assumption).
      lra.
Qed.

Section ConversionWeighted.
Context `{Regex}.

Lemma conversion_rule_step_weights (pre : string)
    (st : Conversion.loop_state) (rule : Conversion.CompiledRule) :
  0 <= Conversion.weight rule ->
  Forall (fun r => 0 <= Conversion.rm_weight r * Conversion.match_count r)
    (fst (fst st)) ->
  Forall (fun r => 0 <= Conversion.rm_weight r * Conversion.match_count r)
    (fst (fst (Conversion.rule_step pre st rule))).
Proof.
  destruct st as [[matched grades] counts]. cbn [fst]. intros Hw Hall.
  unfold Conversion.rule_step.
  destruct (Conversion.compiled_pattern rule) as [p|]; [|exact Hall].
  destruct (_count_pattern_matches pre p) as [n samples].
  destruct (n >? 0) eqn:Hpos; [|exact Hall]. cbn [fst].
  apply Forall_app. split; [exact Hall|].
  apply List.Forall_cons; [cbn; lia | apply List.Forall_nil].
Qed.

Lemma conversion_rule_loop_weights (pre : string)
    (rules : list Conversion.CompiledRule) (st : Conversion.loop_state) :
  Forall (fun rule => 0 <= Conversion.weight rule) rules ->
  Forall (fun r => 0 <= Conversion.rm_weight r * Conversion.match_count r)
    (fst (fst st)) ->
  Forall (fun r => 0 <= Conversion.rm_weight r * Conversion.match_count r)
    (fst (fst (fold_left (Conversion.rule_step pre) rules st))).
Proof.
  intros Hrules. revert st.
  induction Hrules as [|rule rules Hw _ IH]; intros st Hall; [exact Hall|].
  cbn [fold_left]. apply IH, conversion_rule_step_weights; assumption.
Qed.

Lemma grade_coefficient_halves (r : Conversion.RuleMatch) :
  exists c : Z,
    (Conversion.grade_coefficient r == inject_Z c / 2)%Q /\ 1 <= c <= 3.
Proof.
  unfold Conversion.grade_coefficient, Conversion.GRADE_COEFFICIENTS.
  cbn [list_to_map foldr uncurry fst snd].
  destruct (_ !! Conversion.rm_conversion_grade r) as [v|] eqn:E;
    cbn [from_option id]; [|exists 2; split; [reflexivity | lia]].
  apply lookup_insert_Some in E. destruct E as [[_ <-]|[_ E]];
    [exists 1; split; [reflexivity | lia]|].
  apply lookup_insert_Some in E. destruct E as [[_ <-]|[_ E]];
    [exists 2; split; [reflexivity | lia]|].
  apply lookup_insert_Some in E. destruct E as [[_ <-]|[_ E]];
    [exists 3; split; [reflexivity | lia]|].
  rewrite lookup_empty in E. discriminate.
Qed.

Lemma fold_Qplus_halves (l : list Conversion.RuleMatch) (acc : Q) (k : Z) :
  (acc == inject_Z k / 2)%Q ->
  exists k' : Z,
    (fold_left Qplus
       (map (fun r => inject_Z (Conversion.rm_weight r
                                * Conversion.match_count r)
                      * Conversion.grade_coefficient r)%Q l) acc
     == inject_Z k' / 2)%Q
    /\ Z.abs (k' - k)
       <= 3 * sumZ (map (fun r => Z.abs (conversion_contribution r)) l).
Proof.
  revert acc k. induction l as [|r l IH]; intros acc k Hacc.
  - exists k. cbn [map fold_left]. split; [exact Hacc|].
    change (sumZ []) with 0. lia.
  - cbn [map fold_left].
    destruct (grade_coefficient_halves r) as (c & Hc & Hrange).
    destruct (IH (acc + inject_Z (Conversion.rm_weight r
                                  * Conversion.match_count r)
                       * Conversion.grade_coefficient r)%Q
                (k + Conversion.rm_weight r * Conversion.match_count r * c))
      as (k' & Hsum & Hk').
    + rewrite Hacc, Hc, inject_Z_plus, !inject_Z_mult. field.
    + exists k'. split; [exact Hsum|].
      rewrite sumZ_cons. unfold conversion_contribution at 1.
      revert Hk'.
      generalize (sumZ (map (fun r0 => Z.abs (conversion_contribution r0))
                          l)).
      generalize (Conversion.rm_weight r * Conversion.match_count r).
      intros x m Hk'. nia.
Qed.

Lemma round_half_even_integer (q : Q) (n : Z) :
  (q == inject_Z n)%Q -> round_half_even q = n.
Proof.
  intros Hq. unfold round_half_even. cbn zeta.
  assert (Hfloor : Qfloor q = n)
    by (rewrite (Qfloor_comp _ _ Hq); apply Qfloor_Z).
  rewrite Hfloor.
  assert (Hlt : (q - inject_Z n ?= 1 # 2)%Q = Lt)
    by (apply Qlt_alt; rewrite Hq; unfold Qminus; rewrite Qplus_opp_r;
        reflexivity).
  rewrite Hlt. reflexivity.
Qed.

Lemma round2_halves (x : Q) (k : Z) :
  (x == inject_Z k / 2)%Q -> (round2 x == x)%Q.
Proof.
  intros Hx. unfold round2.
  rewrite (round_half_even_integer (x * 100) (50 * k)).
  - rewrite Hx, inject_Z_mult. field.
  - rewrite Hx, inject_Z_mult. field.
Qed.

(** X11.  In the conversion engine, while the absolute contributions
    [|weight * match_count|] of the matched rules add up to at most
    2^50, the sum of [weight * match_count * coefficient] over the
    matched rules is a half-integer below 2^52 in absolute value, so
    every float the code computes on the way holds it exactly; the
    stored weighted score, rounded to two decimals, is that sum itself,
    and the level is read from it.  When moreover no rule of the
    catalogue has a negative weight, the raw score is not negative and
    the sum lies between half the raw score and one and a half times
    the raw score. *)
Theorem weighted_score_between_half_and_three_halves
    (e : Conversion.Engine) (counts : gmap string Z)
    (sql query_name : string) :
  conversion_magnitude (fst (Conversion.score_query e counts sql query_name))
  <= 2 ^ 50 ->
  let q := fst (Conversion.score_query e counts sql query_name) in
  let weighted :=
    sumQ (map (fun r => inject_Z (Conversion.rm_weight r
                                  * Conversion.match_count r)
                        * Conversion.grade_coefficient r)%Q
            (Conversion.matched_rules q)) in
  (exists k : Z,
      (weighted == inject_Z k / 2)%Q /\ Z.abs k < 2 ^ 52)
  /\ (Conversion.weighted_score q == weighted)%Q
  /\ Conversion.complexity_level q
     = Conversion._get_complexity_level weighted
  /\ (Forall (fun rule => 0 <= Conversion.weight rule)
        (Conversion.compiled_patterns e) ->
      0 <= Conversion.raw_score q
      /\ (inject_Z (Conversion.raw_score q) * (1 # 2) <= weighted)%Q
      /\ (weighted <= inject_Z (Conversion.raw_score q) * (3 # 2))%Q).
Proof.
  intros Hrange. cbn zeta.
  destruct (conversion_score_query_fields e counts sql query_name)
    as (Hm & Hr & _).
  cbn zeta in Hm, Hr.
  destruct (fold_Qplus_halves
              (Conversion.matched_rules
                 (fst (Conversion.score_query e counts sql query_name)))
              0%Q 0 ltac:(reflexivity)) as (k & Hk & Hbound).
  unfold conversion_magnitude in Hrange.
  assert (Hstored :
    Conversion.weighted_score
      (fst (Conversion.score_query e counts sql query_name))
    = round2
        (sumQ (map (fun r => inject_Z (Conversion.rm_weight r
                                       * Conversion.match_count r)
                             * Conversion.grade_coefficient r)%Q
                 (Conversion.matched_rules
                    (fst (Conversion.score_query e counts sql
                            query_name)))))).
  { unfold Conversion.score_query.
    destruct (fold_left _ _ _) as [[matched grades] counts']. reflexivity. }
  split; [|split; [|split]].
  - exists k. split; [exact Hk|].
    assert (H50 : 3 * 2 ^ 50 < 2 ^ 52) by reflexivity. lia.
  - rewrite Hstored. apply (round2_halves _ k). exact Hk.
  - unfold Conversion.score_query.
    destruct (fold_left _ _ _) as [[matched grades] counts']. reflexivity.
  - intros Hweights.
    assert (Hall :
      Forall (fun r => 0 <= Conversion.rm_weight r
                            * Conversion.match_count r)
        (Conversion.matched_rules
           (fst (Conversion.score_query e counts sql query_name)))).
    { rewrite Hm. apply conversion_rule_loop_weights; [exact Hweights|].
      apply List.Forall_nil. }
    pose proof (fold_Qplus_bounds _ 0%Q 0 Hall ltac:(discriminate)
                  ltac:(discriminate)) as Hbounds.
    rewrite Z.add_0_l, <- Hr in Hbounds.
    split; [|exact Hbounds].
    rewrite Hr. apply sumZ_nonneg, Forall_map. exact Hall.
Qed.

End ConversionWeighted.

Lemma weighted_score_between_half_and_three_halves_witness :
  let e : @Conversion.Engine literal_regex :=
    {| Conversion.source_db := "ORA";
       Conversion.compiled_patterns :=
         [ {| Conversion.id := "r1"; Conversion.name := "join";
              Conversion.weight := 10; Conversion.conversion_grade := "M";
              Conversion.detection_method := "regex";
              Conversion.rule_pattern := "JOIN";
              Conversion.category := "c"; Conversion.subcategory := "s";
              Conversion.compiled_pattern :=
                Some ("JOIN" : @pattern literal_regex) |} ] |} in
  let q := fst (Conversion.score_query e ∅
                  "SELECT 1 FROM a JOIN b JOIN c" "q") in
  conversion_magnitude q = 20
  /\ Conversion.raw_score q = 20
  /\ (Conversion.weighted_score q == 30)%Q
  /\ (Conversion.weighted_score q
      == sumQ (map (fun r => inject_Z (Conversion.rm_weight r
                                       * Conversion.match_count r)
                             * Conversion.grade_coefficient r)%Q
                 (Conversion.matched_rules q)))%Q.
Proof.
  cbn zeta.
  set (e := {| Conversion.source_db := "ORA";
               Conversion.compiled_patterns := _ |}).
  assert (Hrange :
    conversion_magnitude
      (fst (Conversion.score_query e ∅ "SELECT 1 FROM a JOIN b JOIN c" "q"))
    <= 2 ^ 50).
  { vm_compute. discriminate. }
  split; [vm_compute; reflexivity|].
  split; [vm_compute; reflexivity|].
  split; [vm_compute; reflexivity|].
  exact (proj1 (proj2
           (@weighted_score_between_half_and_three_halves literal_regex e ∅
              "SELECT 1 FROM a JOIN b JOIN c" "q" Hrange))).
Defined.

(** ** The grade summary and the match counters *)

Lemma filter_app_bool {A} (f : A -> bool) (l1 l2 : list A) :
  List.filter f (l1 ++ l2)%list
  = (List.filter f l1 ++ List.filter f l2)%list.
Proof. apply List.filter_app. Qed.

Section ConversionSummaries.
Context `{Regex}.

Lemma grade_total_snoc (g : string) (matched : list Conversion.RuleMatch)
    (r : Conversion.RuleMatch) :
  grade_total g (matched ++ [r])%list
  = grade_total g matched
    + (if String.eqb (Conversion.rm_conversion_grade r) g
       then Conversion.match_count r else 0).
Proof.
  unfold grade_total. rewrite filter_app_bool, map_app, sumZ_app.
  cbn [List.filter]. destruct (String.eqb _ g); cbn [map].
  - rewrite sumZ_cons. change (sumZ []) with 0. lia.
  - change (sumZ []) with 0. lia.
Qed.

Lemma id_total_snoc (k : string) (matched : list Conversion.RuleMatch)
    (r : Conversion.RuleMatch) :
  id_total k (matched ++ [r])%list
  = id_total k matched
    + (if String.eqb (Conversion.rule_id r) k
       then Conversion.match_count r else 0).
Proof.
  unfold id_total. rewrite filter_app_bool, map_app, sumZ_app.
  cbn [List.filter]. destruct (String.eqb _ k); cbn [map].
  - rewrite sumZ_cons. change (sumZ []) with 0. lia.
  - change (sumZ []) with 0. lia.
Qed.

Lemma initial_grades (g : string) :
  (list_to_map [("A", 0); ("P", 0); ("M", 0)] : gmap string Z) !! g
  = if is_grade g then Some 0 else None.
Proof.
  unfold is_grade. cbn [list_to_map foldr uncurry fst snd existsb].
  destruct (String.eqb_spec g "A") as [->|HA]; [reflexivity|].
  rewrite lookup_insert_ne by congruence.
  destruct (String.eqb_spec g "P") as [->|HP]; [reflexivity|].
  rewrite lookup_insert_ne by congruence.
  destruct (String.eqb_spec g "M") as [->|HM]; [reflexivity|].
  rewrite lookup_insert_ne by congruence. reflexivity.
Qed.

Lemma get0_bump (k k' : string) (n : Z) (d : gmap string Z) :
  get0 (bump k n d) k'
  = get0 d k' + (if String.eqb k k' then n else 0).
Proof.
  unfold bump, get0 at 1.
  destruct (String.eqb_spec k k') as [->|Hne].
  - rewrite lookup_insert_eq. reflexivity.
  - rewrite lookup_insert_ne by exact Hne. unfold get0. lia.
Qed.

Lemma rule_step_summaries (pre : string) (counts0 : gmap string Z)
    (st : Conversion.loop_state) (rule : Conversion.CompiledRule) :
  summaries_agree counts0 st ->
  summaries_agree counts0 (Conversion.rule_step pre st rule).
Proof.
  destruct st as [[matched grades] counts]. intros [Hg Hc].
  cbn [fst snd] in Hg, Hc. unfold Conversion.rule_step.
  destruct (Conversion.compiled_pattern rule) as [p|]; [|split; assumption].
  destruct (_count_pattern_matches pre p) as [n samples].
  destruct (n >? 0); [|split; assumption].
  split; cbn [fst snd].
  - intros g. rewrite grade_total_snoc.
    cbn [Conversion.rm_conversion_grade Conversion.match_count].
    pose proof (Hg (Conversion.conversion_grade rule)) as Hrule.
    destruct (grades !! Conversion.conversion_grade rule) as [v|] eqn:E.
    + destruct (is_grade (Conversion.conversion_grade rule)) eqn:Hkey;
        [|discriminate].
      injection Hrule as ->.
      unfold bump, get0. rewrite E. cbn [default].
      destruct (String.eqb_spec (Conversion.conversion_grade rule) g)
        as [<-|Hne].
      * rewrite lookup_insert_eq, Hkey. reflexivity.
      * rewrite lookup_insert_ne by exact Hne. rewrite Hg.
        destruct (is_grade g); [f_equal; lia | reflexivity].
    + destruct (is_grade (Conversion.conversion_grade rule)) eqn:Hkey;
        [discriminate|].
      rewrite Hg.
      destruct (String.eqb_spec (Conversion.conversion_grade rule) g)
        as [<-|Hne].
      * rewrite Hkey. reflexivity.
      * destruct (is_grade g); [f_equal; lia | reflexivity].
  - intros k. rewrite get0_bump, id_total_snoc, Hc.
    cbn [Conversion.rule_id Conversion.match_count]. lia.
Qed.

Lemma rule_loop_summaries (pre : string) (counts0 : gmap string Z)
    (rules : list Conversion.CompiledRule) (st : Conversion.loop_state) :
  summaries_agree counts0 st ->
  summaries_agree counts0 (fold_left (Conversion.rule_step pre) rules st).
Proof.
  revert st. induction rules as [|rule rules IH]; intros st Hst;
    [exact Hst|].
  cbn [fold_left]. apply IH, rule_step_summaries, Hst.
Qed.

(** X12.  In the conversion engine the grade summary of a scored query
    has exactly the keys A, P and M, each holding the total match count
    of the matched rules of that grade (matches of a rule with another
    grade are in no entry); and each match counter grows by the total
    match count of the matched rules with that id, so no counter ever
    decreases. *)
Theorem grade_summary_and_counters
    (e : Conversion.Engine) (counts : gmap string Z)
    (sql query_name : string) (k : string) :
  let q := fst (Conversion.score_query e counts sql query_name) in
  let counts' := snd (Conversion.score_query e counts sql query_name) in
  Conversion.grade_summary q !! k
  = (if is_grade k
     then Some (grade_total k (Conversion.matched_rules q)) else None)
  /\ get0 counts' k = get0 counts k + id_total k (Conversion.matched_rules q)
  /\ get0 counts k <= get0 counts' k.
Proof.
  cbn zeta.
  pose proof (rule_loop_summaries (_preprocess_sql sql) counts
                (Conversion.compiled_patterns e)
                ([], list_to_map [("A", 0); ("P", 0); ("M", 0)], counts))
    as Hinv.
  pose proof (conversion_rule_loop_counts (_preprocess_sql sql)
                (Conversion.compiled_patterns e)
                ([], list_to_map [("A", 0); ("P", 0); ("M", 0)], counts)
                (List.Forall_nil _)) as Hpos.
  unfold Conversion.score_query.
  destruct (fold_left _ _ _) as [[matched grades] counts'].
  cbn [fst snd Conversion.grade_summary Conversion.matched_rules] in *.
  destruct Hinv as [Hg Hc].
  { split; cbn [fst snd].
    - intros g. rewrite initial_grades.
      destruct (is_grade g); reflexivity.
    - intros k'. unfold id_total. cbn [List.filter map].
      change (sumZ []) with 0. rewrite Z.add_0_r. reflexivity. }
  split; [apply Hg|]. split; [apply Hc|].
  rewrite Hc. unfold id_total.
  match goal with
  | |- _ <= _ + ?t => assert (0 <= t) as Hsum; [|lia]
  end.
  cbn [fst snd]. apply sumZ_nonneg, Forall_map.
  apply Forall_forall. intros r Hin.
  apply list_elem_of_In, List.filter_In in Hin. destruct Hin as [Hin _].
  rewrite Forall_forall in Hpos.
  apply list_elem_of_In in Hin. specialize (Hpos r Hin).
  cbn beta in Hpos. cbn beta. lia.
Qed.

End ConversionSummaries.

(** ** Category scores *)

Lemma category_total_cons (c : string) (r : Structural.RuleMatch)
    (matched : list Structural.RuleMatch) :
  category_total c (r :: matched)
  = (if String.eqb (Structural.rm_category r) c
     then structural_contribution r else 0)
    + category_total c matched.
Proof.
  unfold category_total. cbn [List.filter].
  destruct (String.eqb _ c); cbn [map]; [rewrite sumZ_cons|]; lia.
Qed.

Lemma add_category_lookup (cs : gmap string Q) (r : Structural.RuleMatch)
    (c : string) :
  Structural.add_category cs r !! c
  = if String.eqb (Structural.rm_category r) c
    then Some (default 0%Q (cs !! c)
               + inject_Z (structural_contribution r))%Q
    else cs !! c.
Proof.
  unfold Structural.add_category. cbn zeta.
  destruct (String.eqb_spec (Structural.rm_category r) c) as [<-|Hne].
  - rewrite lookup_insert_eq. reflexivity.
  - rewrite lookup_insert_ne by exact Hne. reflexivity.
Qed.

Lemma category_loop_lookup (matched : list Structural.RuleMatch)
    (cs : gmap string Q) (c : string) :
  (default 0%Q (fold_left Structural.add_category matched cs !! c)
   == default 0%Q (cs !! c) + inject_Z (category_total c matched))%Q
  /\ (fold_left Structural.add_category matched cs !! c = None
      <-> cs !! c = None
          /\ Forall (fun r => Structural.rm_category r <> c) matched).
Proof.
  revert cs. induction matched as [|r matched IH]; intros cs.
  - cbn [fold_left]. split.
    + unfold category_total. cbn [List.filter map].
      change (sumZ []) with 0. change (inject_Z 0) with 0%Q. lra.
    + split; [intros Hnone; split; [exact Hnone | apply List.Forall_nil]
             | intros [Hnone _]; exact Hnone].
  - cbn [fold_left]. destruct (IH (Structural.add_category cs r))
      as [Hval Hnone].
    rewrite add_category_lookup in Hval, Hnone.
    rewrite category_total_cons, inject_Z_plus.
    destruct (String.eqb_spec (Structural.rm_category r) c) as [Heq|Hne].
    + split.
      * rewrite Hval. cbn [from_option id]. lra.
      * split.
        -- intros Hn. apply Hnone in Hn. destruct Hn as [Hn _].
           discriminate Hn.
        -- intros [_ Hall]. apply Forall_cons in Hall.
           destruct Hall as [Hr _]. contradiction.
    + split.
      * rewrite Hval. change (inject_Z 0) with 0%Q. lra.
      * rewrite Hnone. split.
        -- intros [Hn Hall]. split; [exact Hn|].
           apply List.Forall_cons; assumption.
        -- intros [Hn Hall]. apply Forall_cons in Hall.
           destruct Hall as [_ Hall]. split; assumption.
Qed.

Section CategoryScores.
Context `{Regex} `{!Structural.MetricPatterns}.

Lemma structural_score_query_categories (e : Structural.Engine)
    (counts : gmap string Z) (sql query_name : string) :
  let q := fst (Structural.score_query e counts sql query_name) in
  Structural.category_scores q
  = fold_left Structural.add_category (Structural.matched_rules q) ∅
  /\ Structural.normalized_score q
     = round2 (Structural._calculate_normalized_score
                 (Structural.category_scores q))
  /\ Structural.complexity_level q
     = Structural._get_complexity_level
         (Structural._calculate_normalized_score
            (Structural.category_scores q)).
Proof.
  cbn zeta. unfold Structural.score_query.
  destruct (fold_left _ (Structural.dbms_rules e) _) as [matched counts'].
  cbn. repeat split.
Qed.

Lemma contributions_within_magnitude (matched : list Structural.RuleMatch) :
  Z.abs (sumZ (map structural_contribution matched))
  <= sumZ (map (fun r => Z.abs (structural_contribution r)) matched).
Proof.
  induction matched as [|r matched IH]; [reflexivity|].
  cbn [map]. rewrite !sumZ_cons. lia.
Qed.

Lemma category_total_within_magnitude (c : string)
    (matched : list Structural.RuleMatch) :
  Z.abs (category_total c matched)
  <= sumZ (map (fun r => Z.abs (structural_contribution r)) matched).
Proof.
  induction matched as [|r matched IH]; [reflexivity|].
  rewrite category_total_cons. cbn [map]. rewrite sumZ_cons.
  destruct (String.eqb _ c); lia.
Qed.

(** X13.  In the structural engine a category has an entry in the
    category scores exactly when some matched rule belongs to it.
    While the absolute contributions [|weight * match_count|] of the
    matched rules add up to at most 2^53, the score of a category is
    the sum of [weight * match_count] over the matched rules of that
    category, an integer within 2^53 that the float of the code holds
    exactly. *)
Theorem category_score_is_category_sum (e : Structural.Engine)
    (counts : gmap string Z) (sql query_name : string) (c : string) :
  let q := fst (Structural.score_query e counts sql query_name) in
  (Structural.category_scores q !! c = None
   <-> Forall (fun r => Structural.rm_category r <> c)
         (Structural.matched_rules q))
  /\ (structural_magnitude q <= 2 ^ 53 ->
      (default 0%Q (Structural.category_scores q !! c)
       == inject_Z (category_total c (Structural.matched_rules q)))%Q
      /\ Z.abs (category_total c (Structural.matched_rules q)) <= 2 ^ 53).
Proof.
  cbn zeta.
  destruct (structural_score_query_categories e counts sql query_name)
    as (Hcs & _).
  cbn zeta in Hcs. rewrite Hcs.
  destruct (category_loop_lookup
              (Structural.matched_rules
                 (fst (Structural.score_query e counts sql query_name)))
              ∅ c) as [Hval Hnone].
  rewrite lookup_empty in Hval, Hnone. cbn [from_option id] in Hval.
  split.
  - rewrite Hnone. split; [intros [_ Hall]; exact Hall|].
    intros Hall. split; [reflexivity | exact Hall].
  - intros Hrange. split; [rewrite Hval; lra|].
    unfold structural_magnitude in Hrange.
    pose proof (category_total_within_magnitude c
                  (Structural.matched_rules
                     (fst (Structural.score_query e counts sql
                             query_name)))) as Hle.
    lia.
Qed.

End CategoryScores.

Lemma category_score_is_category_sum_witness :
  let rules :=
    {| Structural.rs_common_rules :=
         Some [ ("function_common",
                 Structural.RuleList
                   [ {| Structural.raw_id := Some "f1";
                        Structural.raw_name := Some "nvl";
                        Structural.raw_weight := Some 60;
                        Structural.raw_detection_method := Some "regex";
                        Structural.raw_pattern := Some "NVL";
                        Structural.raw_logic := None;
                        Structural.raw_note := None |} ]) ];
       Structural.rs_dbms_specific_rules := None |} in
  let q := fst (@Structural.score_query literal_regex
                  literal_metric_patterns
                  (@Structural.init literal_regex rules "oracle") ∅
                  "UPDATE t SET a = NVL(b, 0), c = NVL(d, 0) WHERE id = 1"
                  "q") in
  structural_magnitude q = 120
  /\ (default 0%Q (Structural.category_scores q !! "function_expression")
      == 120)%Q
  /\ (default 0%Q (Structural.category_scores q !! "function_expression")
      == inject_Z (category_total "function_expression"
                     (Structural.matched_rules q)))%Q.
Proof.
  cbn zeta.
  set (rules := {| Structural.rs_common_rules := _;
                   Structural.rs_dbms_specific_rules := None |}).
  set (sql := "UPDATE t SET a = NVL(b, 0), c = NVL(d, 0) WHERE id = 1").
  assert (Hrange :
    structural_magnitude
      (fst (@Structural.score_query literal_regex literal_metric_patterns
              (@Structural.init literal_regex rules "oracle") ∅ sql "q"))
    <= 2 ^ 53).
  { vm_compute. discriminate. }
  split; [vm_compute; reflexivity|].
  split; [vm_compute; reflexivity|].
  exact (proj1 (proj2
           (@category_score_is_category_sum literal_regex
              literal_metric_patterns
              (@Structural.init literal_regex rules "oracle") ∅ sql "q"
              "function_expression") Hrange)).
Defined.

(** ** The five categories of an engine built from a rule file *)

Lemma map_category_range (category_name : string) :
  In (Structural._map_category category_name) five_categories.
Proof.
  unfold Structural._map_category. cbn zeta.
  match goal with
  | |- context [list_to_map ?l !! _] => set (table := l)
  end.
  destruct (list_to_map table !! category_name) as [v|] eqn:E;
    cbn [from_option id]; [|cbn; tauto].
  apply elem_of_list_to_map_2, list_elem_of_In in E.
  subst table. cbn [In] in E.
  repeat (destruct E as [[= _ <-] | E]; [cbn; tauto|]).
  destruct E.
Qed.

Lemma metric_rules_categories (metrics : gmap string Z) :
  Forall (fun r => In (Structural.rm_category r) five_categories)
    (Structural._apply_metric_rules metrics).
Proof.
  unfold Structural._apply_metric_rules. cbn zeta.
  repeat (apply Forall_app; split);
    split_ifs;
    repeat first [apply List.Forall_nil | apply List.Forall_cons];
    cbn; tauto.
Qed.

Lemma category_partition (matched : list Structural.RuleMatch) :
  Forall (fun r => In (Structural.rm_category r) five_categories) matched ->
  category_total "structural" matched + category_total "clause" matched
  + category_total "function_expression" matched
  + category_total "query_metric" matched
  + category_total "dbms_specific" matched
  = sumZ (map structural_contribution matched).
Proof.
  induction 1 as [|r matched Hr _ IH].
  - reflexivity.
  - cbn [map]. rewrite sumZ_cons, <- IH, !category_total_cons.
    cbn [five_categories map fst Structural.CATEGORY_WEIGHTS In] in Hr.
    destruct Hr as [<-|[<-|[<-|[<-|[<-|[]]]]]];
      cbn [String.eqb Ascii.eqb Bool.eqb]; lia.
Qed.

Section BuiltEngine.
Context `{Regex} `{!Structural.MetricPatterns}.

Lemma compile_section_categories (section : Structural.yaml_section)
    (category subcategory : string) :
  Forall (fun rule => Structural.category rule = category)
    (Structural.compile_section section category subcategory).
Proof.
  destruct section as [rules_list|]; [|apply List.Forall_nil].
  cbn [Structural.compile_section]. apply Forall_map.
  apply Forall_forall. intros rule _. reflexivity.
Qed.

Lemma common_rules_categories (rules : Structural.RuleSet) :
  Forall (fun rule => In (Structural.category rule) five_categories)
    (Structural._compile_common_rules rules).
Proof.
  unfold Structural._compile_common_rules. cbn zeta.
  induction (default [] (Structural.rs_common_rules rules))
    as [|[category_name section] l IH]; [apply List.Forall_nil|].
  cbn [flat_map]. apply Forall_app. split; [|exact IH].
  eapply Forall_impl; [apply compile_section_categories|].
  intros rule ->. apply map_category_range.
Qed.

Lemma dbms_rules_categories (source_db : string)
    (rules : Structural.RuleSet) :
  Forall (fun rule => In (Structural.category rule) five_categories)
    (Structural._compile_dbms_rules source_db rules).
Proof.
  unfold Structural._compile_dbms_rules. cbn zeta.
  generalize (default ∅ (Structural.rs_dbms_specific_rules rules)).
  intros dbms_rules.
  induction [source_db; Structural.lower source_db; upper source_db]
    as [|db_key keys IH]; [apply List.Forall_nil|].
  cbn [Structural.compile_first_section].
  destruct (dbms_rules !! db_key) as [section|]; [|exact IH].
  eapply Forall_impl; [apply compile_section_categories|].
  intros rule ->. cbn. tauto.
Qed.

Lemma structural_rule_loop_categories (pre : string)
    (rules : list Structural.CompiledRule)
    (st : list Structural.RuleMatch * gmap string Z) :
  Forall (fun rule => In (Structural.category rule) five_categories) rules ->
  Forall (fun r => In (Structural.rm_category r) five_categories) (fst st) ->
  Forall (fun r => In (Structural.rm_category r) five_categories)
    (fst (fold_left (Structural.rule_step pre) rules st)).
Proof.
  intros Hrules. revert st.
  induction Hrules as [|rule rules Hcat _ IH]; intros st Hst; [exact Hst|].
  cbn [fold_left]. apply IH.
  destruct st as [matched counts]. cbn [fst] in Hst.
  unfold Structural.rule_step.
  destruct (Structural.compiled_pattern rule) as [p|]; [|exact Hst].
  destruct (_count_pattern_matches pre p) as [n samples].
  destruct (n >? 0); [|exact Hst]. cbn [fst].
  apply Forall_app. split; [exact Hst|].
  apply List.Forall_cons; [exact Hcat | apply List.Forall_nil].
Qed.

(** X14.  For an engine built from a rule file by [__init__], every
    matched rule of a scored query belongs to one of the five weighted
    categories: no match is left out of the normalised score.  While
    the absolute contributions of the matched rules add up to at most
    2^53, the five category scores add up to the raw score, which lies
    within 2^53. *)
Theorem five_categories_cover_raw_score (rules : Structural.RuleSet)
    (source_db : string) (counts : gmap string Z)
    (sql query_name : string) :
  let e := Structural.init rules source_db in
  let q := fst (Structural.score_query e counts sql query_name) in
  Forall (fun r => In (Structural.rm_category r) five_categories)
    (Structural.matched_rules q)
  /\ (structural_magnitude q <= 2 ^ 53 ->
      (sumQ (map (fun c => default 0%Q (Structural.category_scores q !! c))
               five_categories)
       == inject_Z (Structural.raw_score q))%Q
      /\ Z.abs (Structural.raw_score q) <= 2 ^ 53).
Proof.
  cbn zeta. set (e := Structural.init rules source_db).
  destruct (structural_score_query_fields e counts sql query_name)
    as (Hm & Hr & _).
  destruct (structural_score_query_categories e counts sql query_name)
    as (Hcs & _).
  cbn zeta in Hm, Hr, Hcs.
  assert (Hcats :
    Forall (fun r => In (Structural.rm_category r) five_categories)
      (Structural.matched_rules
         (fst (Structural.score_query e counts sql query_name)))).
  { rewrite Hm.
    apply structural_rule_loop_categories;
      [apply dbms_rules_categories|].
    apply structural_rule_loop_categories;
      [apply common_rules_categories|].
    cbn [fst]. apply metric_rules_categories. }
  split; [exact Hcats|]. intros Hrange. split.
  - rewrite Hr, <- (category_partition _ Hcats), Hcs.
    set (matched := Structural.matched_rules _).
    unfold sumQ. cbn [five_categories map fst Structural.CATEGORY_WEIGHTS
                      fold_left].
    destruct (category_loop_lookup matched ∅ "structural") as [H1 _].
    destruct (category_loop_lookup matched ∅ "clause") as [H2 _].
    destruct (category_loop_lookup matched ∅ "function_expression")
      as [H3 _].
    destruct (category_loop_lookup matched ∅ "query_metric") as [H4 _].
    destruct (category_loop_lookup matched ∅ "dbms_specific") as [H5 _].
    rewrite lookup_empty in H1, H2, H3, H4, H5.
    cbn [from_option id] in H1, H2, H3, H4, H5.
    rewrite H1, H2, H3, H4, H5, !inject_Z_plus. lra.
  - rewrite Hr. unfold structural_magnitude in Hrange.
    pose proof (contributions_within_magnitude
                  (Structural.matched_rules
                     (fst (Structural.score_query e counts sql
                             query_name)))) as Hle.
    lia.
Qed.

End BuiltEngine.

Lemma five_categories_cover_raw_score_witness :
  let rules :=
    {| Structural.rs_common_rules :=
         Some [ ("function_common",
                 Structural.RuleList
                   [ {| Structural.raw_id := Some "f1";
                        Structural.raw_name := Some "nvl";
                        Structural.raw_weight := Some 60;
                        Structural.raw_detection_method := Some "regex";
                        Structural.raw_pattern := Some "NVL";
                        Structural.raw_logic := None;
                        Structural.raw_note := None |} ]) ];
       Structural.rs_dbms_specific_rules := None |} in
  let q := fst (@Structural.score_query literal_regex
                  literal_metric_patterns
                  (@Structural.init literal_regex rules "oracle") ∅
                  "UPDATE t SET a = NVL(b, 0), c = NVL(d, 0) WHERE id = 1"
                  "q") in
  structural_magnitude q = 120
  /\ Structural.raw_score q = 120
  /\ (sumQ (map (fun c => default 0%Q (Structural.category_scores q !! c))
              five_categories)
      == inject_Z (Structural.raw_score q))%Q.
Proof.
  cbn zeta.
  set (rules := {| Structural.rs_common_rules := _;
                   Structural.rs_dbms_specific_rules := None |}).
  set (sql := "UPDATE t SET a = NVL(b, 0), c = NVL(d, 0) WHERE id = 1").
  assert (Hrange :
    structural_magnitude
      (fst (@Structural.score_query literal_regex literal_metric_patterns
              (@Structural.init literal_regex rules "oracle") ∅ sql "q"))
    <= 2 ^ 53).
  { vm_compute. discriminate. }
  split; [vm_compute; reflexivity|].
  split; [vm_compute; reflexivity|].
  exact (proj1 (proj2
           (@five_categories_cover_raw_score literal_regex
              literal_metric_patterns rules "oracle" ∅ sql "q") Hrange)).
Defined.

(** ** The stored normalised score *)

Lemma round_half_even_range (q : Q) (n : Z) :
  (0 <= q)%Q -> (q <= inject_Z n)%Q -> 0 <= round_half_even q <= n.
Proof.
  intros Hlo Hhi. unfold round_half_even. cbn zeta.
  pose proof (Qfloor_le q) as Hfloor.
  pose proof (Qfloor_resp_le _ _ Hlo) as Hpos.
  change (Qfloor 0) with 0 in Hpos.
  assert (Hf : Qfloor q <= n).
  { rewrite Zle_Qle. lra. }
  destruct (q - inject_Z (Qfloor q) ?= 1 # 2)%Q eqn:E.
  - apply Qeq_alt in E.
    assert (Hlt : Qfloor q < n).
    { rewrite Zlt_Qlt. lra. }
    destruct (Z.even (Qfloor q)); lia.
  - lia.
  - apply Qgt_alt in E.
    assert (Hlt : Qfloor q < n).
    { rewrite Zlt_Qlt. lra. }
    lia.
Qed.

Lemma round2_range (x : Q) :
  (0 <= x)%Q -> (x <= 10)%Q -> (0 <= round2 x)%Q /\ (round2 x <= 10)%Q.
Proof.
  intros Hlo Hhi. unfold round2.
  destruct (round_half_even_range (x * 100) 1000) as [Hr1 Hr2].
  - lra.
  - change (inject_Z 1000) with 1000%Q. lra.
  - rewrite Zle_Qle in Hr1, Hr2.
    change (inject_Z 0) with 0%Q in Hr1.
    change (inject_Z 1000) with 1000%Q in Hr2.
    revert Hr1 Hr2. generalize (inject_Z (round_half_even (x * 100))).
    intros y Hr1 Hr2. unfold Qdiv.
    change (/ 100)%Q with (1 # 100)%Q. split; lra.
Qed.

Lemma normalized_score_nonneg (category_scores : gmap string Q) :
  (forall c q, category_scores !! c = Some q -> 0 <= q)%Q ->
  (0 <= Structural._calculate_normalized_score category_scores)%Q.
Proof.
  intros Hpos. rewrite normalized_score_terms.
  pose proof (category_term_lower category_scores "structural" 100
                (30 # 100) Hpos ltac:(reflexivity) ltac:(discriminate)).
  pose proof (category_term_lower category_scores "clause" 50
                (15 # 100) Hpos ltac:(reflexivity) ltac:(discriminate)).
  pose proof (category_term_lower category_scores "function_expression" 80
                (20 # 100) Hpos ltac:(reflexivity) ltac:(discriminate)).
  pose proof (category_term_lower category_scores "query_metric" 40
                (10 # 100) Hpos ltac:(reflexivity) ltac:(discriminate)).
  pose proof (category_term_lower category_scores "dbms_specific" 100
                (25 # 100) Hpos ltac:(reflexivity) ltac:(discriminate)).
  lra.
Qed.

Lemma category_total_nonneg (c : string)
    (matched : list Structural.RuleMatch) :
  Forall (fun r => 0 <= structural_contribution r) matched ->
  0 <= category_total c matched.
Proof.
  intros Hall. unfold category_total. apply sumZ_nonneg, Forall_map.
  apply Forall_forall. intros r Hin.
  apply list_elem_of_In, List.filter_In in Hin. destruct Hin as [Hin _].
  rewrite Forall_forall in Hall. apply Hall, list_elem_of_In, Hin.
Qed.

Section StoredNormalized.
Context `{Regex} `{!Structural.MetricPatterns}.

Lemma structural_rule_loop_weights (pre : string)
    (rules : list Structural.CompiledRule)
    (st : list Structural.RuleMatch * gmap string Z) :
  Forall (fun rule => 0 <= Structural.weight rule) rules ->
  Forall (fun r => 0 <= structural_contribution r) (fst st) ->
  Forall (fun r => 0 <= structural_contribution r)
    (fst (fold_left (Structural.rule_step pre) rules st)).
Proof.
  intros Hrules. revert st.
  induction Hrules as [|rule rules Hw _ IH]; intros st Hst; [exact Hst|].
  cbn [fold_left]. apply IH.
  destruct st as [matched counts]. cbn [fst] in Hst.
  unfold Structural.rule_step.
  destruct (Structural.compiled_pattern rule) as [p|]; [|exact Hst].
  destruct (_count_pattern_matches pre p) as [n samples].
  destruct (n >? 0) eqn:Hpos; [|exact Hst]. cbn [fst].
  apply Forall_app. split; [exact Hst|].
  apply List.Forall_cons; [|apply List.Forall_nil].
  unfold structural_contribution. cbn. lia.
Qed.

Lemma metric_rules_contributions (metrics : gmap string Z) :
  Forall (fun r => 0 <= structural_contribution r)
    (Structural._apply_metric_rules metrics).
Proof.
  unfold Structural._apply_metric_rules. cbn zeta.
  repeat (apply Forall_app; split);
    split_ifs;
    repeat first [apply List.Forall_nil | apply List.Forall_cons];
    unfold structural_contribution; cbn; lia.
Qed.

(** X15.  When no rule of a structural engine has a negative weight,
    the normalised score stored for a query, rounded to two decimals,
    lies between 0 and 10, and the raw score is not negative. *)
Theorem stored_normalized_score_range (e : Structural.Engine)
    (counts : gmap string Z) (sql query_name : string) :
  Forall (fun rule => 0 <= Structural.weight rule)
    (Structural.common_rules e) ->
  Forall (fun rule => 0 <= Structural.weight rule)
    (Structural.dbms_rules e) ->
  let q := fst (Structural.score_query e counts sql query_name) in
  (0 <= Structural.normalized_score q)%Q
  /\ (Structural.normalized_score q <= 10)%Q
  /\ 0 <= Structural.raw_score q.
Proof.
  intros Hcommon Hdbms. cbn zeta.
  destruct (structural_score_query_fields e counts sql query_name)
    as (Hm & Hr & _).
  destruct (structural_score_query_categories e counts sql query_name)
    as (Hcs & Hn & _).
  cbn zeta in Hm, Hr, Hcs, Hn.
  assert (Hall :
    Forall (fun r => 0 <= structural_contribution r)
      (Structural.matched_rules
         (fst (Structural.score_query e counts sql query_name)))).
  { rewrite Hm.
    apply structural_rule_loop_weights; [exact Hdbms|].
    apply structural_rule_loop_weights; [exact Hcommon|].
    cbn [fst]. apply metric_rules_contributions. }
  assert (Hpos : forall c v,
    Structural.category_scores
      (fst (Structural.score_query e counts sql query_name)) !! c = Some v ->
    (0 <= v)%Q).
  { intros c v Hlook. rewrite Hcs in Hlook.
    destruct (category_loop_lookup
                (Structural.matched_rules
                   (fst (Structural.score_query e counts sql query_name)))
                ∅ c) as [Hval _].
    rewrite Hlook, lookup_empty in Hval. cbn [from_option id] in Hval.
    pose proof (category_total_nonneg c _ Hall) as Htotal.
    rewrite Zle_Qle in Htotal. change (inject_Z 0) with 0%Q in Htotal.
    lra. }
  rewrite Hn.
  destruct (round2_range _ (normalized_score_nonneg _ Hpos)
              (normalized_score_at_most_10 _)) as [Hlo Hhi].
  split; [exact Hlo|]. split; [exact Hhi|].
  rewrite Hr. apply sumZ_nonneg, Forall_map. exact Hall.
Qed.

End StoredNormalized.

Lemma stored_normalized_score_range_witness :
  let e : @Structural.Engine literal_regex :=
    {| Structural.source_db := "ORA";
       Structural.common_rules :=
         [ {| Structural.id := "f1"; Structural.name := "nvl";
              Structural.weight := 60;
              Structural.detection_method := "regex";
              Structural.rule_pattern := "NVL"; Structural.logic := "";
              Structural.category := "function_expression";
              Structural.subcategory := "function_common";
              Structural.note := "";
              Structural.compiled_pattern :=
                Some ("NVL" : @pattern literal_regex) |} ];
       Structural.dbms_rules := [] |} in
  let q := fst (@Structural.score_query literal_regex
                  literal_metric_patterns e ∅
                  "UPDATE t SET a = NVL(b, 0), c = NVL(d, 0) WHERE id = 1"
                  "q") in
  Forall (fun rule => 0 <= Structural.weight rule)
    (Structural.common_rules e)
  /\ Structural.raw_score q = 120
  /\ (Structural.normalized_score q == 2)%Q
  /\ (0 <= Structural.normalized_score q)%Q
  /\ (Structural.normalized_score q <= 10)%Q.
Proof.
  cbn zeta.
  set (e := {| Structural.source_db := "ORA";
               Structural.common_rules := _;
               Structural.dbms_rules := [] |}).
  set (sql := "UPDATE t SET a = NVL(b, 0), c = NVL(d, 0) WHERE id = 1").
  assert (Hw : Forall (fun rule => 0 <= Structural.weight rule)
                 (Structural.common_rules e)).
  { apply List.Forall_cons; [cbn; lia | apply List.Forall_nil]. }
  split; [exact Hw|].
  split; [vm_compute; reflexivity|].
  split; [vm_compute; reflexivity|].
  destruct (@stored_normalized_score_range literal_regex
              literal_metric_patterns e ∅ sql "q" Hw (List.Forall_nil _))
    as (Hlo & Hhi & _).
  split; [exact Hlo | exact Hhi].
Defined.

(** ** What a file result holds *)

Section ConversionFileResult.
Context `{Regex}.
Variable e : Conversion.Engine.

Lemma conversion_analyze_file_fields (counts : gmap string Z)
    (file_data : FileData) :
  exists fs counts',
    Conversion.analyze_file e counts file_data = Some (fs, counts')
    /\ fold_left (Conversion.query_step e)
         (default [] (fd_queries file_data)) ([], ∅, counts)
       = (Conversion.queries fs, Conversion.complexity_distribution fs,
          counts')
    /\ Conversion.query_count fs
       = Z.of_nat (length (Conversion.queries fs))
    /\ Conversion.total_raw_score fs
       = sumZ (map Conversion.raw_score (Conversion.queries fs))
    /\ Conversion.file_name fs = default "" (fd_file_name file_data)
    /\ Conversion.file_path fs = default "" (fd_file_path file_data).
Proof.
  unfold Conversion.analyze_file.
  destruct (fold_left _ _ _) as [[scores dist] counts'].
  destruct scores as [|score scores].
  - cbn. eexists _, _. split; [reflexivity|]. cbn. repeat split.
  - rewrite !py_div_positive by (cbn [length]; lia).
    cbn. eexists _, _. split; [reflexivity|]. cbn. repeat split.
Qed.

Lemma conversion_query_step_distribution (st : Conversion.file_state)
    (q : Query) (lvl : Conversion.level) :
  default 0 (snd (fst st) !! lvl)
  = level_count_conversion lvl (fst (fst st)) ->
  default 0 (snd (fst (Conversion.query_step e st q)) !! lvl)
  = level_count_conversion lvl (fst (fst (Conversion.query_step e st q))).
Proof.
  destruct st as [[scores dist] counts]. cbn [fst snd]. intros Hinv.
  unfold Conversion.query_step.
  destruct (negb (nonempty (default "" (q_sql q)))); [exact Hinv|].
  destruct (Conversion.score_query e counts _ _) as [score counts'].
  cbn [fst snd]. unfold level_count_conversion in *.
  rewrite List.filter_app, length_app. cbn [List.filter].
  destruct (decide (Conversion.complexity_level score = lvl)) as [Heq|Hne].
  - rewrite (bool_decide_eq_true_2 _ Heq). subst lvl.
    rewrite lookup_insert_eq. cbn [from_option id length]. lia.
  - rewrite (bool_decide_eq_false_2 _ Hne).
    rewrite lookup_insert_ne by exact Hne. cbn [length]. lia.
Qed.

Lemma conversion_query_loop_distribution (qs : list Query)
    (st : Conversion.file_state) (lvl : Conversion.level) :
  default 0 (snd (fst st) !! lvl)
  = level_count_conversion lvl (fst (fst st)) ->
  default 0 (snd (fst (fold_left (Conversion.query_step e) qs st)) !! lvl)
  = level_count_conversion lvl
      (fst (fst (fold_left (Conversion.query_step e) qs st))).
Proof.
  revert st. induction qs as [|q qs IH]; intros st Hinv; [exact Hinv|].
  cbn [fold_left]. apply IH, conversion_query_step_distribution, Hinv.
Qed.

Lemma conversion_level_counts_total (scores : list Conversion.QueryScore) :
  sumZ (map (fun lvl => level_count_conversion lvl scores)
          [Conversion.VeryLow; Conversion.Low; Conversion.Medium;
           Conversion.High; Conversion.VeryHigh])
  = Z.of_nat (length scores).
Proof.
  cbn [map]. rewrite !sumZ_cons. change (sumZ []) with 0.
  unfold level_count_conversion.
  induction scores as [|q scores IH]; [reflexivity|].
  cbn [List.filter length].
  destruct (Conversion.complexity_level q);
    repeat match goal with
           | |- context [bool_decide ?P] =>
               first [ rewrite (bool_decide_eq_true_2 P) by reflexivity
                     | rewrite (bool_decide_eq_false_2 P) by discriminate ]
           end;
    cbn [length]; lia.
Qed.

Lemma conversion_query_step_names (st : Conversion.file_state) (q : Query) :
  map (fun s => (Conversion.query_name s, Conversion.sql s))
    (fst (fst (Conversion.query_step e st q)))
  = (map (fun s => (Conversion.query_name s, Conversion.sql s))
       (fst (fst st))
     ++ map (fun q => (query_label q, stored_sql (default "" (q_sql q))))
          (List.filter scoreable [q]))%list.
Proof.
  destruct st as [[scores dist] counts]. cbn [fst snd List.filter].
  unfold Conversion.query_step, scoreable.
  destruct (nonempty (default "" (q_sql q))); cbn [negb map];
    [|rewrite app_nil_r; reflexivity].
  unfold Conversion.score_query.
  destruct (fold_left _ _ _) as [[matched grades] counts'].
  cbn [fst]. rewrite map_app. reflexivity.
Qed.

Lemma conversion_query_loop_names (qs : list Query)
    (st : Conversion.file_state) :
  map (fun s => (Conversion.query_name s, Conversion.sql s))
    (fst (fst (fold_left (Conversion.query_step e) qs st)))
  = (map (fun s => (Conversion.query_name s, Conversion.sql s))
       (fst (fst st))
     ++ map (fun q => (query_label q, stored_sql (default "" (q_sql q))))
          (List.filter scoreable qs))%list.
Proof.
  revert st. induction qs as [|q qs IH]; intros st.
  - cbn. rewrite app_nil_r. reflexivity.
  - cbn [fold_left]. rewrite IH, conversion_query_step_names.
    rewrite <- app_assoc, <- map_app, <- List.filter_app. reflexivity.
Qed.

End ConversionFileResult.

Section StructuralFileResult.
Context `{Regex} `{!Structural.MetricPatterns}.
Variable e : Structural.Engine.

Lemma structural_analyze_file_fields (counts : gmap string Z)
    (file_data : FileData) :
  exists fs counts',
    Structural.analyze_file e counts file_data = Some (fs, counts')
    /\ fold_left (Structural.query_step e)
         (default [] (fd_queries file_data)) ([], ∅, counts)
       = (Structural.queries fs, Structural.complexity_distribution fs,
          counts')
    /\ Structural.query_count fs
       = Z.of_nat (length (Structural.queries fs))
    /\ Structural.total_raw_score fs
       = sumZ (map Structural.raw_score (Structural.queries fs))
    /\ Structural.file_name fs = default "" (fd_file_name file_data)
    /\ Structural.file_path fs = default "" (fd_file_path file_data).
Proof.
  unfold Structural.analyze_file.
  destruct (fold_left _ _ _) as [[scores dist] counts'].
  destruct scores as [|score scores].
  - cbn. eexists _, _. split; [reflexivity|]. cbn. repeat split.
  - rewrite !py_div_positive by (cbn [length]; lia).
    cbn. eexists _, _. split; [reflexivity|]. cbn. repeat split.
Qed.

Lemma structural_query_step_distribution (st : Structural.file_state)
    (q : Query) (lvl : Structural.level) :
  default 0 (snd (fst st) !! lvl)
  = level_count_structural lvl (fst (fst st)) ->
  default 0 (snd (fst (Structural.query_step e st q)) !! lvl)
  = level_count_structural lvl (fst (fst (Structural.query_step e st q))).
Proof.
  destruct st as [[scores dist] counts]. cbn [fst snd]. intros Hinv.
  unfold Structural.query_step.
  destruct (negb (nonempty (default "" (q_sql q)))); [exact Hinv|].
  destruct (Structural.score_query e counts _ _) as [score counts'].
  cbn [fst snd]. unfold level_count_structural in *.
  rewrite List.filter_app, length_app. cbn [List.filter].
  destruct (decide (Structural.complexity_level score = lvl)) as [Heq|Hne].
  - rewrite (bool_decide_eq_true_2 _ Heq). subst lvl.
    rewrite lookup_insert_eq. cbn [from_option id length]. lia.
  - rewrite (bool_decide_eq_false_2 _ Hne).
    rewrite lookup_insert_ne by exact Hne. cbn [length]. lia.
Qed.

Lemma structural_query_loop_distribution (qs : list Query)
    (st : Structural.file_state) (lvl : Structural.level) :
  default 0 (snd (fst st) !! lvl)
  = level_count_structural lvl (fst (fst st)) ->
  default 0 (snd (fst (fold_left (Structural.query_step e) qs st)) !! lvl)
  = level_count_structural lvl
      (fst (fst (fold_left (Structural.query_step e) qs st))).
Proof.
  revert st. induction qs as [|q qs IH]; intros st Hinv; [exact Hinv|].
  cbn [fold_left]. apply IH, structural_query_step_distribution, Hinv.
Qed.

Lemma structural_level_counts_total (scores : list Structural.QueryScore) :
  sumZ (map (fun lvl => level_count_structural lvl scores)
          [Structural.VerySimple; Structural.Simple; Structural.Moderate;
           Structural.Complex; Structural.VeryComplex])
  = Z.of_nat (length scores).
Proof.
  cbn [map]. rewrite !sumZ_cons. change (sumZ []) with 0.
  unfold level_count_structural.
  induction scores as [|q scores IH]; [reflexivity|].
  cbn [List.filter length].
  destruct (Structural.complexity_level q);
    repeat match goal with
           | |- context [bool_decide ?P] =>
               first [ rewrite (bool_decide_eq_true_2 P) by reflexivity
                     | rewrite (bool_decide_eq_false_2 P) by discriminate ]
           end;
    cbn [length]; lia.
Qed.

Lemma structural_query_step_names (st : Structural.file_state) (q : Query) :
  map (fun s => (Structural.query_name s, Structural.sql s))
    (fst (fst (Structural.query_step e st q)))
  = (map (fun s => (Structural.query_name s, Structural.sql s))
       (fst (fst st))
     ++ map (fun q => (query_label q, stored_sql (default "" (q_sql q))))
          (List.filter scoreable [q]))%list.
Proof.
  destruct st as [[scores dist] counts]. cbn [fst snd List.filter].
  unfold Structural.query_step, scoreable.
  destruct (nonempty (default "" (q_sql q))); cbn [negb map];
    [|rewrite app_nil_r; reflexivity].
  unfold Structural.score_query. cbn zeta.
  destruct (fold_left _ (Structural.dbms_rules e) _) as [matched counts'].
  cbn [fst]. rewrite map_app. reflexivity.
Qed.

Lemma structural_query_loop_names (qs : list Query)
    (st : Structural.file_state) :
  map (fun s => (Structural.query_name s, Structural.sql s))
    (fst (fst (fold_left (Structural.query_step e) qs st)))
  = (map (fun s => (Structural.query_name s, Structural.sql s))
       (fst (fst st))
     ++ map (fun q => (query_label q, stored_sql (default "" (q_sql q))))
          (List.filter scoreable qs))%list.
Proof.
  revert st. induction qs as [|q qs IH]; intros st.
  - cbn. rewrite app_nil_r. reflexivity.
  - cbn [fold_left]. rewrite IH, structural_query_step_names.
    rewrite <- app_assoc, <- map_app, <- List.filter_app. reflexivity.
Qed.

End StructuralFileResult.

Section FileResults.
Context `{Regex} `{!Structural.MetricPatterns}.

(** X16.  In a file result of either engine the complexity distribution
    counts the scored queries level by level: each entry is the number
    of scored queries of that level, and the five entries add up to
    [query_count]. *)
Theorem distribution_counts_scored_queries
    (ce : Conversion.Engine) (se : Structural.Engine)
    (counts : gmap string Z) (file_data : FileData) :
  (exists fs counts',
      Conversion.analyze_file ce counts file_data = Some (fs, counts')
      /\ (forall lvl,
             default 0 (Conversion.complexity_distribution fs !! lvl)
             = level_count_conversion lvl (Conversion.queries fs))
      /\ sumZ (map (fun lvl =>
                      default 0
                        (Conversion.complexity_distribution fs !! lvl))
                 [Conversion.VeryLow; Conversion.Low; Conversion.Medium;
                  Conversion.High; Conversion.VeryHigh])
         = Conversion.query_count fs)
  /\ (exists fs counts',
         Structural.analyze_file se counts file_data = Some (fs, counts')
         /\ (forall lvl,
                default 0 (Structural.complexity_distribution fs !! lvl)
                = level_count_structural lvl (Structural.queries fs))
         /\ sumZ (map (fun lvl =>
                         default 0
                           (Structural.complexity_distribution fs !! lvl))
                    [Structural.VerySimple; Structural.Simple;
                     Structural.Moderate; Structural.Complex;
                     Structural.VeryComplex])
            = Structural.query_count fs).
Proof.
  split.
  - destruct (conversion_analyze_file_fields ce counts file_data)
      as (fs & counts' & Heq & Hfold & Hcount & _).
    exists fs, counts'. split; [exact Heq|].
    assert (Hdist : forall lvl,
      default 0 (Conversion.complexity_distribution fs !! lvl)
      = level_count_conversion lvl (Conversion.queries fs)).
    { intros lvl.
      pose proof (conversion_query_loop_distribution ce
                    (default [] (fd_queries file_data)) ([], ∅, counts)
                    lvl) as Hinv.
      rewrite Hfold in Hinv. cbn [fst snd] in Hinv. apply Hinv.
      rewrite lookup_empty. reflexivity. }
    split; [exact Hdist|].
    rewrite Hcount, <- conversion_level_counts_total.
    cbn [map]. rewrite !Hdist. reflexivity.
  - destruct (structural_analyze_file_fields se counts file_data)
      as (fs & counts' & Heq & Hfold & Hcount & _).
    exists fs, counts'. split; [exact Heq|].
    assert (Hdist : forall lvl,
      default 0 (Structural.complexity_distribution fs !! lvl)
      = level_count_structural lvl (Structural.queries fs)).
    { intros lvl.
      pose proof (structural_query_loop_distribution se
                    (default [] (fd_queries file_data)) ([], ∅, counts)
                    lvl) as Hinv.
      rewrite Hfold in Hinv. cbn [fst snd] in Hinv. apply Hinv.
      rewrite lookup_empty. reflexivity. }
    split; [exact Hdist|].
    rewrite Hcount, <- structural_level_counts_total.
    cbn [map]. rewrite !Hdist. reflexivity.
Qed.

(** X17.  A file result lists the scored queries in the order of the
    file: the names are the [name] keys of the scoreable queries (or
    their [type], or [unknown]), the stored texts are their SQL cut as
    [score_query] cuts it, and the file name and path are the file's
    (empty when missing). *)
Theorem file_result_keeps_order
    (ce : Conversion.Engine) (se : Structural.Engine)
    (counts : gmap string Z) (file_data : FileData) :
  let kept := List.filter scoreable (default [] (fd_queries file_data)) in
  (exists fs counts',
      Conversion.analyze_file ce counts file_data = Some (fs, counts')
      /\ map Conversion.query_name (Conversion.queries fs)
         = map query_label kept
      /\ map Conversion.sql (Conversion.queries fs)
         = map (fun q => stored_sql (default "" (q_sql q))) kept
      /\ Conversion.file_name fs = default "" (fd_file_name file_data)
      /\ Conversion.file_path fs = default "" (fd_file_path file_data))
  /\ (exists fs counts',
         Structural.analyze_file se counts file_data = Some (fs, counts')
         /\ map Structural.query_name (Structural.queries fs)
            = map query_label kept
         /\ map Structural.sql (Structural.queries fs)
            = map (fun q => stored_sql (default "" (q_sql q))) kept
         /\ Structural.file_name fs = default "" (fd_file_name file_data)
         /\ Structural.file_path fs = default "" (fd_file_path file_data)).
Proof.
  cbn zeta. split.
  - destruct (conversion_analyze_file_fields ce counts file_data)
      as (fs & counts' & Heq & Hfold & _ & _ & Hname & Hpath).
    exists fs, counts'. split; [exact Heq|].
    pose proof (conversion_query_loop_names ce
                  (default [] (fd_queries file_data)) ([], ∅, counts))
      as Hnames.
    rewrite Hfold in Hnames. cbn [fst map app] in Hnames.
    split; [|split; [|split; [exact Hname | exact Hpath]]].
    + apply (f_equal (map fst)) in Hnames.
      rewrite !map_map in Hnames. exact Hnames.
    + apply (f_equal (map snd)) in Hnames.
      rewrite !map_map in Hnames. exact Hnames.
  - destruct (structural_analyze_file_fields se counts file_data)
      as (fs & counts' & Heq & Hfold & _ & _ & Hname & Hpath).
    exists fs, counts'. split; [exact Heq|].
    pose proof (structural_query_loop_names se
                  (default [] (fd_queries file_data)) ([], ∅, counts))
      as Hnames.
    rewrite Hfold in Hnames. cbn [fst map app] in Hnames.
    split; [|split; [|split; [exact Hname | exact Hpath]]].
    + apply (f_equal (map fst)) in Hnames.
      rewrite !map_map in Hnames. exact Hnames.
    + apply (f_equal (map snd)) in Hnames.
      rewrite !map_map in Hnames. exact Hnames.
Qed.

End FileResults.

(** ** What a corpus result holds *)

(** Merging one distribution into another adds entry by entry. *)
Lemma merge_list_lookup `{Countable K} (kvs : list (K * Z))
    (d : gmap K Z) (k : K) :
  NoDup (kvs.*1) ->
  default 0
    (fold_left (fun d '(l, c) => <[l := default 0 (d !! l) + c]> d) kvs d
     !! k)
  = default 0 (d !! k)
    + default 0 ((list_to_map kvs : gmap K Z) !! k).
Proof.
  revert d. induction kvs as [|[l c] kvs IH]; intros d Hnodup.
  - cbn [fold_left list_to_map foldr]. rewrite lookup_empty.
    cbn [from_option id]. lia.
  - cbn [fmap list_fmap fst] in Hnodup. apply NoDup_cons in Hnodup.
    destruct Hnodup as [Hfresh Hnodup].
    cbn [fold_left]. rewrite (IH _ Hnodup).
    cbn [list_to_map foldr uncurry fst snd].
    destruct (decide (l = k)) as [->|Hne].
    + rewrite !lookup_insert_eq.
      rewrite (not_elem_of_list_to_map_1 kvs k Hfresh).
      cbn [from_option id]. lia.
    + rewrite !lookup_insert_ne by exact Hne. reflexivity.
Qed.

Lemma merge_lookup `{Countable K} (m d : gmap K Z) (k : K) :
  default 0
    (fold_left (fun d '(l, c) => <[l := default 0 (d !! l) + c]> d)
       (map_to_list m) d !! k)
  = default 0 (d !! k) + default 0 (m !! k).
Proof.
  rewrite merge_list_lookup by apply NoDup_fst_map_to_list.
  rewrite list_to_map_to_list. reflexivity.
Qed.

Section ConversionCorpusResult.
Context `{Regex}.
Variable e : Conversion.Engine.

Lemma conversion_file_distribution_total (counts : gmap string Z)
    (file_data : FileData) :
  exists fs counts',
    Conversion.analyze_file e counts file_data = Some (fs, counts')
    /\ Conversion.file_name fs = default "" (fd_file_name file_data)
    /\ sumZ (map (fun lvl =>
                    default 0 (Conversion.complexity_distribution fs !! lvl))
               conversion_levels)
       = Conversion.query_count fs.
Proof.
  destruct (conversion_analyze_file_fields e counts file_data)
    as (fs & counts' & Heq & Hfold & Hcount & _ & Hname & _).
  exists fs, counts'. split; [exact Heq|]. split; [exact Hname|].
  rewrite Hcount, <- conversion_level_counts_total.
  unfold conversion_levels. cbn [map]. repeat f_equal;
    match goal with
    | |- default 0 (_ !! ?lvl) = _ =>
        pose proof (conversion_query_loop_distribution e
                      (default [] (fd_queries file_data)) ([], ∅, counts)
                      lvl) as Hinv;
        rewrite Hfold in Hinv; cbn [fst snd] in Hinv; apply Hinv;
        rewrite lookup_empty; reflexivity
    end.
Qed.

Lemma conversion_file_loop_facts (files : list FileData)
    (st : Conversion.corpus_state) :
  exists st' new,
    fold_left (Conversion.file_step e) files (Some st) = Some st'
    /\ conversion_loop_facts files st st' new.
Proof.
  revert st. induction files as [|fd files IH]; intros st.
  - exists st, []. split; [reflexivity|].
    split; cbn [map]; rewrite ?app_nil_r; try reflexivity.
    + apply List.Forall_nil.
    + change (sumZ []) with 0. lia.
    + intros lvl. change (sumZ []) with 0. lia.
  - destruct (conversion_file_distribution_total (Conversion.cs_counts st)
                fd) as (fs & counts' & Hfile & Hname & Hsum).
    cbn [fold_left]. unfold Conversion.file_step at 2.
    cbn [mbind option_bind]. rewrite Hfile. cbn [mbind option_bind].
    match goal with
    | |- context [fold_left _ files (Some ?s1)] =>
        destruct (IH s1) as (st' & new & Hloop & Hfacts)
    end.
    exists st', (fs :: new). split; [exact Hloop|].
    destruct Hfacts as [Hf Hn He Ht Hd].
    cbn [Conversion.all_files Conversion.cs_total_queries
         Conversion.overall_complexity_dist] in Hf, Ht, Hd.
    split.
    + rewrite Hf, <- app_assoc. reflexivity.
    + cbn [map]. rewrite Hname, Hn. reflexivity.
    + apply List.Forall_cons; assumption.
    + cbn [map]. rewrite sumZ_cons, Ht. lia.
    + intros lvl. cbn [map]. rewrite sumZ_cons, Hd, merge_lookup. lia.
Qed.

Lemma conversion_corpus_facts (counts : gmap string Z)
    (documents : list (list FileData)) :
  exists files summary,
    Conversion.analyze_json_files e counts documents
    = Some (files, summary)
    /\ map Conversion.file_name files
       = map (fun fd => default "" (fd_file_name fd)) (concat documents)
    /\ Conversion.total_queries summary
       = sumZ (map Conversion.query_count files)
    /\ (forall lvl,
           default 0 (Conversion.s_complexity_distribution summary !! lvl)
           = sumZ (map (fun fs =>
                          default 0
                            (Conversion.complexity_distribution fs !! lvl))
                     files))
    /\ sumZ (map (fun lvl =>
                    default 0
                      (Conversion.s_complexity_distribution summary !! lvl))
               conversion_levels)
       = Conversion.total_queries summary.
Proof.
  unfold Conversion.analyze_json_files.
  match goal with
  | |- context [fold_left _ _ (Some ?s0)] =>
      destruct (conversion_file_loop_facts (concat documents) s0)
        as (st' & new & Hloop & [Hf Hn He Ht Hd])
  end.
  rewrite Hloop.
  cbn [Conversion.all_files Conversion.cs_total_queries
       Conversion.overall_complexity_dist app] in Hf, Ht, Hd.
  cbn [mbind option_bind].
  assert (Hsome : exists avg,
    (if Conversion.cs_total_queries st' >? 0
     then py_div (Conversion.total_score st')
            (Conversion.cs_total_queries st')
     else Some 0%Q) = Some avg).
  { destruct (Conversion.cs_total_queries st' >? 0) eqn:Hpos.
    - rewrite py_div_positive by lia. eexists. reflexivity.
    - eexists. reflexivity. }
  destruct Hsome as [avg ->]. cbn [mbind option_bind].
  eexists _, _. split; [reflexivity|].
  cbn [Conversion.total_queries Conversion.s_complexity_distribution].
  rewrite Hf.
  assert (Hdist : forall lvl,
    default 0 (Conversion.overall_complexity_dist st' !! lvl)
    = sumZ (map (fun fs =>
                   default 0 (Conversion.complexity_distribution fs !! lvl))
              new)).
  { intros lvl. rewrite Hd, lookup_empty. cbn [from_option id]. lia. }
  split; [exact Hn|]. split; [lia|]. split; [exact Hdist|].
  rewrite Ht, Z.add_0_l. clear Hf Hn Ht Hd Hloop.
  unfold conversion_levels in *. cbn [map]. rewrite !Hdist.
  rewrite !sumZ_cons. change (sumZ []) with 0. clear Hdist.
  induction He as [|fs new Hfs _ IH]; [reflexivity|].
  cbn [map] in *. rewrite !sumZ_cons in *. change (sumZ []) with 0 in Hfs.
  lia.
Qed.

End ConversionCorpusResult.

Section StructuralCorpusResult.
Context `{Regex} `{!Structural.MetricPatterns}.
Variable e : Structural.Engine.

Lemma structural_file_distribution_total (counts : gmap string Z)
    (file_data : FileData) :
  exists fs counts',
    Structural.analyze_file e counts file_data = Some (fs, counts')
    /\ Structural.file_name fs = default "" (fd_file_name file_data)
    /\ sumZ (map (fun lvl =>
                    default 0 (Structural.complexity_distribution fs !! lvl))
               structural_levels)
       = Structural.query_count fs.
Proof.
  destruct (structural_analyze_file_fields e counts file_data)
    as (fs & counts' & Heq & Hfold & Hcount & _ & Hname & _).
  exists fs, counts'. split; [exact Heq|]. split; [exact Hname|].
  rewrite Hcount, <- structural_level_counts_total.
  unfold structural_levels. cbn [map]. repeat f_equal;
    match goal with
    | |- default 0 (_ !! ?lvl) = _ =>
        pose proof (structural_query_loop_distribution e
                      (default [] (fd_queries file_data)) ([], ∅, counts)
                      lvl) as Hinv;
        rewrite Hfold in Hinv; cbn [fst snd] in Hinv; apply Hinv;
        rewrite lookup_empty; reflexivity
    end.
Qed.

Lemma structural_file_loop_facts (files : list FileData)
    (st : Structural.corpus_state) :
  exists st' new,
    fold_left (Structural.file_step e) files (Some st) = Some st'
    /\ structural_loop_facts files st st' new.
Proof.
  revert st. induction files as [|fd files IH]; intros st.
  - exists st, []. split; [reflexivity|].
    split; cbn [map]; rewrite ?app_nil_r; try reflexivity.
    + apply List.Forall_nil.
    + change (sumZ []) with 0. lia.
    + intros lvl. change (sumZ []) with 0. lia.
  - destruct (structural_file_distribution_total (Structural.cs_counts st)
                fd) as (fs & counts' & Hfile & Hname & Hsum).
    cbn [fold_left]. unfold Structural.file_step at 2.
    cbn [mbind option_bind]. rewrite Hfile. cbn [mbind option_bind].
    match goal with
    | |- context [fold_left _ files (Some ?s1)] =>
        destruct (IH s1) as (st' & new & Hloop & Hfacts)
    end.
    exists st', (fs :: new). split; [exact Hloop|].
    destruct Hfacts as [Hf Hn He Ht Hd].
    cbn [Structural.all_files Structural.cs_total_queries
         Structural.overall_complexity_dist] in Hf, Ht, Hd.
    split.
    + rewrite Hf, <- app_assoc. reflexivity.
    + cbn [map]. rewrite Hname, Hn. reflexivity.
    + apply List.Forall_cons; assumption.
    + cbn [map]. rewrite sumZ_cons, Ht. lia.
    + intros lvl. cbn [map]. rewrite sumZ_cons, Hd, merge_lookup. lia.
Qed.

Lemma structural_corpus_facts (counts : gmap string Z)
    (documents : list (list FileData)) :
  exists files summary,
    Structural.analyze_json_files e counts documents
    = Some (files, summary)
    /\ map Structural.file_name files
       = map (fun fd => default "" (fd_file_name fd)) (concat documents)
    /\ Structural.total_queries summary
       = sumZ (map Structural.query_count files)
    /\ (forall lvl,
           default 0 (Structural.s_complexity_distribution summary !! lvl)
           = sumZ (map (fun fs =>
                          default 0
                            (Structural.complexity_distribution fs !! lvl))
                     files))
    /\ sumZ (map (fun lvl =>
                    default 0
                      (Structural.s_complexity_distribution summary !! lvl))
               structural_levels)
       = Structural.total_queries summary.
Proof.
  unfold Structural.analyze_json_files.
  match goal with
  | |- context [fold_left _ _ (Some ?s0)] =>
      destruct (structural_file_loop_facts (concat documents) s0)
        as (st' & new & Hloop & [Hf Hn He Ht Hd])
  end.
  rewrite Hloop.
  cbn [Structural.all_files Structural.cs_total_queries
       Structural.overall_complexity_dist app] in Hf, Ht, Hd.
  cbn [mbind option_bind].
  assert (Hsome : exists avg,
    (if Structural.cs_total_queries st' >? 0
     then py_div (inject_Z (Structural.total_score st'))
            (Structural.cs_total_queries st')
     else Some 0%Q) = Some avg).
  { destruct (Structural.cs_total_queries st' >? 0) eqn:Hpos.
    - rewrite py_div_positive by lia. eexists. reflexivity.
    - eexists. reflexivity. }
  destruct Hsome as [avg ->]. cbn [mbind option_bind].
  assert (Hsome : exists avg,
    (if Structural.cs_total_queries st' >? 0
     then py_div (Structural.total_normalized st')
            (Structural.cs_total_queries st')
     else Some 0%Q) = Some avg).
  { destruct (Structural.cs_total_queries st' >? 0) eqn:Hpos.
    - rewrite py_div_positive by lia. eexists. reflexivity.
    - eexists. reflexivity. }
  destruct Hsome as [avg' ->]. cbn [mbind option_bind].
  eexists _, _. split; [reflexivity|].
  cbn [Structural.total_queries Structural.s_complexity_distribution].
  rewrite Hf.
  assert (Hdist : forall lvl,
    default 0 (Structural.overall_complexity_dist st' !! lvl)
    = sumZ (map (fun fs =>
                   default 0 (Structural.complexity_distribution fs !! lvl))
              new)).
  { intros lvl. rewrite Hd, lookup_empty. cbn [from_option id]. lia. }
  split; [exact Hn|]. split; [lia|]. split; [exact Hdist|].
  rewrite Ht, Z.add_0_l. clear Hf Hn Ht Hd Hloop.
  unfold structural_levels in *. cbn [map]. rewrite !Hdist.
  rewrite !sumZ_cons. change (sumZ []) with 0. clear Hdist.
  induction He as [|fs new Hfs _ IH]; [reflexivity|].
  cbn [map] in *. rewrite !sumZ_cons in *. change (sumZ []) with 0 in Hfs.
  lia.
Qed.

End StructuralCorpusResult.

(** X18.  [analyze_json_files] of either engine returns one file result
    per file record, in the order of the documents and of the files in
    them; [total_queries] is the sum of the files' query counts; every
    entry of the overall distribution is the sum of the files' entries;
    and the five entries add up to [total_queries]. *)
Theorem corpus_result_totals
    `{Regex} `{!Structural.MetricPatterns}
    (ce : Conversion.Engine) (se : Structural.Engine)
    (counts : gmap string Z) (documents : list (list FileData)) :
  (exists files summary,
      Conversion.analyze_json_files ce counts documents
      = Some (files, summary)
      /\ map Conversion.file_name files
         = map (fun fd => default "" (fd_file_name fd)) (concat documents)
      /\ Conversion.total_queries summary
         = sumZ (map Conversion.query_count files)
      /\ (forall lvl,
             default 0 (Conversion.s_complexity_distribution summary !! lvl)
             = sumZ (map (fun fs =>
                            default 0
                              (Conversion.complexity_distribution fs !! lvl))
                       files))
      /\ sumZ (map (fun lvl =>
                      default 0
                        (Conversion.s_complexity_distribution summary
                           !! lvl))
                 conversion_levels)
         = Conversion.total_queries summary)
  /\ (exists files summary,
         Structural.analyze_json_files se counts documents
         = Some (files, summary)
         /\ map Structural.file_name files
            = map (fun fd => default "" (fd_file_name fd))
                (concat documents)
         /\ Structural.total_queries summary
            = sumZ (map Structural.query_count files)
         /\ (forall lvl,
                default 0
                  (Structural.s_complexity_distribution summary !! lvl)
                = sumZ (map (fun fs =>
                               default 0
                                 (Structural.complexity_distribution fs
                                    !! lvl))
                          files))
         /\ sumZ (map (fun lvl =>
                         default 0
                           (Structural.s_complexity_distribution summary
                              !! lvl))
                    structural_levels)
            = Structural.total_queries summary).
Proof.
  split.
  - apply conversion_corpus_facts.
  - apply structural_corpus_facts.
Qed.

(** ** The matched rules and the catalogue *)

Section MatchedRules.
Context `{Regex} `{!Structural.MetricPatterns}.

Lemma conversion_rule_step_matched (pre : string) (st : Conversion.loop_state)
    (rule : Conversion.CompiledRule) :
  fst (fst (Conversion.rule_step pre st rule))
  = (fst (fst st)
     ++ (if conversion_rule_count pre rule >? 0
         then [conversion_match_of pre rule] else []))%list.
Proof.
  destruct st as [[matched grades] counts].
  unfold Conversion.rule_step, conversion_match_of, conversion_rule_count,
    conversion_rule_samples.
  destruct (Conversion.compiled_pattern rule) as [p|];
    [|cbn; rewrite app_nil_r; reflexivity].
  destruct (_count_pattern_matches pre p) as [n samples].
  cbn [fst snd]. destruct (n >? 0); cbn [fst snd]; [reflexivity|].
  rewrite app_nil_r. reflexivity.
Qed.

Lemma conversion_rule_loop_matched (pre : string)
    (rules : list Conversion.CompiledRule) (st : Conversion.loop_state) :
  fst (fst (fold_left (Conversion.rule_step pre) rules st))
  = (fst (fst st)
     ++ map (conversion_match_of pre)
          (List.filter (fun rule => conversion_rule_count pre rule >? 0)
             rules))%list.
Proof.
  revert st. induction rules as [|rule rules IH]; intros st.
  - cbn [fold_left List.filter map]. rewrite app_nil_r. reflexivity.
  - cbn [fold_left List.filter]. rewrite IH, conversion_rule_step_matched.
    destruct (conversion_rule_count pre rule >? 0); cbn [map].
    + rewrite <- app_assoc. reflexivity.
    + rewrite app_nil_r. reflexivity.
Qed.

Lemma structural_rule_step_matched (pre : string)
    (st : list Structural.RuleMatch * gmap string Z)
    (rule : Structural.CompiledRule) :
  fst (Structural.rule_step pre st rule)
  = (fst st
     ++ (if structural_rule_count pre rule >? 0
         then [structural_match_of pre rule] else []))%list.
Proof.
  destruct st as [matched counts].
  unfold Structural.rule_step, structural_match_of, structural_rule_count,
    structural_rule_samples.
  destruct (Structural.compiled_pattern rule) as [p|];
    [|cbn; rewrite app_nil_r; reflexivity].
  destruct (_count_pattern_matches pre p) as [n samples].
  cbn [fst snd]. destruct (n >? 0); cbn [fst snd]; [reflexivity|].
  rewrite app_nil_r. reflexivity.
Qed.

Lemma structural_rule_loop_matched (pre : string)
    (rules : list Structural.CompiledRule)
    (st : list Structural.RuleMatch * gmap string Z) :
  fst (fold_left (Structural.rule_step pre) rules st)
  = (fst st
     ++ map (structural_match_of pre)
          (List.filter (fun rule => structural_rule_count pre rule >? 0)
             rules))%list.
Proof.
  revert st. induction rules as [|rule rules IH]; intros st.
  - cbn [fold_left List.filter map]. rewrite app_nil_r. reflexivity.
  - cbn [fold_left List.filter]. rewrite IH, structural_rule_step_matched.
    destruct (structural_rule_count pre rule >? 0); cbn [map].
    + rewrite <- app_assoc. reflexivity.
    + rewrite app_nil_r. reflexivity.
Qed.

Lemma conversion_matched_rules (e : Conversion.Engine)
    (counts : gmap string Z) (sql query_name : string) :
  Conversion.matched_rules
    (fst (Conversion.score_query e counts sql query_name))
  = map (conversion_match_of (_preprocess_sql sql))
      (List.filter
         (fun rule => conversion_rule_count (_preprocess_sql sql) rule >? 0)
         (Conversion.compiled_patterns e)).
Proof.
  destruct (conversion_score_query_fields e counts sql query_name)
    as (-> & _).
  rewrite conversion_rule_loop_matched. reflexivity.
Qed.

(** X19.  The matched rules of a query are the catalogue rules whose
    pattern is found at least once in the preprocessed text, in the
    order of the catalogue, each once, with the rule's own id, name,
    weight and category and the number of finds as match count.  In the
    structural engine the synthetic metric matches come first, then the
    common rules, then the rules of the source DBMS.  So a query never
    has more matched rules than the catalogue has rules (plus the
    metric matches). *)
Theorem matched_rules_follow_catalogue
    (ce : Conversion.Engine) (se : Structural.Engine)
    (counts : gmap string Z) (sql query_name : string) :
  let pre := _preprocess_sql sql in
  let qc := fst (Conversion.score_query ce counts sql query_name) in
  let qs := fst (Structural.score_query se counts sql query_name) in
  let metric_rules :=
    Structural._apply_metric_rules (Structural._calculate_metrics pre) in
  Conversion.matched_rules qc
  = map (conversion_match_of pre)
      (List.filter (fun rule => conversion_rule_count pre rule >? 0)
         (Conversion.compiled_patterns ce))
  /\ (length (Conversion.matched_rules qc)
      <= length (Conversion.compiled_patterns ce))%nat
  /\ Structural.matched_rules qs
     = (metric_rules
        ++ map (structural_match_of pre)
             (List.filter (fun rule => structural_rule_count pre rule >? 0)
                (Structural.common_rules se ++ Structural.dbms_rules se)))
       %list
  /\ (length (Structural.matched_rules qs)
      <= length metric_rules + length (Structural.common_rules se)
         + length (Structural.dbms_rules se))%nat.
Proof.
  cbn zeta.
  pose proof (conversion_matched_rules ce counts sql query_name) as Hc.
  assert (Hs :
    Structural.matched_rules
      (fst (Structural.score_query se counts sql query_name))
    = (Structural._apply_metric_rules
         (Structural._calculate_metrics (_preprocess_sql sql))
       ++ map (structural_match_of (_preprocess_sql sql))
            (List.filter
               (fun rule =>
                  structural_rule_count (_preprocess_sql sql) rule >? 0)
               (Structural.common_rules se ++ Structural.dbms_rules se)))
      %list).
  { destruct (structural_score_query_fields se counts sql query_name)
      as (-> & _).
    rewrite !structural_rule_loop_matched. cbn [fst].
    rewrite List.filter_app, map_app, <- app_assoc. reflexivity. }
  split; [exact Hc|]. split; [|split; [exact Hs|]].
  - rewrite Hc, length_map. apply List.filter_length_le.
  - rewrite Hs, length_app, length_map.
    pose proof (List.filter_length_le
                  (fun rule =>
                     structural_rule_count (_preprocess_sql sql) rule >? 0)
                  (Structural.common_rules se ++ Structural.dbms_rules se))
      as Hle.
    rewrite length_app in Hle. lia.
Qed.

Lemma conversion_compile_patterns_listed (source_db : string)
    (rules : Conversion.RuleFile) :
  Conversion._compile_patterns source_db rules
  = map (fun '(category_name, subcategory_name, rule) =>
           Conversion.compile_rule rule category_name subcategory_name)
      (List.filter
         (fun '(_, _, rule) => Conversion._is_applicable_rule source_db rule)
         (conversion_listed_rules rules)).
Proof.
  unfold Conversion._compile_patterns, conversion_listed_rules.
  induction (default [] (Conversion.rf_rules rules))
    as [|[category_name category_data] categories IH];
    [reflexivity|].
  cbn [flat_map]. rewrite List.filter_app, map_app, <- IH. f_equal.
  clear IH. destruct category_data as [subs|]; [|reflexivity].
  induction subs as [|[subcategory_name rules_list] subs IH];
    [reflexivity|].
  cbn [flat_map]. rewrite List.filter_app, map_app, <- IH. f_equal.
  clear IH. destruct rules_list as [rules_list|]; [|reflexivity].
  induction rules_list as [|rule rules_list IH]; [reflexivity|].
  cbn [map List.filter].
  destruct (Conversion._is_applicable_rule source_db rule);
    cbn [map]; rewrite IH; reflexivity.
Qed.

Lemma is_applicable_rule_spec (source_db : string)
    (rule : Conversion.RawRule) :
  Conversion._is_applicable_rule source_db rule = true
  <-> exists dbs,
        Conversion.raw_applicable_db rule = Some dbs
        /\ (In "ALL" dbs \/ In source_db dbs).
Proof.
  unfold Conversion._is_applicable_rule.
  destruct (Conversion.raw_applicable_db rule) as [dbs|];
    cbn [from_option id].
  - destruct dbs as [|db dbs].
    + split; [discriminate|]. intros (dbs & [= <-] & [[]|[]]).
    + remember (db :: dbs) as l eqn:Hl. clear Hl db dbs.
      assert (Hin : forall x, existsb (String.eqb x) l = true <-> In x l).
      { intros x. rewrite existsb_exists. split.
        - intros (y & Hy & Heq). apply String.eqb_eq in Heq. subst y.
          exact Hy.
        - intros Hx. exists x. split; [exact Hx | apply String.eqb_refl]. }
      destruct l as [|db dbs].
      * split; [discriminate|]. intros (dbs & [= <-] & [[]|[]]).
      * remember (db :: dbs) as l eqn:Hl.
        destruct (existsb (String.eqb "ALL") l) eqn:Hall.
        -- split; [|reflexivity]. intros _. exists l.
           split; [reflexivity|]. left. apply Hin, Hall.
        -- rewrite Hin. split.
           ++ intros Hdb. exists l. split; [reflexivity|]. right.
              exact Hdb.
           ++ intros (l' & [= <-] & [Hx|Hx]); [|exact Hx].
              apply Hin in Hx. congruence.
  - split; [discriminate|]. intros (dbs & [=] & _).
Qed.

Lemma compile_rule_searchable (rule : Conversion.RawRule)
    (category_name subcategory_name : string) :
  searchable rule = false ->
  Conversion.compiled_pattern
    (Conversion.compile_rule rule category_name subcategory_name) = None.
Proof.
  unfold searchable, Conversion.compile_rule.
  cbn [Conversion.compiled_pattern].
  destruct (String.eqb _ "regex"), (String.eqb _ "keyword"),
    (nonempty _); cbn; congruence.
Qed.

(** X20.  The catalogue of a conversion engine holds the rules of the
    rule file that apply to the normalised source DBMS, in the order of
    the file, each under the category and subcategory it is listed
    under: a rule applies when its [applicable_db] list names [ALL] or
    the source DBMS, and a rule without the list never does.  A rule
    whose pattern cannot be searched stays in the catalogue and never
    matches: every matched rule of a query comes from an applicable,
    searchable rule of the file and carries its id, weight and grade. *)
Theorem catalogue_holds_the_applicable_rules
    (rules : Conversion.RuleFile) (source_db : string) :
  let e := Conversion.init rules source_db in
  let db := Conversion._normalize_db_name source_db in
  let kept :=
    List.filter (fun '(_, _, rule) => Conversion._is_applicable_rule db rule)
      (conversion_listed_rules rules) in
  Conversion.source_db e = db
  /\ Conversion.compiled_patterns e
     = map (fun '(category_name, subcategory_name, rule) =>
              Conversion.compile_rule rule category_name subcategory_name)
         kept
  /\ (forall category_name subcategory_name rule,
         In (category_name, subcategory_name, rule) kept
         <-> In (category_name, subcategory_name, rule)
               (conversion_listed_rules rules)
             /\ exists dbs,
                  Conversion.raw_applicable_db rule = Some dbs
                  /\ (In "ALL" dbs \/ In db dbs))
  /\ forall counts sql query_name,
       Forall
         (fun m =>
            exists category_name subcategory_name rule,
              In (category_name, subcategory_name, rule) kept
              /\ searchable rule = true
              /\ Conversion.rule_id m
                 = default "" (Conversion.raw_id rule)
              /\ Conversion.rule_name m
                 = default "" (Conversion.raw_name rule)
              /\ Conversion.rm_weight m
                 = default 0 (Conversion.raw_weight rule)
              /\ Conversion.rm_conversion_grade m
                 = default "P" (Conversion.raw_conversion_grade rule)
              /\ Conversion.rm_category m = category_name
              /\ Conversion.rm_subcategory m = subcategory_name)
         (Conversion.matched_rules
            (fst (Conversion.score_query e counts sql query_name))).
Proof.
  cbn zeta. split; [reflexivity|].
  split; [apply conversion_compile_patterns_listed|]. split.
  - intros category_name subcategory_name rule.
    rewrite List.filter_In, is_applicable_rule_spec. reflexivity.
  - intros counts sql query_name. rewrite conversion_matched_rules.
    apply List.Forall_forall. intros m Hm.
    apply List.in_map_iff in Hm. destruct Hm as (compiled & <- & Hin).
    apply List.filter_In in Hin. destruct Hin as [Hin Hcount].
    cbn [Conversion.init Conversion.compiled_patterns] in Hin.
    rewrite conversion_compile_patterns_listed in Hin.
    apply List.in_map_iff in Hin.
    destruct Hin as ([[category_name subcategory_name] rule] & <- & Hkept).
    exists category_name, subcategory_name, rule.
    split; [exact Hkept|]. split; [|repeat split].
    destruct (searchable rule) eqn:Hsearch; [reflexivity|].
    unfold conversion_rule_count in Hcount.
    rewrite (compile_rule_searchable rule category_name subcategory_name
               Hsearch) in Hcount.
    discriminate.
Qed.

End MatchedRules.

(** ** What the reports select *)

Section Sorting.
Context {A : Type} (key : A -> Q).

Lemma insert_desc_permutation (x : A) (l : list A) :
  insert_desc key x l ≡ₚ x :: l.
Proof.
  induction l as [|y l IH]; [reflexivity|].
  cbn [insert_desc]. destruct (Qle_bool (key y) (key x)); [reflexivity|].
  rewrite IH. apply Permutation_swap.
Qed.

Lemma py_sorted_desc_permutation (l : list A) : py_sorted_desc key l ≡ₚ l.
Proof.
  unfold py_sorted_desc. induction l as [|x l IH]; [reflexivity|].
  cbn [fold_right]. rewrite insert_desc_permutation, IH. reflexivity.
Qed.

Lemma insert_desc_sorted (x : A) (l : list A) :
  StronglySorted (fun a b => (key b <= key a)%Q) l ->
  StronglySorted (fun a b => (key b <= key a)%Q) (insert_desc key x l).
Proof.
  induction l as [|y l IH]; intros Hsorted.
  - cbn [insert_desc]. constructor; [constructor | apply List.Forall_nil].
  - cbn [insert_desc]. destruct (Qle_bool (key y) (key x)) eqn:Hle.
    + apply Qle_bool_iff in Hle. constructor; [exact Hsorted|].
      apply StronglySorted_inv in Hsorted. destruct Hsorted as [_ Hall].
      apply List.Forall_cons; [exact Hle|].
      eapply List.Forall_impl; [|exact Hall].
      intros b Hb. cbn beta in *. eapply Qle_trans; eassumption.
    + apply StronglySorted_inv in Hsorted.
      destruct Hsorted as [Hsorted Hall].
      constructor; [apply IH, Hsorted|].
      rewrite insert_desc_permutation.
      apply List.Forall_cons; [|exact Hall].
      apply Qlt_le_weak, Qnot_le_lt. intros Hyx.
      apply Qle_bool_iff in Hyx. congruence.
Qed.

Lemma py_sorted_desc_sorted (l : list A) :
  StronglySorted (fun a b => (key b <= key a)%Q) (py_sorted_desc key l).
Proof.
  unfold py_sorted_desc. induction l as [|x l IH].
  - constructor.
  - cbn [fold_right]. apply insert_desc_sorted, IH.
Qed.

Lemma insert_desc_stable (k : Q) (x : A) (l : list A) :
  List.filter (fun a => Qeq_bool (key a) k) (insert_desc key x l)
  = List.filter (fun a => Qeq_bool (key a) k) (x :: l).
Proof.
  induction l as [|y l IH]; [reflexivity|].
  cbn [insert_desc]. destruct (Qle_bool (key y) (key x)) eqn:Hle;
    [reflexivity|].
  cbn [List.filter] in *. rewrite IH.
  destruct (Qeq_bool (key x) k) eqn:Hx, (Qeq_bool (key y) k) eqn:Hy;
    try reflexivity.
  apply Qeq_bool_iff in Hx, Hy.
  assert (Hyx : (key y <= key x)%Q) by (rewrite Hx, Hy; apply Qle_refl).
  apply Qle_bool_iff in Hyx. congruence.
Qed.

Lemma py_sorted_desc_stable (k : Q) (l : list A) :
  List.filter (fun a => Qeq_bool (key a) k) (py_sorted_desc key l)
  = List.filter (fun a => Qeq_bool (key a) k) l.
Proof.
  unfold py_sorted_desc. induction l as [|x l IH]; [reflexivity|].
  cbn [fold_right]. rewrite insert_desc_stable.
  cbn [List.filter]. rewrite IH. reflexivity.
Qed.

Lemma sorted_split (n : nat) (l : list A) :
  StronglySorted (fun a b => (key b <= key a)%Q) l ->
  StronglySorted (fun a b => (key b <= key a)%Q) (take n l)
  /\ Forall (fun a => Forall (fun b => (key b <= key a)%Q) (drop n l))
       (take n l).
Proof.
  revert n. induction l as [|x l IH]; intros n Hsorted.
  - rewrite take_nil. split; [constructor | apply List.Forall_nil].
  - destruct n as [|n].
    + cbn [take]. split; [constructor | apply List.Forall_nil].
    + apply StronglySorted_inv in Hsorted.
      destruct Hsorted as [Hsorted Hall].
      destruct (IH n Hsorted) as [Htake Hdrop].
      assert (Hparts : Forall (fun b => (key b <= key x)%Q)
                         (take n l ++ drop n l)%list)
        by (rewrite take_drop; exact Hall).
      apply List.Forall_app in Hparts. destruct Hparts as [Hl Hr].
      cbn [take drop]. split.
      * constructor; assumption.
      * apply List.Forall_cons; assumption.
Qed.

Lemma take_sorted_selection (n : nat) (l : list A) :
  top_selection key n l (take n (py_sorted_desc key l)).
Proof.
  pose proof (py_sorted_desc_permutation l) as Hperm.
  destruct (sorted_split n _ (py_sorted_desc_sorted l)) as [Hsorted Hrest].
  split; [|split; [exact Hsorted|split]].
  - rewrite length_take. f_equal. apply Permutation_length, Hperm.
  - exists (drop n (py_sorted_desc key l)).
    rewrite take_drop. split; assumption.
  - intros k. rewrite <- (py_sorted_desc_stable k l).
    rewrite <- (take_drop n (py_sorted_desc key l)) at 2.
    rewrite List.filter_app. apply prefix_app_r. reflexivity.
Qed.

Lemma take_sorted_complete (n : nat) (l : list A) (x : A) :
  In x l ->
  In x (take n (py_sorted_desc key l))
  \/ (length (take n (py_sorted_desc key l)) = n
      /\ Forall (fun a => (key x <= key a)%Q)
           (take n (py_sorted_desc key l))).
Proof.
  intros Hin.
  destruct (sorted_split n _ (py_sorted_desc_sorted l)) as [_ Hrest].
  assert (Hparts : In x (take n (py_sorted_desc key l)
                         ++ drop n (py_sorted_desc key l))%list).
  { rewrite take_drop. apply list_elem_of_In.
    rewrite py_sorted_desc_permutation. apply list_elem_of_In, Hin. }
  apply List.in_app_iff in Hparts. destruct Hparts as [Hl|Hr];
    [left; exact Hl|]. right. split.
  - rewrite length_take. apply Nat.min_l.
    destruct (le_lt_dec n (length (py_sorted_desc key l))) as [Hle|Hlt];
      [exact Hle|].
    rewrite drop_ge in Hr by lia. destruct Hr.
  - eapply List.Forall_impl; [|exact Hrest].
    intros a Ha. cbn beta in Ha.
    rewrite List.Forall_forall in Ha. apply Ha, Hr.
Qed.

End Sorting.

Section HighComplexity.
Context {F Q' : Type} (score : Q' -> Q) (file_name : F -> string)
  (queries : F -> list Q') (threshold : Q) (files : list F).

Lemma candidates_spec (item : string * Q') :
  In item (threshold_candidates score file_name queries threshold files)
  <-> exists file_score,
        In file_score files
        /\ file_name file_score = fst item
        /\ In (snd item) (queries file_score)
        /\ (threshold <= score (snd item))%Q.
Proof.
  unfold threshold_candidates. rewrite List.in_flat_map. split.
  - intros (file_score & Hfile & Hitem).
    apply List.in_map_iff in Hitem. destruct Hitem as (q & <- & Hq).
    apply List.filter_In in Hq. destruct Hq as [Hq Hscore].
    apply Qle_bool_iff in Hscore. exists file_score. cbn [fst snd].
    repeat split; assumption.
  - intros (file_score & Hfile & Hname & Hq & Hscore).
    exists file_score. split; [exact Hfile|].
    apply List.in_map_iff. exists (snd item). split.
    + rewrite Hname. destruct item; reflexivity.
    + apply List.filter_In. split; [exact Hq|].
      apply Qle_bool_iff, Hscore.
Qed.

Lemma high_complexity_selection (n : nat) :
  let listed :=
    take n
      (py_sorted_desc (fun item => score (snd item))
         (threshold_candidates score file_name queries threshold files)) in
  (length listed <= n)%nat
  /\ StronglySorted (fun a b => (score (snd b) <= score (snd a))%Q) listed
  /\ Forall (fun item =>
               exists file_score,
                 In file_score files
                 /\ file_name file_score = fst item
                 /\ In (snd item) (queries file_score)
                 /\ (threshold <= score (snd item))%Q) listed
  /\ forall file_score q,
       In file_score files -> In q (queries file_score) ->
       (threshold <= score q)%Q ->
       In (file_name file_score, q) listed
       \/ (length listed = n
           /\ Forall (fun item => (score q <= score (snd item))%Q) listed).
Proof.
  cbn zeta.
  destruct (take_sorted_selection (fun item => score (snd item)) n
              (threshold_candidates score file_name queries threshold
                 files))
    as (Hlen & Hsorted & (rest & Hperm & _) & _).
  split; [rewrite Hlen; apply Nat.le_min_l|].
  split; [exact Hsorted|]. split.
  - apply List.Forall_forall. intros item Hitem.
    apply candidates_spec. apply list_elem_of_In. rewrite <- Hperm.
    apply list_elem_of_In, List.in_app_iff. left. exact Hitem.
  - intros file_score q Hfile Hq Hscore.
    apply (take_sorted_complete (fun item => score (snd item)) n
             (threshold_candidates score file_name queries threshold files)
             (file_name file_score, q)).
    apply candidates_spec. exists file_score. cbn [fst snd].
    repeat split; assumption.
Qed.

End HighComplexity.

(** X21.  What the reports list.  The rules named in a row are the [n]
    matched rules with the largest [weight * match_count], largest
    first (5 in the CSV file, 3 in the Markdown table); the queries
    listed for a file are its 20 highest-scoring ones; ties keep the
    order of the result.  The high-complexity list has at most 50
    entries, highest score first, every entry is a query of the named
    file that reaches the threshold (50 weighted, or 6 normalised), and
    a query that reaches it is left out only when 50 entries with
    scores at least as high are listed. *)
Theorem report_selections
    (n : nat) (qc : Conversion.QueryScore) (qs : Structural.QueryScore)
    (fc : Conversion.FileScore) (fs : Structural.FileScore)
    (cfiles : list Conversion.FileScore)
    (sfiles : list Structural.FileScore) :
  top_selection
    (fun r => inject_Z (Conversion.rm_weight r * Conversion.match_count r))
    n (Conversion.matched_rules qc) (ConversionReport.top_rules n qc)
  /\ top_selection
       (fun r => inject_Z (Structural.rm_weight r * Structural.match_count r))
       n (Structural.matched_rules qs) (StructuralReport.top_rules n qs)
  /\ top_selection Conversion.weighted_score 20 (Conversion.queries fc)
       (ConversionReport.listed_queries fc)
  /\ top_selection Structural.normalized_score 20 (Structural.queries fs)
       (StructuralReport.listed_queries fs)
  /\ (let listed := ConversionReport.high_complexity_queries cfiles in
      (length listed <= 50)%nat
      /\ StronglySorted
           (fun a b => (Conversion.weighted_score (snd b)
                        <= Conversion.weighted_score (snd a))%Q) listed
      /\ Forall (fun item =>
                   exists file_score,
                     In file_score cfiles
                     /\ Conversion.file_name file_score = fst item
                     /\ In (snd item) (Conversion.queries file_score)
                     /\ (50 <= Conversion.weighted_score (snd item))%Q)
           listed
      /\ forall file_score q,
           In file_score cfiles -> In q (Conversion.queries file_score) ->
           (50 <= Conversion.weighted_score q)%Q ->
           In (Conversion.file_name file_score, q) listed
           \/ (length listed = 50%nat
               /\ Forall (fun item =>
                            (Conversion.weighted_score q
                             <= Conversion.weighted_score (snd item))%Q)
                    listed))
  /\ (let listed := StructuralReport.high_complexity_queries sfiles in
      (length listed <= 50)%nat
      /\ StronglySorted
           (fun a b => (Structural.normalized_score (snd b)
                        <= Structural.normalized_score (snd a))%Q) listed
      /\ Forall (fun item =>
                   exists file_score,
                     In file_score sfiles
                     /\ Structural.file_name file_score = fst item
                     /\ In (snd item) (Structural.queries file_score)
                     /\ (6 <= Structural.normalized_score (snd item))%Q)
           listed
      /\ forall file_score q,
           In file_score sfiles -> In q (Structural.queries file_score) ->
           (6 <= Structural.normalized_score q)%Q ->
           In (Structural.file_name file_score, q) listed
           \/ (length listed = 50%nat
               /\ Forall (fun item =>
                            (Structural.normalized_score q
                             <= Structural.normalized_score (snd item))%Q)
                    listed)).
Proof.
  repeat split_and; try apply take_sorted_selection.
  - apply (high_complexity_selection Conversion.weighted_score
             Conversion.file_name Conversion.queries 50 cfiles 50).
  - apply (high_complexity_selection Structural.normalized_score
             Structural.file_name Structural.queries 6 sfiles 50).
Qed.
